(** * HarnessSync: a shallow embedding of the synchronisation engine

    The development follows the Python sources under
    [plugins/HarnessSync/src]: the result record ([adapters/result.py]),
    the secret detector ([secret_detector.py]), the scoped MCP discovery
    of the source reader ([source_reader.py]), the adapter contract
    ([adapters/base.py]), the state manager ([state_manager.py]) and the
    orchestrator ([orchestrator.py]).

    Conventions.
    - A Python [str] is a [string]; names and values are taken to be ASCII
      (the byte model of [str.upper] leaves other bytes alone).
    - A Python [dict] with [str] keys is an association list in insertion
      order ([PyDict]); a dict never holds a key twice, which is the
      predicate [PyDict.wf].
    - A Python [int] is a [Z].
    - [datetime.now().isoformat()] is a reading of a clock kept in the
      world state; readings are numbered, their rendering is not modelled.
    - An operation that may raise returns an [Outcome]; [Raised] stands for
      exceptions deriving from [Exception], the ones [except Exception]
      handles. *)

From Stdlib Require Import String Ascii List ZArith Lia Bool Permutation.
From Stdlib Require Import Sorted.
From Stdlib Require Import DecimalString.
Import ListNotations.

Open Scope string_scope.
Open Scope list_scope.

(* ================================================================== *)
(** * Part I: definitions *)
(* ================================================================== *)

(** ** Python strings *)

Module PyStr.

(** The newline character. *)
Definition nl : string := String (ascii_of_nat 10) EmptyString.

Definition is_lower (c : ascii) : bool :=
  let n := nat_of_ascii c in (97 <=? n)%nat && (n <=? 122)%nat.

Definition is_upper (c : ascii) : bool :=
  let n := nat_of_ascii c in (65 <=? n)%nat && (n <=? 90)%nat.

Definition is_digit (c : ascii) : bool :=
  let n := nat_of_ascii c in (48 <=? n)%nat && (n <=? 57)%nat.

Definition upper_char (c : ascii) : ascii :=
  if is_lower c then ascii_of_nat (nat_of_ascii c - 32) else c.

(** [s.upper()] *)
Fixpoint upper (s : string) : string :=
  match s with
  | EmptyString => EmptyString
  | String c r => String (upper_char c) (upper r)
  end.

(** [s.startswith(p)] *)
Definition startswith (s p : string) : bool := String.prefix p s.

(** [k in s] on strings: [k] occurs in [s] as a substring. *)
Fixpoint contains (s k : string) : bool :=
  String.prefix k s ||
  match s with
  | EmptyString => false
  | String _ r => contains r k
  end.

(** [sep.join(l)] *)
Definition join (sep : string) (l : list string) : string :=
  String.concat sep l.

(** [str(n)] for a non-negative length and for an [int]. *)
Definition of_nat (n : nat) : string :=
  NilEmpty.string_of_uint (Nat.to_uint n).

Definition of_Z (z : Z) : string :=
  NilZero.string_of_int (Z.to_int z).

Fixpoint forall_chars (p : ascii -> bool) (s : string) : bool :=
  match s with
  | EmptyString => true
  | String c r => p c && forall_chars p r
  end.

(** [sorted(l)] on strings, by insertion. *)
Fixpoint insert_sorted (x : string) (l : list string) : list string :=
  match l with
  | [] => [x]
  | y :: r => if String.leb x y then x :: l else y :: insert_sorted x r
  end.

Definition sorted (l : list string) : list string :=
  fold_right insert_sorted [] l.

End PyStr.

(** ** Python dictionaries with string keys *)

Module PyDict.

Section Dict.
Context {V : Type}.

Definition dict : Type := list (string * V).

Definition empty : dict := [].

(** [d.get(k)] *)
Fixpoint get (k : string) (d : dict) : option V :=
  match d with
  | [] => None
  | (k', v) :: r => if String.eqb k k' then Some v else get k r
  end.

(** [d.get(k, default)] *)
Definition get_default (k : string) (default : V) (d : dict) : V :=
  match get k d with
  | Some v => v
  | None => default
  end.

(** [k in d] *)
Definition contains (k : string) (d : dict) : bool :=
  match get k d with
  | Some _ => true
  | None => false
  end.

(** [d[k] = v]: an existing key keeps its position, a new key goes
    last. *)
Fixpoint set (k : string) (v : V) (d : dict) : dict :=
  match d with
  | [] => [(k, v)]
  | (k', v') :: r =>
      if String.eqb k k' then (k', v) :: r else (k', v') :: set k v r
  end.

(** [del d[k]] for a key that may be absent. *)
Fixpoint remove (k : string) (d : dict) : dict :=
  match d with
  | [] => []
  | (k', v') :: r =>
      if String.eqb k k' then r else (k', v') :: remove k r
  end.

(** [d.keys()], [d.values()], [d.items()] in iteration order. *)
Definition keys (d : dict) : list string := map fst d.
Definition values (d : dict) : list V := map snd d.
Definition items (d : dict) : list (string * V) := d.

(** [d.update(other)] *)
Definition update (d other : dict) : dict :=
  fold_left (fun acc kv => set (fst kv) (snd kv) acc) other d.

(** A dict holds each key once. *)
Definition wf (d : dict) : Prop := NoDup (keys d).

(** [not d]: the empty dict is falsy. *)
Definition is_empty (d : dict) : bool :=
  match d with
  | [] => true
  | _ :: _ => false
  end.

End Dict.

Arguments dict : clear implicits.

End PyDict.

(** ** adapters/result.py *)

Module Result.

Local Open Scope Z_scope.

Record SyncResult : Type := mkSyncResult {
  synced : Z;
  skipped : Z;
  failed : Z;
  adapted : Z;
  synced_files : list string;
  skipped_files : list string;
  failed_files : list string
}.

(** [SyncResult()] with every field at its default. *)
Definition default : SyncResult := mkSyncResult 0 0 0 0 [] [] [].

(** [SyncResult(failed=1, failed_files=[msg])] *)
Definition failure (msg : string) : SyncResult :=
  mkSyncResult 0 0 1 0 [] [] [msg].

Definition merge (self other : SyncResult) : SyncResult :=
  mkSyncResult
    (synced self + synced other)
    (skipped self + skipped other)
    (failed self + failed other)
    (adapted self + adapted other)
    (synced_files self ++ synced_files other)
    (skipped_files self ++ skipped_files other)
    (failed_files self ++ failed_files other).

Definition total (self : SyncResult) : Z :=
  synced self + skipped self + failed self.

(** The [status] property. *)
Definition status (self : SyncResult) : string :=
  if total self =? 0 then "nothing"
  else if failed self =? 0 then "success"
  else if (synced self >? 0) && (failed self >? 0) then "partial"
  else "failed".

(** Two results agree up to the order of their file lists. *)
Definition equiv (a b : SyncResult) : Prop :=
  synced a = synced b /\ skipped a = skipped b /\
  failed a = failed b /\ adapted a = adapted b /\
  Permutation (synced_files a) (synced_files b) /\
  Permutation (skipped_files a) (skipped_files b) /\
  Permutation (failed_files a) (failed_files b).

End Result.

(** ** source_reader.py: scoped MCP discovery *)

Module SourceReader.

(** A JSON value of a server config: a string ([command], [url]), a list
    of strings ([args]) or an object of strings ([env]). *)
Inductive pyval : Type :=
| PStr (s : string)
| PList (l : list string)
| PDict (d : PyDict.dict string).

(** A server config, the value of an entry of [mcpServers]. *)
Definition config : Type := PyDict.dict pyval.

(** The [scope] and [source] tags of the metadata. *)
Inductive Scope : Type := user | project | local.
Inductive Source : Type := file | plugin.

Record Metadata : Type := mkMetadata {
  scope : Scope;
  source : Source;
  plugin_name : option string;
  plugin_version : option string
}.

(** [{"config": ..., "metadata": ...}] *)
Record ScopedEntry : Type := mkScopedEntry {
  entry_config : config;
  metadata : Metadata
}.

(** An entry returned by [_get_plugin_mcp_servers]: the expanded config
    on which the keys [_plugin_name], [_plugin_version] and [_source] have
    been set; the two tags that are read back are kept as fields. *)
Record PluginServer : Type := mkPluginServer {
  expanded : config;
  _plugin_name : string;
  _plugin_version : string
}.

(** The reader: its scope filter ([user], [project] or [all]), its
    project directory, and what the four discovery helpers read from the
    file system. *)
Record t : Type := mkReader {
  reader_scope : string;
  project_dir : option string;
  _get_user_scope_mcps : PyDict.dict config;
  _get_plugin_mcp_servers : PyDict.dict PluginServer;
  _get_project_scope_mcps : PyDict.dict config;
  _get_local_scope_mcps : PyDict.dict config
}.

(** [self.scope in (...)] *)
Definition scope_in (r : t) (choices : list string) : bool :=
  existsb (String.eqb (reader_scope r)) choices.

(** [self.scope in ("project", "all") and self.project_dir] *)
Definition project_enabled (r : t) : bool :=
  scope_in r ["project"; "all"] &&
  match project_dir r with
  | Some _ => true
  | None => false
  end.

Definition file_entry (sc : Scope) (c : config) : ScopedEntry :=
  mkScopedEntry c (mkMetadata sc file None None).

(** [{k: v for k, v in config.items() if not k.startswith("_")}] *)
Definition clean_config (c : config) : config :=
  filter (fun kv => negb (PyStr.startswith (fst kv) "_")) c.

Definition plugin_entry (p : PluginServer) : ScopedEntry :=
  mkScopedEntry (clean_config (expanded p))
    (mkMetadata user plugin (Some (_plugin_name p))
                (Some (_plugin_version p))).

(** A loop [for name, config in layer.items(): servers[name] = ...] over
    a file-based layer. *)
Definition add_file_layer (sc : Scope) (layer : PyDict.dict config)
    (servers : PyDict.dict ScopedEntry) : PyDict.dict ScopedEntry :=
  fold_left
    (fun servers kv => PyDict.set (fst kv) (file_entry sc (snd kv)) servers)
    (PyDict.items layer) servers.

(** The loop over the plugin layer, guarded by [name not in servers]. *)
Definition add_plugin_layer (layer : PyDict.dict PluginServer)
    (servers : PyDict.dict ScopedEntry) : PyDict.dict ScopedEntry :=
  fold_left
    (fun servers kv =>
       if negb (PyDict.contains (fst kv) servers)
       then PyDict.set (fst kv) (plugin_entry (snd kv)) servers
       else servers)
    (PyDict.items layer) servers.

Definition get_mcp_servers_with_scope (r : t) : PyDict.dict ScopedEntry :=
  let servers := [] in
  let servers :=
    if scope_in r ["user"; "all"]
    then add_file_layer user (_get_user_scope_mcps r) servers
    else servers in
  let servers :=
    if scope_in r ["user"; "all"]
    then add_plugin_layer (_get_plugin_mcp_servers r) servers
    else servers in
  let servers :=
    if project_enabled r
    then add_file_layer project (_get_project_scope_mcps r) servers
    else servers in
  let servers :=
    if project_enabled r
    then add_file_layer local (_get_local_scope_mcps r) servers
    else servers in
  servers.

(** [get_mcp_servers]: the flat view [{name: entry["config"]}]. *)
Definition get_mcp_servers (r : t) : PyDict.dict config :=
  map (fun kv => (fst kv, entry_config (snd kv)))
      (get_mcp_servers_with_scope r).

(** The layers as they are discovered under the scope filter. *)
Definition discovered_user (r : t) : PyDict.dict config :=
  if scope_in r ["user"; "all"] then _get_user_scope_mcps r else [].
Definition discovered_plugin (r : t) : PyDict.dict PluginServer :=
  if scope_in r ["user"; "all"] then _get_plugin_mcp_servers r else [].
Definition discovered_project (r : t) : PyDict.dict config :=
  if project_enabled r then _get_project_scope_mcps r else [].
Definition discovered_local (r : t) : PyDict.dict config :=
  if project_enabled r then _get_local_scope_mcps r else [].

(** The entry the precedence rule selects for a name: local over project
    over user, a plugin entry only when no user file entry has the
    name. *)
Definition by_precedence (r : t) (name : string) : option ScopedEntry :=
  match PyDict.get name (discovered_local r) with
  | Some c => Some (file_entry local c)
  | None =>
      match PyDict.get name (discovered_project r) with
      | Some c => Some (file_entry project c)
      | None =>
          match PyDict.get name (discovered_user r) with
          | Some c => Some (file_entry user c)
          | None =>
              match PyDict.get name (discovered_plugin r) with
              | Some p => Some (plugin_entry p)
              | None => None
              end
          end
      end
  end.

(** Two readers that discover the same layers in another order. *)
Definition same_layers (r r' : t) : Prop :=
  reader_scope r = reader_scope r' /\
  project_dir r = project_dir r' /\
  Permutation (_get_user_scope_mcps r) (_get_user_scope_mcps r') /\
  Permutation (_get_plugin_mcp_servers r) (_get_plugin_mcp_servers r') /\
  Permutation (_get_project_scope_mcps r) (_get_project_scope_mcps r') /\
  Permutation (_get_local_scope_mcps r) (_get_local_scope_mcps r').

(** Every layer is a dict. *)
Definition layers_wf (r : t) : Prop :=
  PyDict.wf (_get_user_scope_mcps r) /\
  PyDict.wf (_get_plugin_mcp_servers r) /\
  PyDict.wf (_get_project_scope_mcps r) /\
  PyDict.wf (_get_local_scope_mcps r).

End SourceReader.

(** ** secret_detector.py *)

Module SecretDetector.

Import PyStr.

(** Keyword patterns to match in env var names. *)
Definition SECRET_KEYWORDS : list string :=
  [ "API_KEY"; "APIKEY"; "API-KEY";
    "SECRET"; "SECRET_KEY";
    "PASSWORD"; "PASSWD"; "PWD";
    "TOKEN"; "ACCESS_TOKEN"; "AUTH_TOKEN";
    "PRIVATE_KEY" ].

(** Safe prefixes to whitelist (testing/example values). *)
Definition SAFE_PREFIXES : list string :=
  [ "TEST_"; "EXAMPLE_"; "DEMO_";
    "MOCK_"; "FAKE_"; "DUMMY_" ].

(** The character class [[A-Za-z0-9_\-+=/.]]. *)
Definition value_char (c : ascii) : bool :=
  is_upper c || is_lower c || is_digit c ||
  existsb (Ascii.eqb c) (list_ascii_of_string "_-+=/.").

(** [$] without [re.MULTILINE] matches at the end of the string and
    also just before a newline that ends the string. *)
Fixpoint drop_final_newline (s : string) : string :=
  match s with
  | EmptyString => EmptyString
  | String c r =>
      match r with
      | EmptyString =>
          if Ascii.eqb c (ascii_of_nat 10) then EmptyString else s
      | String _ _ => String c (drop_final_newline r)
      end
  end.

(** [SECRET_VALUE_PATTERN.match(value)] is not [None], for the pattern
    [^[A-Za-z0-9_\-+=/.]{16,}$]. *)
Definition SECRET_VALUE_PATTERN_match (value : string) : bool :=
  let body := drop_final_newline value in
  (16 <=? String.length body)%nat && forall_chars value_char body.

(** A detection: the dict literal built by [scan], with its four
    keys as fields. *)
Record Detection : Type := mkDetection {
  var_name : string;
  keywords_matched : list string;
  confidence : string;
  reason : string
}.

(** [any(var_upper.startswith(prefix) for prefix in SAFE_PREFIXES)] *)
Definition has_safe_prefix (var_upper : string) : bool :=
  existsb (startswith var_upper) SAFE_PREFIXES.

(** [[keyword for keyword in SECRET_KEYWORDS if keyword in var_upper]] *)
Definition matched_keywords_of (var_upper : string) : list string :=
  filter (contains var_upper) SECRET_KEYWORDS.

(** The dict appended for a flagged variable; it is built from the
    name alone. *)
Definition detection_of (name : string) : Detection :=
  let matched_keywords := matched_keywords_of (upper name) in
  {| var_name := name;
     keywords_matched := matched_keywords;
     confidence := "medium";
     reason := ("Contains keywords: " ++ join ", " matched_keywords)%string |}.

(** The loop of [scan] over [env_vars.items()], [detections] being the
    list built so far. *)
Fixpoint scan_loop (items : list (string * string))
    (detections : list Detection) : list Detection :=
  match items with
  | [] => detections
  | (name, var_value) :: rest =>
      let var_upper := upper name in
      if has_safe_prefix var_upper then scan_loop rest detections
      else
        let matched_keywords := matched_keywords_of var_upper in
        match matched_keywords with
        | [] => scan_loop rest detections
        | _ :: _ =>
            if negb (SECRET_VALUE_PATTERN_match var_value)
            then scan_loop rest detections
            else scan_loop rest (detections ++ [detection_of name])
        end
  end.

Definition scan (env_vars : PyDict.dict string) : list Detection :=
  scan_loop (PyDict.items env_vars) [].

(** [scan_mcp_env(mcp_servers)]: the [env] objects of the servers are
    merged with [dict.update], in the order of the servers, and scanned.
    A server without [env], or whose [env] is not an object, adds
    nothing. *)
Definition collect_env (mcp_servers : PyDict.dict SourceReader.config)
    : PyDict.dict string :=
  fold_left
    (fun all_env_vars kv =>
       match PyDict.get "env" (snd kv) with
       | Some (SourceReader.PDict env) => PyDict.update all_env_vars env
       | Some _ => all_env_vars
       | None => all_env_vars
       end)
    (PyDict.items mcp_servers) [].

Definition scan_mcp_env (mcp_servers : PyDict.dict SourceReader.config)
    : list Detection :=
  scan (collect_env mcp_servers).

(** [should_block(detections, allow_secrets)] *)
Definition should_block (detections : list Detection)
    (allow_secrets : bool) : bool :=
  match detections with
  | [] => false
  | _ :: _ => if allow_secrets then false else true
  end.

(** [format_warnings(detections)] *)
Definition format_warnings (detections : list Detection) : string :=
  match detections with
  | [] => ""
  | _ :: _ =>
      let header :=
        (nl ++ "⚠ Detected " ++ of_nat (List.length detections) ++
         " potential secret(s) in environment variables:")%string in
      let body :=
        map (fun detection =>
               ("  · " ++ var_name detection ++ " — " ++
                reason detection)%string)
            detections in
      let footer :=
        [ (nl ++ "Secrets should not be synced to target configs.")%string;
          "Use --allow-secrets to override this warning (NOT recommended)." ]
      in
      join nl ((header :: body) ++ footer)
  end.

(** A variable is flagged when some detection carries its name. *)
Definition flagged (env_vars : PyDict.dict string) (name : string) : Prop :=
  exists d, In d (scan env_vars) /\ var_name d = name.

(** The condition under which the code flags a variable. *)
Definition flag_condition (name value : string) : bool :=
  negb (has_safe_prefix (upper name)) &&
  existsb (contains (upper name)) SECRET_KEYWORDS &&
  SECRET_VALUE_PATTERN_match value.

(** What one pass of the loop body of [scan] contributes. *)
Definition scan_var (kv : string * string) : list Detection :=
  if flag_condition (fst kv) (snd kv) then [detection_of (fst kv)] else [].

(** The condition read off the specification's sentence, which tests
    the name as it is written: it contains a keyword, the value matches
    the pattern, and the name carries no whitelisted prefix. *)
Definition spec_flag_condition (name value : string) : bool :=
  negb (has_safe_prefix name) &&
  existsb (contains name) SECRET_KEYWORDS &&
  SECRET_VALUE_PATTERN_match value.

End SecretDetector.

(** ** state_manager.py *)

Module StateManager.

Local Open Scope Z_scope.

(** A reading of [datetime.now().isoformat()]. *)
Definition timestamp : Type := nat.

(** [TargetState]: the [target_data] dict written by [record_sync]. *)
Record TargetState : Type := mkTargetState {
  ts_last_sync : timestamp;
  ts_status : string;
  ts_scope : string;
  ts_file_hashes : PyDict.dict string;
  ts_sync_method : PyDict.dict string;
  ts_items_synced : Z;
  ts_items_skipped : Z;
  ts_items_failed : Z
}.

(** [PluginMeta]: [{version, mcp_count, mcp_servers, last_sync}]. *)
Record PluginMeta : Type := mkPluginMeta {
  pm_version : string;
  pm_mcp_count : Z;
  pm_mcp_servers : list string;
  pm_last_sync : timestamp
}.

(** An entry of [accounts]; a key that is absent is [None]. *)
Record AccountState : Type := mkAccountState {
  acc_last_sync : option timestamp;
  acc_targets : option (PyDict.dict TargetState);
  acc_plugins : option (PyDict.dict PluginMeta)
}.

(** The state document [self._state]. *)
Record State : Type := mkState {
  st_version : Z;
  st_last_sync : option timestamp;
  st_targets : option (PyDict.dict TargetState);
  st_accounts : option (PyDict.dict AccountState);
  st_plugins : option (PyDict.dict PluginMeta)
}.

(** The manager: the document in memory, the document in the state file
    ([None] before the first write) and the clock. *)
Record t : Type := mkManager {
  _state : State;
  state_file : option State;
  clock : nat
}.

(** The fresh document [{"version": 2, "targets": {}, "accounts": {}}]. *)
Definition fresh_state : State := mkState 2 None (Some []) (Some []) None.

(** [d.get(key, {})] for a key holding a dict. *)
Definition or_empty {V} (o : option (PyDict.dict V)) : PyDict.dict V :=
  match o with
  | Some d => d
  | None => []
  end.

(** [not account_state] for an account dict: it has no key at all. *)
Definition account_falsy (a : AccountState) : bool :=
  match acc_last_sync a, acc_targets a, acc_plugins a with
  | None, None, None => true
  | _, _, _ => false
  end.

(** [datetime.now()]: read the clock, which then moves on. *)
Definition now (sm : t) : timestamp * t :=
  (clock sm, mkManager (_state sm) (state_file sm) (S (clock sm))).

(** [_save]: the document in memory replaces the state file. *)
Definition _save (sm : t) : t :=
  mkManager (_state sm) (Some (_state sm)) (clock sm).

Definition with_state (sm : t) (st : State) : t :=
  mkManager st (state_file sm) (clock sm).

(** The status computed at the head of [record_sync]. *)
Definition record_sync_status (synced skipped failed : Z) : string :=
  if failed =? 0 then "success"
  else if (synced >? 0) && (failed >? 0) then "partial"
  else "failed".

Definition record_sync (sm : t) (target scope : string)
    (file_hashes sync_methods : PyDict.dict string)
    (synced skipped failed : Z) (account : option string) : t :=
  let status := record_sync_status synced skipped failed in
  let (t0, sm) := now sm in
  let target_data :=
    mkTargetState t0 status scope file_hashes sync_methods
                  synced skipped failed in
  let sm :=
    match account with
    | Some account =>
        let st := _state sm in
        let accounts := or_empty (st_accounts st) in
        let entry :=
          match PyDict.get account accounts with
          | Some a => a
          | None => mkAccountState None (Some []) None
          end in
        let targets := or_empty (acc_targets entry) in
        let (t1, sm) := now sm in
        let entry :=
          mkAccountState (Some t1)
                         (Some (PyDict.set target target_data targets))
                         (acc_plugins entry) in
        with_state sm
          (mkState (st_version st) (st_last_sync st) (st_targets st)
                   (Some (PyDict.set account entry accounts))
                   (st_plugins st))
    | None =>
        let st := _state sm in
        with_state sm
          (mkState (st_version st) (st_last_sync st)
                   (Some (PyDict.set target target_data
                                     (or_empty (st_targets st))))
                   (st_accounts st) (st_plugins st))
    end in
  let (t2, sm) := now sm in
  let st := _state sm in
  _save (with_state sm
           (mkState (st_version st) (Some t2) (st_targets st)
                    (st_accounts st) (st_plugins st))).

(** [get_target_status] and [get_account_target_status]. *)
Definition get_target_status (sm : t) (target : string)
    : option TargetState :=
  PyDict.get target (or_empty (st_targets (_state sm))).

Definition get_account_target_status (sm : t) (account target : string)
    : option TargetState :=
  match PyDict.get account (or_empty (st_accounts (_state sm))) with
  | None => None
  | Some account_state =>
      if account_falsy account_state then None
      else PyDict.get target (or_empty (acc_targets account_state))
  end.

(** The record written for a target, read back from where
    [record_sync] put it. *)
Definition recorded_target (sm : t) (account : option string)
    (target : string) : option TargetState :=
  match account with
  | Some account => get_account_target_status sm account target
  | None => get_target_status sm target
  end.

(** The two loops of [detect_drift] over a stored baseline. *)
Definition drift_against (stored_hashes current_hashes : PyDict.dict string)
    : list string :=
  let changed_or_new :=
    flat_map
      (fun kv =>
         match PyDict.get (fst kv) stored_hashes with
         | Some stored_hash =>
             if String.eqb stored_hash (snd kv) then [] else [fst kv]
         | None => [fst kv]
         end)
      (PyDict.items current_hashes) in
  let removed :=
    filter (fun path => negb (PyDict.contains path current_hashes))
           (PyDict.keys stored_hashes) in
  changed_or_new ++ removed.

(** The target record [detect_drift] compares against; [None] is the
    case of no previous sync. *)
Definition drift_baseline (sm : t) (target : string)
    (account : option string) : option TargetState :=
  match account with
  | Some account =>
      match PyDict.get account (or_empty (st_accounts (_state sm))) with
      | None => None
      | Some account_state =>
          if account_falsy account_state then None
          else PyDict.get target (or_empty (acc_targets account_state))
      end
  | None => PyDict.get target (or_empty (st_targets (_state sm)))
  end.

Definition detect_drift (sm : t) (target : string)
    (current_hashes : PyDict.dict string) (account : option string)
    : list string :=
  match drift_baseline sm target account with
  | None => PyDict.keys current_hashes
  | Some target_state =>
      drift_against (ts_file_hashes target_state) current_hashes
  end.

(** [record_plugin_sync]: the plugins section is replaced. *)
Definition record_plugin_sync (sm : t)
    (plugins_metadata : PyDict.dict PluginMeta) (account : option string)
    : t :=
  let st := _state sm in
  let st' :=
    match account with
    | Some account =>
        let accounts := or_empty (st_accounts st) in
        let entry :=
          match PyDict.get account accounts with
          | Some a => a
          | None => mkAccountState None None None
          end in
        let entry :=
          mkAccountState (acc_last_sync entry) (acc_targets entry)
                         (Some plugins_metadata) in
        mkState (st_version st) (st_last_sync st) (st_targets st)
                (Some (PyDict.set account entry accounts)) (st_plugins st)
    | None =>
        mkState (st_version st) (st_last_sync st) (st_targets st)
                (st_accounts st) (Some plugins_metadata)
    end in
  _save (with_state sm st').

(** [get_plugin_status]: the stored plugins section. *)
Definition get_plugin_status (sm : t) (account : option string)
    : PyDict.dict PluginMeta :=
  match account with
  | Some account =>
      match PyDict.get account (or_empty (st_accounts (_state sm))) with
      | None => []
      | Some account_state =>
          if account_falsy account_state then []
          else or_empty (acc_plugins account_state)
      end
  | None => or_empty (st_plugins (_state sm))
  end.

(** The reason strings of [detect_plugin_drift]. *)
Definition version_changed (stored current : PluginMeta) : string :=
  ("version_changed: " ++ pm_version stored ++ " -> " ++
   pm_version current)%string.

Definition mcp_count_changed (stored current : PluginMeta) : string :=
  ("mcp_count_changed: " ++ PyStr.of_Z (pm_mcp_count stored) ++ " -> " ++
   PyStr.of_Z (pm_mcp_count current))%string.

(** The assignments [drift[plugin_name] = reason] that the two loops
    of [detect_plugin_drift] execute, in order. *)
Definition removed_assignments
    (stored_plugins current_plugins : PyDict.dict PluginMeta)
    : list (string * string) :=
  flat_map
    (fun plugin_name =>
       if PyDict.contains plugin_name current_plugins then []
       else [(plugin_name, "removed")])
    (PyDict.keys stored_plugins).

Definition changed_assignments
    (stored_plugins current_plugins : PyDict.dict PluginMeta)
    : list (string * string) :=
  flat_map
    (fun kv =>
       let plugin_name := fst kv in
       let current_meta := snd kv in
       match PyDict.get plugin_name stored_plugins with
       | None => [(plugin_name, "added")]
       | Some stored_meta =>
           if negb (String.eqb (pm_version current_meta)
                               (pm_version stored_meta))
           then [(plugin_name, version_changed stored_meta current_meta)]
           else if negb (pm_mcp_count current_meta =?
                         pm_mcp_count stored_meta)
           then [(plugin_name, mcp_count_changed stored_meta current_meta)]
           else []
       end)
    (PyDict.items current_plugins).

Definition drift_assignments
    (stored_plugins current_plugins : PyDict.dict PluginMeta)
    : list (string * string) :=
  removed_assignments stored_plugins current_plugins ++
  changed_assignments stored_plugins current_plugins.

Definition detect_plugin_drift (sm : t)
    (current_plugins : PyDict.dict PluginMeta) (account : option string)
    : PyDict.dict string :=
  let stored_plugins := get_plugin_status sm account in
  fold_left (fun drift kv => PyDict.set (fst kv) (snd kv) drift)
            (drift_assignments stored_plugins current_plugins)
            [].

(** The reason the specification gives for one plugin name, from its
    stored and its current metadata. *)
Definition drift_reason (stored current : option PluginMeta)
    : option string :=
  match stored, current with
  | Some _, None => Some "removed"
  | None, Some _ => Some "added"
  | Some s, Some c =>
      if negb (String.eqb (pm_version c) (pm_version s))
      then Some (version_changed s c)
      else if negb (pm_mcp_count c =? pm_mcp_count s)
      then Some (mcp_count_changed s c)
      else None
  | None, None => None
  end.

(** The status function of section 3 of the specification, in its
    words: [nothing] if the total is zero, [success] if nothing failed,
    [failed] if nothing was synced and something failed, else
    [partial]. *)
Definition spec_status (synced skipped failed : Z) : string :=
  if synced + skipped + failed =? 0 then "nothing"
  else if failed =? 0 then "success"
  else if (synced =? 0) && (failed >? 0) then "failed"
  else "partial".

End StateManager.

(** ** Computations that thread a state and may raise *)

Module Exc.

(** What a call yields: a value, or an exception with its [str(e)]. *)
Inductive Outcome (A : Type) : Type :=
| Returned (a : A)
| Raised (msg : string).

Arguments Returned {A} a.
Arguments Raised {A} msg.

Definition M (S A : Type) : Type := S -> Outcome A * S.

Definition ret {S A : Type} (a : A) : M S A := fun s => (Returned a, s).

(** Sequencing: an exception of the first computation skips the rest. *)
Definition bind {S A B : Type} (m : M S A) (k : A -> M S B) : M S B :=
  fun s =>
    match m s with
    | (Returned a, s') => k a s'
    | (Raised msg, s') => (Raised msg, s')
    end.

(** [try: body / except Exception as e: handler(str(e))] *)
Definition try_except {S A : Type} (body : M S A) (handler : string -> M S A)
    : M S A :=
  fun s =>
    match body s with
    | (Returned a, s') => (Returned a, s')
    | (Raised msg, s') => handler msg s'
    end.

Definition get {S : Type} : M S S := fun s => (Returned s, s).

Definition modify {S : Type} (f : S -> S) : M S unit :=
  fun s => (Returned tt, f s).

(** A loop [for x in l: body(x)]. *)
Fixpoint for_each {S A : Type} (l : list A) (body : A -> M S unit)
    : M S unit :=
  match l with
  | [] => ret tt
  | x :: rest => bind (body x) (fun _ => for_each rest body)
  end.

End Exc.

Notation "x <- c1 ;; c2" := (Exc.bind c1 (fun x => c2))
  (at level 61, c1 at next level, right associativity).
Notation "c1 ;; c2" := (Exc.bind c1 (fun _ => c2))
  (at level 61, right associativity).

(** ** adapters/base.py *)

Module Adapter.

Import Exc.

(** The snapshot handed to [sync_all]; a key that is absent is read
    through [source_data.get] as its empty default. *)
Record SourceData : Type := mkSourceData {
  rules : string;
  skills : PyDict.dict string;
  agents : PyDict.dict string;
  commands : PyDict.dict string;
  mcp : PyDict.dict SourceReader.config;
  mcp_scoped : PyDict.dict SourceReader.ScopedEntry;
  settings : PyDict.dict SourceReader.pyval
}.

(** The operations of the contract, as they appear in a call log. *)
Inductive Call : Type :=
| CallSyncRules
| CallSyncSkills
| CallSyncAgents
| CallSyncCommands
| CallSyncMcp
| CallSyncMcpScoped
| CallSyncSettings.

Section Contract.

(** The files of the target, which the operations read and write. *)
Variable W : Type.

(** An operation of an adapter on one configuration category. *)
Definition Operation (A : Type) : Type :=
  A -> W -> Outcome Result.SyncResult * W.

(** The body of a [sync_mcp_scoped]: it works on the files by itself
    ([Own], a helper of the adapter such as [_write_mcp_to_path]) and
    may call [self.sync_mcp(servers)] ([SelfSyncMcp]), going on in
    either case with what the step returned or raised; it ends by
    returning or raising ([Finish]). *)
Inductive Method : Type :=
| Finish (o : Outcome Result.SyncResult)
| Own (op : W -> Outcome Result.SyncResult * W)
      (k : Outcome Result.SyncResult -> Method)
| SelfSyncMcp (servers : PyDict.dict SourceReader.config)
      (k : Outcome Result.SyncResult -> Method).

(** A body on no path of which [self.sync_mcp] is called. *)
Inductive NoSelfCall : Method -> Prop :=
| NoSelfCall_Finish o : NoSelfCall (Finish o)
| NoSelfCall_Own op k :
    (forall o, NoSelfCall (k o)) -> NoSelfCall (Own op k).

(** A subclass of [AdapterBase]: the six abstract methods, and the body
    of [sync_mcp_scoped] when the subclass overrides it. *)
Record AdapterImpl : Type := mkAdapter {
  target_name : string;
  sync_rules : Operation string;
  sync_skills : Operation (PyDict.dict string);
  sync_agents : Operation (PyDict.dict string);
  sync_commands : Operation (PyDict.dict string);
  sync_mcp : Operation (PyDict.dict SourceReader.config);
  sync_mcp_scoped_override :
    option (PyDict.dict SourceReader.ScopedEntry -> Method);
  sync_settings : Operation (PyDict.dict SourceReader.pyval)
}.

(** The local state of [sync_all]: the [results] dict, the calls made so
    far and the target's files. *)
Record Run : Type := mkRun {
  results : PyDict.dict Result.SyncResult;
  calls : list Call;
  world : W
}.

(** Invoke an operation and log the call. *)
Definition call (c : Call) (op : W -> Outcome Result.SyncResult * W)
    : M Run Result.SyncResult :=
  fun run =>
    let (o, w') := op (world run) in
    (o, mkRun (results run) (calls run ++ [c]) w').

(** [results[category] = r] *)
Definition store (category : string) (r : Result.SyncResult) : M Run unit :=
  modify (fun run =>
    mkRun (PyDict.set category r (results run)) (calls run) (world run)).

(** [{name: entry.get("config", entry) for name, entry in ...}] *)
Definition flatten (mcp_servers_scoped : PyDict.dict SourceReader.ScopedEntry)
    : PyDict.dict SourceReader.config :=
  map (fun kv => (fst kv, SourceReader.entry_config (snd kv)))
      mcp_servers_scoped.

(** [AdapterBase.sync_mcp_scoped], the inherited default:
    [flat = {...}; return self.sync_mcp(flat)]. *)
Definition base_sync_mcp_scoped
    (mcp_servers_scoped : PyDict.dict SourceReader.ScopedEntry) : Method :=
  SelfSyncMcp (flatten mcp_servers_scoped) Finish.

(** The method that [self.sync_mcp_scoped] resolves to: the override of
    the subclass, or the default of [AdapterBase]. *)
Definition resolve_sync_mcp_scoped (a : AdapterImpl)
    : PyDict.dict SourceReader.ScopedEntry -> Method :=
  match sync_mcp_scoped_override a with
  | Some override => override
  | None => base_sync_mcp_scoped
  end.

(** Run a body on the files: what it yields, the calls of
    [self.sync_mcp] it makes, in order, and the files it leaves. *)
Fixpoint perform (a : AdapterImpl) (m : Method) (w : W)
    : Outcome Result.SyncResult * list Call * W :=
  match m with
  | Finish o => (o, [], w)
  | Own op k =>
      let (o, w') := op w in
      perform a (k o) w'
  | SelfSyncMcp servers k =>
      let (o, w') := sync_mcp a servers w in
      let '(o', made, w'') := perform a (k o) w' in
      (o', CallSyncMcp :: made, w'')
  end.

(** [self.sync_mcp_scoped(...)]: the call is logged, then the calls of
    [self.sync_mcp] that the method makes. *)
Definition sync_mcp_scoped (a : AdapterImpl)
    (mcp_servers_scoped : PyDict.dict SourceReader.ScopedEntry)
    : M Run Result.SyncResult :=
  fun run =>
    let '(o, made, w') :=
      perform a (resolve_sync_mcp_scoped a mcp_servers_scoped) (world run) in
    (o, mkRun (results run) (calls run ++ CallSyncMcpScoped :: made) w').

(** One [try: results[category] = op(...) / except Exception as e:
    results[category] = SyncResult(failed=1, failed_files=[...])]. *)
Definition guarded (category : string) (op : M Run Result.SyncResult)
    : M Run unit :=
  try_except
    (r <- op ;; store category r)
    (fun e => store category (Result.failure (category ++ ": " ++ e)%string)).

Definition sync_all_body (a : AdapterImpl) (source_data : SourceData)
    : M Run (PyDict.dict Result.SyncResult) :=
  guarded "rules" (call CallSyncRules (sync_rules a (rules source_data))) ;;
  guarded "skills" (call CallSyncSkills (sync_skills a (skills source_data))) ;;
  guarded "agents" (call CallSyncAgents (sync_agents a (agents source_data))) ;;
  guarded "commands"
    (call CallSyncCommands (sync_commands a (commands source_data))) ;;
  guarded "mcp"
    (if negb (PyDict.is_empty (mcp_scoped source_data))
     then sync_mcp_scoped a (mcp_scoped source_data)
     else call CallSyncMcp (sync_mcp a (mcp source_data))) ;;
  guarded "settings"
    (call CallSyncSettings (sync_settings a (settings source_data))) ;;
  run <- get ;;
  ret (results run).

(** [adapter.sync_all(source_data)], started with [results = {}]. *)
Definition sync_all (a : AdapterImpl) (source_data : SourceData) (w : W)
    : Outcome (PyDict.dict Result.SyncResult) * Run :=
  sync_all_body a source_data (mkRun [] [] w).

(** The entry stored for a category, from what its operation yielded. *)
Definition entry_of (category : string) (o : Outcome Result.SyncResult)
    : Result.SyncResult :=
  match o with
  | Returned r => r
  | Raised msg => Result.failure (category ++ ": " ++ msg)%string
  end.

(** The MCP step on its own, from the files [w]: what it yields, the
    calls it makes and the files it leaves. *)
Definition mcp_step (a : AdapterImpl) (source_data : SourceData) (w : W)
    : Outcome Result.SyncResult * list Call * W :=
  let (o, run) :=
    (if negb (PyDict.is_empty (mcp_scoped source_data))
     then sync_mcp_scoped a (mcp_scoped source_data)
     else call CallSyncMcp (sync_mcp a (mcp source_data)))
      (mkRun [] [] w) in
  (o, calls run, world run).

Definition mcp_operation (a : AdapterImpl) (source_data : SourceData)
    (w : W) : Outcome Result.SyncResult * W :=
  (fst (fst (mcp_step a source_data w)), snd (mcp_step a source_data w)).

Definition mcp_calls (a : AdapterImpl) (source_data : SourceData) (w : W)
    : list Call :=
  snd (fst (mcp_step a source_data w)).

(** [result.skipped += 1; result.skipped_files.append(msg)] *)
Definition skip_server (result : Result.SyncResult) (msg : string)
    : Result.SyncResult :=
  Result.mkSyncResult
    (Result.synced result) (Result.skipped result + 1)%Z
    (Result.failed result) (Result.adapted result)
    (Result.synced_files result) (Result.skipped_files result ++ [msg])
    (Result.failed_files result).

(** [result.skipped_files.extend(warnings)] *)
Definition extend_skipped_files (result : Result.SyncResult)
    (warnings : list string) : Result.SyncResult :=
  Result.mkSyncResult
    (Result.synced result) (Result.skipped result)
    (Result.failed result) (Result.adapted result)
    (Result.synced_files result) (Result.skipped_files result ++ warnings)
    (Result.failed_files result).

(** [other = <step>; result = result.merge(other)], then the rest of the
    method; an exception of the step leaves the method. *)
Definition merge_then (result : Result.SyncResult)
    (rest : Result.SyncResult -> Method) (o : Outcome Result.SyncResult)
    : Method :=
  match o with
  | Returned other => rest (Result.merge result other)
  | Raised e => Finish (Raised e)
  end.

(** [return result] *)
Definition return_result (result : Result.SyncResult) : Method :=
  Finish (Returned result).

End Contract.

Arguments mkAdapter {W}.
Arguments target_name {W}.
Arguments sync_rules {W}.
Arguments sync_skills {W}.
Arguments sync_agents {W}.
Arguments sync_commands {W}.
Arguments sync_mcp {W}.
Arguments sync_mcp_scoped_override {W}.
Arguments sync_settings {W}.
Arguments mkRun {W}.
Arguments results {W}.
Arguments calls {W}.
Arguments world {W}.
Arguments sync_all {W}.
Arguments sync_all_body {W}.
Arguments mcp_step {W}.
Arguments mcp_operation {W}.
Arguments mcp_calls {W}.
Arguments Finish {W}.
Arguments Own {W}.
Arguments SelfSyncMcp {W}.
Arguments NoSelfCall {W}.
Arguments base_sync_mcp_scoped {W}.
Arguments resolve_sync_mcp_scoped {W}.
Arguments perform {W}.
Arguments merge_then {W}.
Arguments return_result {W}.

End Adapter.

(** ** adapters/codex.py, adapters/gemini.py, adapters/opencode.py: the
    overrides of [sync_mcp_scoped] *)

Module CodexAdapter.

Import Exc Adapter.

Section Override.
Context {W : Type}.

(** [check_transport_support(server_name, config, target)] and
    [translate_env_vars_for_codex(config)] of [utils/env_translator.py],
    and the adapter's [_write_mcp_to_path(mcp_servers, config_path)]. *)
Variable check_transport_support :
  string -> SourceReader.config -> string -> bool * string.
Variable translate_env_vars_for_codex :
  SourceReader.config -> SourceReader.config * list string.
Variable _write_mcp_to_path :
  PyDict.dict SourceReader.config -> string ->
  W -> Outcome Result.SyncResult * W.

(** [Path.home() / ".codex" / CONFIG_TOML] and
    [self.project_dir / ".codex" / CONFIG_TOML]. *)
Variables user_path project_path : string.

(** One pass of the routing loop, on [result], [user_servers] and
    [project_servers]. *)
Definition route
    (acc : Result.SyncResult * PyDict.dict SourceReader.config *
           PyDict.dict SourceReader.config)
    (kv : string * SourceReader.ScopedEntry)
    : Result.SyncResult * PyDict.dict SourceReader.config *
      PyDict.dict SourceReader.config :=
  let '(result, user_servers, project_servers) := acc in
  let server_name := fst kv in
  let config := SourceReader.entry_config (snd kv) in
  let metadata := SourceReader.metadata (snd kv) in
  let scope :=
    match SourceReader.source metadata, SourceReader.scope metadata with
    | SourceReader.plugin, _ => SourceReader.user
    | SourceReader.file, SourceReader.local => SourceReader.user
    | SourceReader.file, scope => scope
    end in
  let (ok, msg) := check_transport_support server_name config "codex" in
  if negb ok then (skip_server result msg, user_servers, project_servers)
  else
    let (translated_config, warnings) :=
      translate_env_vars_for_codex config in
    let result := extend_skipped_files result warnings in
    match scope with
    | SourceReader.project =>
        (result, user_servers,
         PyDict.set server_name translated_config project_servers)
    | _ =>
        (result,
         PyDict.set server_name translated_config user_servers,
         project_servers)
    end.

Definition sync_mcp_scoped
    (mcp_servers_scoped : PyDict.dict SourceReader.ScopedEntry)
    : Method W :=
  if PyDict.is_empty mcp_servers_scoped
  then return_result Result.default
  else
    let '(result, user_servers, project_servers) :=
      fold_left route (PyDict.items mcp_servers_scoped)
                (Result.default, [], []) in
    let write_project (result : Result.SyncResult) : Method W :=
      if negb (PyDict.is_empty project_servers)
      then Own (_write_mcp_to_path project_servers project_path)
               (merge_then result return_result)
      else return_result result in
    if negb (PyDict.is_empty user_servers)
    then Own (_write_mcp_to_path user_servers user_path)
             (merge_then result write_project)
    else write_project result.

End Override.

End CodexAdapter.

Module GeminiAdapter.

Import Exc Adapter.

Section Override.
Context {W : Type}.

(** [check_transport_support] and the adapter's
    [_write_mcp_to_settings(mcp_servers, settings_path)]. *)
Variable check_transport_support :
  string -> SourceReader.config -> string -> bool * string.
Variable _write_mcp_to_settings :
  PyDict.dict SourceReader.config -> string ->
  W -> Outcome Result.SyncResult * W.

(** [Path.home() / ".gemini" / SETTINGS_JSON] and
    [self.project_dir / ".gemini" / SETTINGS_JSON]. *)
Variables user_path project_path : string.

Definition route
    (acc : Result.SyncResult * PyDict.dict SourceReader.config *
           PyDict.dict SourceReader.config)
    (kv : string * SourceReader.ScopedEntry)
    : Result.SyncResult * PyDict.dict SourceReader.config *
      PyDict.dict SourceReader.config :=
  let '(result, user_servers, project_servers) := acc in
  let server_name := fst kv in
  let config := SourceReader.entry_config (snd kv) in
  let metadata := SourceReader.metadata (snd kv) in
  let scope :=
    match SourceReader.source metadata, SourceReader.scope metadata with
    | SourceReader.plugin, _ => SourceReader.user
    | SourceReader.file, SourceReader.local => SourceReader.user
    | SourceReader.file, scope => scope
    end in
  let (ok, msg) := check_transport_support server_name config "gemini" in
  if negb ok then (skip_server result msg, user_servers, project_servers)
  else
    match scope with
    | SourceReader.project =>
        (result, user_servers,
         PyDict.set server_name config project_servers)
    | _ =>
        (result, PyDict.set server_name config user_servers,
         project_servers)
    end.

Definition sync_mcp_scoped
    (mcp_servers_scoped : PyDict.dict SourceReader.ScopedEntry)
    : Method W :=
  if PyDict.is_empty mcp_servers_scoped
  then return_result Result.default
  else
    let '(result, user_servers, project_servers) :=
      fold_left route (PyDict.items mcp_servers_scoped)
                (Result.default, [], []) in
    let write_project (result : Result.SyncResult) : Method W :=
      if negb (PyDict.is_empty project_servers)
      then Own (_write_mcp_to_settings project_servers project_path)
               (merge_then result return_result)
      else return_result result in
    if negb (PyDict.is_empty user_servers)
    then Own (_write_mcp_to_settings user_servers user_path)
             (merge_then result write_project)
    else write_project result.

End Override.

End GeminiAdapter.

Module OpenCodeAdapter.

Import Exc Adapter.

Section Override.
Context {W : Type}.

Variable check_transport_support :
  string -> SourceReader.config -> string -> bool * string.

(** One pass of the validation loop, on [result] and [valid_servers]. *)
Definition validate
    (acc : Result.SyncResult * PyDict.dict SourceReader.config)
    (kv : string * SourceReader.ScopedEntry)
    : Result.SyncResult * PyDict.dict SourceReader.config :=
  let (result, valid_servers) := acc in
  let server_name := fst kv in
  let config := SourceReader.entry_config (snd kv) in
  let (ok, msg) := check_transport_support server_name config "opencode" in
  if negb ok then (skip_server result msg, valid_servers)
  else (result, PyDict.set server_name config valid_servers).

(** The servers that pass the transport check go to [self.sync_mcp]. *)
Definition sync_mcp_scoped
    (mcp_servers_scoped : PyDict.dict SourceReader.ScopedEntry)
    : Method W :=
  if PyDict.is_empty mcp_servers_scoped
  then return_result Result.default
  else
    let (result, valid_servers) :=
      fold_left validate (PyDict.items mcp_servers_scoped)
                (Result.default, []) in
    if negb (PyDict.is_empty valid_servers)
    then SelfSyncMcp valid_servers (merge_then result return_result)
    else return_result result.

End Override.

End OpenCodeAdapter.

(** ** orchestrator.py *)

Module Orchestrator.

Import Exc.

(** A conflict reported by [ConflictDetector.check]. *)
Record Conflict : Type := mkConflict {
  file_path : string;
  stored_hash : string;
  current_hash : string;
  conflict_target : string;
  note : option string
}.

(** The value stored under a target name in the result of [sync_all]:
    the dict of an adapter run (or [{'error': SyncResult}]), or a
    preview. *)
Inductive TargetResult : Type :=
| Synced (by_category : PyDict.dict Result.SyncResult)
| Preview (preview : string).

(** The dict returned by [sync_all]: the blocked result
    [{'_blocked': True, '_reason': ..., '_warnings': ...}], or the
    per-target results with the optional [_compatibility_report] and
    [_conflicts] keys. *)
Inductive SyncAllResult : Type :=
| Blocked (_reason _warnings : string)
| Completed (targets : PyDict.dict TargetResult)
            (_compatibility_report : option string)
            (_conflicts : option (PyDict.dict (list Conflict))).

(** What a run does to the outside, in order. *)
Inductive Event : Type :=
| LogWarn (msg : string)
| LogInfo (msg : string)
| LogError (msg : string)
| AdapterSyncAll (target : string) (calls : list Adapter.Call)
| PreviewSync (target : string)
| SymlinkCleanup
| StateRecordSync (target : string)
| StateRecordPluginSync
| BackupCleanup (target : string).

(** The fields of the orchestrator set by [__init__]. *)
Record t : Type := mkOrchestrator {
  scope : string;
  dry_run : bool;
  allow_secrets : bool;
  account : option string
}.

Section Pipeline.

(** The file system the adapters and the cleaners work on. *)
Variable W : Type.

(** The collaborators of a run: the reader and what it finds, the file
    system probes, the adapter registry, and the presentation and
    cleaning services that the orchestrator only calls. *)
Record Env : Type := mkEnv {
  reader : SourceReader.t;
  get_rules : string;
  get_skills : PyDict.dict string;
  get_agents : PyDict.dict string;
  get_commands : PyDict.dict string;
  get_settings : PyDict.dict SourceReader.pyval;
  get_source_paths : PyDict.dict (list string);
  is_file : W -> string -> bool;
  hash_file_sha256 : W -> string -> string;
  _adapters : PyDict.dict (Adapter.AdapterImpl W);
  preview_output : Adapter.AdapterImpl W -> Adapter.SourceData -> string;
  format_conflicts : PyDict.dict (list Conflict) -> string;
  cleanup_all : W -> Outcome nat * W;
  format_report : PyDict.dict TargetResult -> string;
  cleanup_old_backups : string -> W -> Outcome unit * W
}.

(** The state a run works on. *)
Record World : Type := mkWorld {
  state_manager : StateManager.t;
  files : W;
  events : list Event
}.

Definition log (e : Event) : M World unit :=
  modify (fun w => mkWorld (state_manager w) (files w) (events w ++ [e])).

(** Run a service on the files. *)
Definition on_files {A : Type} (f : W -> Outcome A * W) : M World A :=
  fun w =>
    let (o, files') := f (files w) in
    (o, mkWorld (state_manager w) files' (events w)).

(** Apply a method of the state manager. *)
Definition on_state (f : StateManager.t -> StateManager.t) : M World unit :=
  modify (fun w => mkWorld (f (state_manager w)) (files w) (events w)).

(** [reader.discover_all()], with the key translation of [sync_all]:
    [mcp] is the flat map, [mcp_scoped] the tagged one. *)
Definition adapter_data (env : Env) : Adapter.SourceData :=
  let scoped := SourceReader.get_mcp_servers_with_scope (reader env) in
  Adapter.mkSourceData (get_rules env) (get_skills env) (get_agents env)
    (get_commands env) (Adapter.flatten scoped) scoped (get_settings env).

(** [ConflictDetector.check(target_name)] *)
Definition check (env : Env) (w : World) (target_name : string)
    : list Conflict :=
  match StateManager.get_target_status (state_manager w) target_name with
  | None => []
  | Some target_status =>
      flat_map
        (fun kv =>
           let current := hash_file_sha256 env (files w) (fst kv) in
           if String.eqb current ""
           then [mkConflict (fst kv) (snd kv) "" target_name (Some "deleted")]
           else if negb (String.eqb (snd kv) current)
           then [mkConflict (fst kv) (snd kv) current target_name None]
           else [])
        (PyDict.items (StateManager.ts_file_hashes target_status))
  end.

(** [ConflictDetector.check_all()] *)
Definition check_all (env : Env) (w : World)
    : PyDict.dict (list Conflict) :=
  map (fun target => (target, check env w target))
      ["codex"; "gemini"; "opencode"].

(** [any(conflicts.values())] *)
Definition any_conflicts (conflicts : PyDict.dict (list Conflict)) : bool :=
  existsb (fun l => negb (match l with [] => true | _ :: _ => false end))
          (PyDict.values conflicts).

(** [AdapterRegistry.list_targets()] and [get_adapter]. *)
Definition list_targets (env : Env) : list string :=
  PyStr.sorted (PyDict.keys (_adapters env)).

Definition get_adapter (env : Env) (target : string)
    : M World (Adapter.AdapterImpl W) :=
  match PyDict.get target (_adapters env) with
  | Some adapter => ret adapter
  | None =>
      fun w => (Raised ("No adapter registered for '" ++ target ++ "'")%string, w)
  end.

(** The body of the loop over the targets. *)
Definition sync_target (env : Env) (self : t) (target : string)
    (results : PyDict.dict TargetResult)
    : M World (PyDict.dict TargetResult) :=
  adapter <- get_adapter env target ;;
  if dry_run self then
    log (PreviewSync target) ;;
    ret (PyDict.set target
           (Preview (preview_output env adapter (adapter_data env))) results)
  else
    try_except
      (fun w =>
         let (o, run) := Adapter.sync_all adapter (adapter_data env) (files w) in
         let w' :=
           mkWorld (state_manager w) (Adapter.world run)
                   (events w ++ [AdapterSyncAll target (Adapter.calls run)]) in
         match o with
         | Returned target_results =>
             (Returned (PyDict.set target (Synced target_results) results), w')
         | Raised msg => (Raised msg, w')
         end)
      (fun e =>
         log (LogError (target ++ ": sync failed: " ++ e)%string) ;;
         ret (PyDict.set target (Synced [("error", Result.failure e)])
                         results)).

Fixpoint sync_targets (env : Env) (self : t) (targets : list string)
    (results : PyDict.dict TargetResult)
    : M World (PyDict.dict TargetResult) :=
  match targets with
  | [] => ret results
  | target :: rest =>
      results <- sync_target env self target results ;;
      sync_targets env self rest results
  end.

(** Symlink cleanup after the adapters have run. *)
Definition symlink_cleanup (env : Env) : M World unit :=
  total_removed <- on_files (cleanup_all env) ;;
  log SymlinkCleanup ;;
  if (0 <? total_removed)%nat
  then log (LogInfo ("Cleaned up " ++ PyStr.of_nat total_removed ++
                     " broken symlink(s)")%string)
  else ret tt.

(** [CompatibilityReporter.has_issues(generate(results))]: some result of
    some target has adapted or failed items. *)
Definition has_issues (results : PyDict.dict TargetResult) : bool :=
  existsb
    (fun kv =>
       negb (PyStr.startswith (fst kv) "_") &&
       match snd kv with
       | Synced by_category =>
           (0 <? fold_left
                   (fun acc r =>
                      if (0 <? Result.adapted r)%Z
                      then (acc + Result.adapted r)%Z else acc)
                   (PyDict.values by_category) 0%Z)%Z ||
           (0 <? fold_left
                   (fun acc r =>
                      if (0 <? Result.failed r)%Z
                      then (acc + Result.failed r)%Z else acc)
                   (PyDict.values by_category) 0%Z)%Z
       | Preview _ => false
       end)
    results.

Definition compatibility_report (env : Env)
    (results : PyDict.dict TargetResult) : option string :=
  if has_issues results then Some (format_report env results) else None.

(** The hashes of the source files of [_update_state]. *)
Definition hash_sources (env : Env) (w : World) : PyDict.dict string :=
  fold_left
    (fun file_hashes p =>
       if is_file env (files w) p then
         let h := hash_file_sha256 env (files w) p in
         if negb (String.eqb h "") then PyDict.set p h file_hashes
         else file_hashes
       else file_hashes)
    (concat (PyDict.values (get_source_paths env))) [].

(** The counters of a target, summed over its categories. *)
Definition sum_counts (target_results : TargetResult) : Z * Z * Z :=
  match target_results with
  | Synced by_category =>
      fold_left
        (fun acc r =>
           let '(synced, skipped, failed) := acc in
           ((synced + Result.synced r)%Z, (skipped + Result.skipped r)%Z,
            (failed + Result.failed r)%Z))
        (PyDict.values by_category) (0%Z, 0%Z, 0%Z)
  | Preview _ => (0%Z, 0%Z, 0%Z)
  end.

(** [metadata.get('plugin_name', 'unknown')] and
    [metadata.get('plugin_version', 'unknown')] *)
Definition get_plugin_name (md : SourceReader.Metadata) : string :=
  match SourceReader.plugin_name md with
  | Some n => n
  | None => "unknown"
  end.

Definition get_plugin_version (md : SourceReader.Metadata) : string :=
  match SourceReader.plugin_version md with
  | Some v => v
  | None => "unknown"
  end.

(** One pass of the loop of [_extract_plugin_metadata]. *)
Definition extract_step
    (acc : PyDict.dict StateManager.PluginMeta * StateManager.t)
    (kv : string * SourceReader.ScopedEntry)
    : PyDict.dict StateManager.PluginMeta * StateManager.t :=
  let (plugins, sm) := acc in
  let md := SourceReader.metadata (snd kv) in
  match SourceReader.source md with
  | SourceReader.file => (plugins, sm)
  | SourceReader.plugin =>
      let plugin_name := get_plugin_name md in
      let plugin_version := get_plugin_version md in
      let (meta, sm) :=
        match PyDict.get plugin_name plugins with
        | Some meta => (meta, sm)
        | None =>
            let (last_sync, sm) := StateManager.now sm in
            (StateManager.mkPluginMeta plugin_version 0 [] last_sync, sm)
        end in
      (PyDict.set plugin_name
         (StateManager.mkPluginMeta
            (StateManager.pm_version meta)
            (StateManager.pm_mcp_count meta + 1)
            (StateManager.pm_mcp_servers meta ++ [fst kv])
            (StateManager.pm_last_sync meta))
         plugins,
       sm)
  end.

Definition _extract_plugin_metadata
    (mcp_scoped : PyDict.dict SourceReader.ScopedEntry)
    (sm : StateManager.t)
    : PyDict.dict StateManager.PluginMeta * StateManager.t :=
  fold_left extract_step (PyDict.items mcp_scoped) ([], sm).

(** The loop of [_update_state] over the results. *)
Definition record_target (self : t) (file_hashes : PyDict.dict string)
    (kv : string * TargetResult) : M World unit :=
  if PyStr.startswith (fst kv) "_" then ret tt
  else
    let '(synced, skipped, failed) := sum_counts (snd kv) in
    on_state (fun sm =>
      StateManager.record_sync sm (fst kv) (scope self) file_hashes []
                               synced skipped failed (account self)) ;;
    log (StateRecordSync (fst kv)).

Definition _update_state (env : Env) (self : t)
    (results : PyDict.dict TargetResult) : M World unit :=
  w <- get ;;
  let file_hashes := hash_sources env w in
  for_each (PyDict.items results) (record_target self file_hashes) ;;
  w <- get ;;
  let mcp_scoped := Adapter.mcp_scoped (adapter_data env) in
  let (plugins_metadata, sm) :=
    _extract_plugin_metadata mcp_scoped (state_manager w) in
  on_state (fun _ => sm) ;;
  if negb (PyDict.is_empty plugins_metadata)
  then
    on_state (fun sm =>
      StateManager.record_plugin_sync sm plugins_metadata (account self)) ;;
    log StateRecordPluginSync
  else ret tt.

(** Retention cleanup, inside [try / except Exception]. *)
Definition backup_retention (env : Env) (targets : list string)
    : M World unit :=
  try_except
    (for_each targets
       (fun target =>
          on_files (cleanup_old_backups env target) ;;
          log (BackupCleanup target)))
    (fun e => log (LogWarn ("Backup cleanup failed: " ++ e)%string)).

(** What follows the secret scan in [sync_all]. *)
Definition run_pipeline (env : Env) (self : t) : M World SyncAllResult :=
  w <- get ;;
  let conflicts := check_all env w in
  (if any_conflicts conflicts
   then log (LogWarn (format_conflicts env conflicts))
   else ret tt) ;;
  let targets := list_targets env in
  results <- sync_targets env self targets [] ;;
  (if negb (dry_run self) then symlink_cleanup env else ret tt) ;;
  let report := compatibility_report env results in
  (if negb (dry_run self) then _update_state env self results else ret tt) ;;
  (if negb (dry_run self) then backup_retention env targets else ret tt) ;;
  ret (Completed results report
         (if any_conflicts conflicts then Some conflicts else None)).

Definition sync_all (env : Env) (self : t) : M World SyncAllResult :=
  let mcp_servers := Adapter.mcp (adapter_data env) in
  let detections := SecretDetector.scan_mcp_env mcp_servers in
  if SecretDetector.should_block detections (allow_secrets self) then
    let formatted_warnings := SecretDetector.format_warnings detections in
    log (LogWarn "Sync blocked: secrets detected in environment variables") ;;
    ret (Blocked "secrets_detected" formatted_warnings)
  else run_pipeline env self.

(** The servers of the scoped map that come from a plugin. *)
Definition plugin_sourced (mcp_scoped : PyDict.dict SourceReader.ScopedEntry)
    : list (string * SourceReader.ScopedEntry) :=
  filter
    (fun kv =>
       match SourceReader.source (SourceReader.metadata (snd kv)) with
       | SourceReader.plugin => true
       | SourceReader.file => false
       end)
    mcp_scoped.

(** An event that changes the targets, the backups or the state store. *)
Definition is_write (e : Event) : bool :=
  match e with
  | AdapterSyncAll _ _ | SymlinkCleanup | StateRecordSync _
  | StateRecordPluginSync | BackupCleanup _ => true
  | LogWarn _ | LogInfo _ | LogError _ | PreviewSync _ => false
  end.

(** Between two worlds the stored plugins section of an account is the
    same and [record_plugin_sync] has not been called. *)
Definition plugins_untouched (acct : option string) (w w' : World) : Prop :=
  StateManager.get_plugin_status (state_manager w') acct =
  StateManager.get_plugin_status (state_manager w) acct /\
  exists new,
    events w' = events w ++ new /\ ~ In StateRecordPluginSync new.

(** A computation that leaves the plugins section alone, however it
    ends. *)
Definition keeps_plugins {A : Type} (acct : option string) (m : M World A)
    : Prop :=
  forall w, plugins_untouched acct w (snd (m w)).

End Pipeline.

Arguments mkEnv {W}.
Arguments mkWorld {W}.
Arguments state_manager {W}.
Arguments files {W}.
Arguments events {W}.
Arguments reader {W}.
Arguments adapter_data {W}.
Arguments sync_all {W}.
Arguments run_pipeline {W}.
Arguments _update_state {W}.
Arguments sync_targets {W}.
Arguments sync_target {W}.
Arguments plugins_untouched {W}.
Arguments keeps_plugins {W A}.
Arguments plugin_sourced : clear implicits.

End Orchestrator.

(** ** Sample runs *)

Module Scenario.

Import Exc.

(** An operation that syncs one item, and one that raises. *)
Definition ok {A : Type} : Adapter.Operation unit A :=
  fun _ w => (Returned (Result.mkSyncResult 1 0 0 0 [] [] []), w).

Definition boom {A : Type} : Adapter.Operation unit A :=
  fun _ w => (Raised "disk full", w).

(** [codex] overrides [sync_mcp_scoped] with a body that writes by
    itself; [gemini] inherits it and its [sync_mcp] raises. *)
Definition codex : Adapter.AdapterImpl unit :=
  Adapter.mkAdapter "codex" ok ok ok ok ok
    (Some (fun mcp_servers_scoped =>
             Adapter.Own (ok mcp_servers_scoped) Adapter.Finish))
    ok.

Definition gemini : Adapter.AdapterImpl unit :=
  Adapter.mkAdapter "gemini" ok ok ok ok boom None ok.

(** A user-scope server whose environment holds a key. *)
Definition api_server : SourceReader.config :=
  [("command", SourceReader.PStr "npx");
   ("args", SourceReader.PList ["-y"; "api-server"; "${API_KEY}"]);
   ("env", SourceReader.PDict [("API_KEY", "abc123def456ghi789")])].

Definition plain_server : SourceReader.config :=
  [("command", SourceReader.PStr "uvx");
   ("args", SourceReader.PList ["docs-server"])].

Definition reader_with_secret : SourceReader.t :=
  SourceReader.mkReader "all" (Some "/work/app")
    [("api-server", api_server)] [] [("docs", plain_server)] [].

Definition reader_without_plugins : SourceReader.t :=
  SourceReader.mkReader "all" (Some "/work/app")
    [] [] [("docs", plain_server)] [].

Definition reader_with_plugin : SourceReader.t :=
  SourceReader.mkReader "all" (Some "/work/app")
    []
    [("search", SourceReader.mkPluginServer plain_server "finder" "1.2.0")]
    [("docs", plain_server)] [].

Definition env_of (reader : SourceReader.t) : Orchestrator.Env unit :=
  Orchestrator.mkEnv reader
    "# rules" [] [] [] []
    [("rules", ["/home/u/.claude/CLAUDE.md"]); ("mcp_servers", [])]
    (fun _ _ => true)
    (fun _ _ => "0123456789abcdef")
    [("gemini", gemini); ("codex", codex)]
    (fun _ _ => "")
    (fun _ => "conflicts")
    (fun w => (Returned 0%nat, w))
    (fun _ => "report")
    (fun _ w => (Returned tt, w)).

Definition orchestrator : Orchestrator.t :=
  Orchestrator.mkOrchestrator "all" false false None.

(** A state that remembers a plugin of an earlier run. *)
Definition stale_plugins : PyDict.dict StateManager.PluginMeta :=
  [("retired", StateManager.mkPluginMeta "0.4.0" 1 ["old-server"] 0)].

Definition world0 : Orchestrator.World unit :=
  Orchestrator.mkWorld
    (StateManager.mkManager
       (StateManager.mkState 2 (Some 1%nat) (Some []) (Some [])
                             (Some stale_plugins))
       None 2)
    tt [].

End Scenario.

(** ** state_manager.py: loading, migration and removal *)

Module StateStore.

Import StateManager.
Local Open Scope Z_scope.

(** What [json.load] finds in [state.json]. A key that is absent is
    [None]; [doc_version] is also [None] when the value of [version] is
    not an int. [doc_other_keys] tells that the document holds keys
    outside the schema (legacy data, or a [version] that is not an
    int). *)
Record Document : Type := mkDocument {
  doc_version : option Z;
  doc_last_sync : option timestamp;
  doc_targets : option (PyDict.dict TargetState);
  doc_accounts : option (PyDict.dict AccountState);
  doc_plugins : option (PyDict.dict PluginMeta);
  doc_other_keys : bool
}.

(** The state file: absent, present but not readable as JSON, or a
    document. *)
Inductive StateFile : Type :=
| Missing
| Unreadable
| Stored (d : Document).

(** [not state] for the dict returned by [read_json_safe]. *)
Definition doc_falsy (d : Document) : bool :=
  match doc_version d, doc_last_sync d, doc_targets d, doc_accounts d,
        doc_plugins d, doc_other_keys d with
  | None, None, None, None, None, false => true
  | _, _, _, _, _, _ => false
  end.

(** What [_load] leaves: the document in memory, the old data kept under
    [migrated_from], and the state file. *)
Record Loaded : Type := mkLoaded {
  loaded_state : State;
  migrated_from : option Document;
  file_after : StateFile
}.

(** The document of a state, as [_save] writes it. *)
Definition document_of (st : State) (other_keys : bool) : Document :=
  mkDocument (Some (st_version st)) (st_last_sync st) (st_targets st)
             (st_accounts st) (st_plugins st) other_keys.

(** [state.setdefault("accounts", {})] *)
Definition setdefault_accounts (o : option (PyDict.dict AccountState))
    : option (PyDict.dict AccountState) :=
  match o with
  | Some accounts => Some accounts
  | None => Some []
  end.

(** [_load]; [rename_ok] tells whether the rename of a corrupted file to
    its backup name succeeds. *)
Definition _load (rename_ok : bool) (file : StateFile) : Loaded :=
  let corrupted :=
    mkLoaded fresh_state None (if rename_ok then Missing else file) in
  match file with
  | Missing => mkLoaded fresh_state None Missing
  | Unreadable => corrupted
  | Stored d =>
      if doc_falsy d then corrupted
      else
        match doc_version d with
        | None => mkLoaded fresh_state (Some d) file
        | Some version =>
            match doc_accounts d with
            | None =>
                if version =? 1 then
                  let v1_targets := or_empty (doc_targets d) in
                  let accounts :=
                    if negb (PyDict.is_empty v1_targets)
                    then [("default",
                           mkAccountState (doc_last_sync d)
                                          (Some v1_targets) None)]
                    else [] in
                  let st :=
                    mkState 2 (doc_last_sync d) (doc_targets d)
                            (Some accounts) (doc_plugins d) in
                  mkLoaded st None (Stored (document_of st (doc_other_keys d)))
                else
                  mkLoaded
                    (mkState version (doc_last_sync d) (doc_targets d)
                             (Some []) (doc_plugins d))
                    None file
            | Some accounts =>
                mkLoaded
                  (mkState version (doc_last_sync d) (doc_targets d)
                           (Some accounts) (doc_plugins d))
                  None file
            end
        end
  end.

(** [clear_target] *)
Definition clear_target (sm : t) (target : string) : t :=
  let st := _state sm in
  match st_targets st with
  | Some targets =>
      if PyDict.contains target targets
      then
        _save (with_state sm
                 (mkState (st_version st) (st_last_sync st)
                          (Some (PyDict.remove target targets))
                          (st_accounts st) (st_plugins st)))
      else sm
  | None => sm
  end.

(** [get_account_status], [list_state_accounts] and [last_sync]. *)
Definition get_account_status (sm : t) (account : string)
    : option AccountState :=
  PyDict.get account (or_empty (st_accounts (_state sm))).

Definition list_state_accounts (sm : t) : list string :=
  PyStr.sorted (PyDict.keys (or_empty (st_accounts (_state sm)))).

Definition last_sync (sm : t) : option timestamp :=
  st_last_sync (_state sm).

End StateStore.

(** ** Counters that count *)

Module Counters.

(** The invariant of a result: no counter is negative. *)
Definition nonneg (r : Result.SyncResult) : Prop :=
  (0 <= Result.synced r)%Z /\ (0 <= Result.skipped r)%Z /\
  (0 <= Result.failed r)%Z.

End Counters.

(** ** source_reader.py: settings *)

Module Settings.

Section Merge.
Context {V : Type}.

(** [settings.update(data)] for a settings file that exists and holds a
    JSON object; [None] is a file that is missing or holds something
    else. *)
Definition merge_file (settings : PyDict.dict V)
    (file : option (PyDict.dict V)) : PyDict.dict V :=
  match file with
  | Some data => PyDict.update settings data
  | None => settings
  end.

(** [get_settings]: user settings, then project settings, then the
    project's local settings. *)
Definition get_settings (scope : string) (project_dir : option string)
    (user_settings project_settings local_settings
       : option (PyDict.dict V)) : PyDict.dict V :=
  let settings := [] in
  let settings :=
    if existsb (String.eqb scope) ["user"; "all"]
    then merge_file settings user_settings
    else settings in
  let settings :=
    if existsb (String.eqb scope) ["project"; "all"] &&
       match project_dir with Some _ => true | None => false end
    then merge_file (merge_file settings project_settings) local_settings
    else settings in
  settings.

(** A settings file as the scope filter lets it be read. *)
Definition read_if (enabled : bool) (file : option (PyDict.dict V))
    : PyDict.dict V :=
  if enabled then StateManager.or_empty file else [].

End Merge.

End Settings.

(** ** Relating the world before and after a computation *)

Module Frames.

(** A computation keeps a relation between the state it starts in and
    the state it ends in, whether it returns or raises. *)
Definition respects {S A : Type} (R : S -> S -> Prop) (m : Exc.M S A)
    : Prop :=
  forall s, R s (snd (m s)).

(** Nothing is written between two worlds: the state manager and the
    files are the same, and the events in between change nothing. *)
Definition read_only {W : Type} (w w' : Orchestrator.World W) : Prop :=
  Orchestrator.state_manager w' = Orchestrator.state_manager w /\
  Orchestrator.files w' = Orchestrator.files w /\
  exists new,
    Orchestrator.events w' = Orchestrator.events w ++ new /\
    forallb (fun e => negb (Orchestrator.is_write e)) new = true.

End Frames.

(** ** The order of [sorted] on strings *)

Module Order.

(** [a <= b] on Python strings. *)
Definition str_le (a b : string) : Prop := String.leb a b = true.

End Order.

(** ** commands/sync_status.py: what the status view computes *)

Module SyncStatus.

(** The value of [_group_mcps_by_source]: lists of
    [(server_name, scope)] under ["user"], ["project"] and ["local"], and
    under ["plugins"] a dict of such lists by ["name@version"]. *)
Record Groups : Type := mkGroups {
  g_user : list (string * SourceReader.Scope);
  g_project : list (string * SourceReader.Scope);
  g_local : list (string * SourceReader.Scope);
  g_plugins : PyDict.dict (list (string * SourceReader.Scope))
}.

(** [f"{plugin_name}@{plugin_version}"] *)
Definition plugin_key (md : SourceReader.Metadata) : string :=
  (Orchestrator.get_plugin_name md ++ "@" ++
   Orchestrator.get_plugin_version md)%string.

(** One pass of the loop of [_group_mcps_by_source]. *)
Definition group_step (groups : Groups)
    (kv : string * SourceReader.ScopedEntry) : Groups :=
  let server_name := fst kv in
  let md := SourceReader.metadata (snd kv) in
  let scope := SourceReader.scope md in
  match SourceReader.source md with
  | SourceReader.plugin =>
      let key := plugin_key md in
      let servers :=
        match PyDict.get key (g_plugins groups) with
        | Some servers => servers
        | None => []
        end in
      mkGroups (g_user groups) (g_project groups) (g_local groups)
               (PyDict.set key (servers ++ [(server_name, scope)])
                           (g_plugins groups))
  | SourceReader.file =>
      match scope with
      | SourceReader.user =>
          mkGroups (g_user groups ++ [(server_name, scope)])
                   (g_project groups) (g_local groups) (g_plugins groups)
      | SourceReader.project =>
          mkGroups (g_user groups)
                   (g_project groups ++ [(server_name, scope)])
                   (g_local groups) (g_plugins groups)
      | SourceReader.local =>
          mkGroups (g_user groups) (g_project groups)
                   (g_local groups ++ [(server_name, scope)])
                   (g_plugins groups)
      end
  end.

Definition _group_mcps_by_source
    (mcp_servers_scoped : PyDict.dict SourceReader.ScopedEntry) : Groups :=
  fold_left group_step (PyDict.items mcp_servers_scoped)
            (mkGroups [] [] [] []).

(** The number of servers listed by the groups. *)
Definition group_count (groups : Groups) : nat :=
  List.length (g_user groups) + List.length (g_project groups) +
  List.length (g_local groups) +
  list_sum (map (fun kv => List.length (snd kv)) (g_plugins groups)).

(** One pass of the loop of [_extract_current_plugins]; the clock is
    read for the [last_sync] of a plugin that is met for the first
    time. *)
Definition current_step
    (acc : PyDict.dict StateManager.PluginMeta * nat)
    (kv : string * SourceReader.ScopedEntry)
    : PyDict.dict StateManager.PluginMeta * nat :=
  let (plugins, clock) := acc in
  let md := SourceReader.metadata (snd kv) in
  match SourceReader.source md with
  | SourceReader.plugin =>
      let plugin_name := Orchestrator.get_plugin_name md in
      let plugin_version := Orchestrator.get_plugin_version md in
      let (meta, clock) :=
        match PyDict.get plugin_name plugins with
        | Some meta => (meta, clock)
        | None =>
            (StateManager.mkPluginMeta plugin_version 0 [] clock, S clock)
        end in
      (PyDict.set plugin_name
         (StateManager.mkPluginMeta
            (StateManager.pm_version meta)
            (StateManager.pm_mcp_count meta + 1)
            (StateManager.pm_mcp_servers meta ++ [fst kv])
            (StateManager.pm_last_sync meta))
         plugins,
       clock)
  | SourceReader.file => (plugins, clock)
  end.

Definition _extract_current_plugins
    (mcp_scoped : PyDict.dict SourceReader.ScopedEntry) (clock : nat)
    : PyDict.dict StateManager.PluginMeta * nat :=
  fold_left current_step (PyDict.items mcp_scoped) ([], clock).

(** The reader that the status view builds for itself,
    [SourceReader(scope="all", project_dir=project_dir, ...)], with the
    project directory taken from [CLAUDE_PROJECT_DIR] or the working
    directory: it always reads under the scope ["all"], whatever scope
    the sync ran under.  The record holds what that reader finds:
    what its four discovery helpers read, and the value of its
    [get_source_paths()]. *)
Record View : Type := mkView {
  view_project_dir : string;
  view_user_scope_mcps : PyDict.dict SourceReader.config;
  view_plugin_mcp_servers : PyDict.dict SourceReader.PluginServer;
  view_project_scope_mcps : PyDict.dict SourceReader.config;
  view_local_scope_mcps : PyDict.dict SourceReader.config;
  view_source_paths : PyDict.dict (list string)
}.

Definition view_reader (view : View) : SourceReader.t :=
  SourceReader.mkReader "all" (Some (view_project_dir view))
    (view_user_scope_mcps view) (view_plugin_mcp_servers view)
    (view_project_scope_mcps view) (view_local_scope_mcps view).

(** [mcp_scoped = reader.get_mcp_servers_with_scope()] of the status
    view. *)
Definition view_mcp_scoped (view : View)
    : PyDict.dict SourceReader.ScopedEntry :=
  SourceReader.get_mcp_servers_with_scope (view_reader view).

Section Hashes.
Context {W : Type}.

(** [current_hashes] of the status view: the hash of every source file
    that its own reader lists, that exists and that hashes to a
    non-empty string. *)
Definition current_hashes (env : Orchestrator.Env W) (view : View)
    (w : Orchestrator.World W) : PyDict.dict string :=
  fold_left
    (fun current_hashes p =>
       if Orchestrator.is_file W env (Orchestrator.files w) p
       then
         let h :=
           Orchestrator.hash_file_sha256 W env (Orchestrator.files w) p in
         if negb (String.eqb h "") then PyDict.set p h current_hashes
         else current_hashes
       else current_hashes)
    (concat (PyDict.values (view_source_paths view))) [].

End Hashes.

End SyncStatus.

(** ** diff_formatter.py: structural diffs *)

Module DiffFormatter.

(** [set(d.keys())] as the list of its elements. *)
Definition set_of (l : list string) : list string :=
  nodup string_dec l.

(** [k in s] for a set of strings. *)
Definition mem (k : string) (s : list string) : bool :=
  existsb (String.eqb k) s.

Section Structural.
Context {V : Type}.
(** [a != b] on the values of the two dicts. *)
Variable ne : V -> V -> bool.

Definition added_keys (old_items new_items : PyDict.dict V) : list string :=
  let old_keys := set_of (PyDict.keys old_items) in
  let new_keys := set_of (PyDict.keys new_items) in
  PyStr.sorted (filter (fun k => negb (mem k old_keys)) new_keys).

Definition removed_keys (old_items new_items : PyDict.dict V)
    : list string :=
  let old_keys := set_of (PyDict.keys old_items) in
  let new_keys := set_of (PyDict.keys new_items) in
  PyStr.sorted (filter (fun k => negb (mem k new_keys)) old_keys).

(** [changed]: the common keys, sorted, whose values differ; a common
    key is a key of both dicts, so both lookups succeed. *)
Definition changed_keys (old_items new_items : PyDict.dict V)
    : list string :=
  let old_keys := set_of (PyDict.keys old_items) in
  let new_keys := set_of (PyDict.keys new_items) in
  let common := PyStr.sorted (filter (fun k => mem k new_keys) old_keys) in
  filter
    (fun k =>
       match PyDict.get k old_items, PyDict.get k new_items with
       | Some a, Some b => ne a b
       | _, _ => false
       end)
    common.

(** The list [lines] of [add_structural_diff]. *)
Definition structural_lines (label : string)
    (old_items new_items : PyDict.dict V) : list string :=
  let added := added_keys old_items new_items in
  let removed := removed_keys old_items new_items in
  let changed := changed_keys old_items new_items in
  let lines := [("--- " ++ label ++ " ---")%string] in
  match added, removed, changed with
  | [], [], [] => lines ++ ["[no changes]"]
  | _, _, _ =>
      lines ++
      map (fun k => ("  + added: " ++ k)%string) added ++
      map (fun k => ("  - removed: " ++ k)%string) removed ++
      map (fun k => ("  ~ changed: " ++ k)%string) changed
  end.

(** [add_structural_diff] appends one section to [self.diffs]. *)
Definition add_structural_diff (diffs : list string) (label : string)
    (old_items new_items : PyDict.dict V) : list string :=
  diffs ++ [PyStr.join PyStr.nl (structural_lines label old_items new_items)].

End Structural.

Definition format_output (diffs : list string) : string :=
  match diffs with
  | [] => "[no changes detected]"
  | _ => PyStr.join (PyStr.nl ++ PyStr.nl)%string diffs
  end.

End DiffFormatter.

(** ** commands/sync.py: the results table *)

Module SyncCommand.

Local Open Scope Z_scope.

(** [c * n] for a one-character string. *)
Fixpoint repeat_char (c : ascii) (n : nat) : string :=
  match n with
  | O => EmptyString
  | S n => String c (repeat_char c n)
  end.

(** [f"{s:<width}"] and [f"{s:>width}"] *)
Definition ljust (s : string) (width : nat) : string :=
  (s ++ repeat_char " "%char (width - String.length s))%string.

Definition rjust (s : string) (width : nat) : string :=
  (repeat_char " "%char (width - String.length s) ++ s)%string.

(** The dash of the header, U+2014. *)
Definition em_dash : string :=
  String (ascii_of_nat 226)
    (String (ascii_of_nat 128) (String (ascii_of_nat 148) EmptyString)).

(** A row of the table before it is formatted. *)
Record Row : Type := mkRow {
  row_target : string;
  row_synced : Z;
  row_skipped : Z;
  row_failed : Z;
  row_status : string
}.

(** The status column. *)
Definition status_of (synced failed : Z) : string :=
  if failed =? 0 then "success"
  else if (synced >? 0) && (failed >? 0) then "partial"
  else if (synced =? 0) && (failed =? 0) then "nothing"
  else "failed".

(** The counters of a target, summed over its config types; a preview
    holds no [SyncResult]. *)
Definition counts (target_results : Orchestrator.TargetResult)
    : Z * Z * Z :=
  match target_results with
  | Orchestrator.Synced by_category =>
      fold_left
        (fun acc result =>
           let '(synced, skipped, failed) := acc in
           (synced + Result.synced result, skipped + Result.skipped result,
            failed + Result.failed result))
        (PyDict.values by_category) (0, 0, 0)
  | Orchestrator.Preview _ => (0, 0, 0)
  end.

(** [sorted(results.items())]: the keys of a dict differ, so the pairs
    are ordered by their keys. *)
Fixpoint insert_item {V : Type} (x : string * V) (l : list (string * V))
    : list (string * V) :=
  match l with
  | [] => [x]
  | y :: r =>
      if String.leb (fst x) (fst y) then x :: l else y :: insert_item x r
  end.

Definition sorted_items {V : Type} (d : PyDict.dict V)
    : list (string * V) :=
  fold_right insert_item [] (PyDict.items d).

(** The rows of the loop, in order. *)
Definition table_rows (results : PyDict.dict Orchestrator.TargetResult)
    : list Row :=
  flat_map
    (fun kv =>
       if PyStr.startswith (fst kv) "_" then []
       else
         let '(synced, skipped, failed) := counts (snd kv) in
         [mkRow (fst kv) synced skipped failed (status_of synced failed)])
    (sorted_items results).

(** [total_synced], [total_skipped] and [total_failed] after the loop. *)
Definition totals (rows : list Row) : Z * Z * Z :=
  fold_left
    (fun acc row =>
       let '(total_synced, total_skipped, total_failed) := acc in
       (total_synced + row_synced row, total_skipped + row_skipped row,
        total_failed + row_failed row))
    rows (0, 0, 0).

Definition rule : string :=
  (repeat_char "-"%char 12 ++ "+" ++ repeat_char "-"%char 8 ++ "+" ++
   repeat_char "-"%char 9 ++ "+" ++ repeat_char "-"%char 8 ++ "+" ++
   repeat_char "-"%char 8)%string.

Definition format_row (row : Row) : string :=
  (ljust (row_target row) 12 ++ "| " ++
   rjust (PyStr.of_Z (row_synced row)) 6 ++ " | " ++
   rjust (PyStr.of_Z (row_skipped row)) 7 ++ " | " ++
   rjust (PyStr.of_Z (row_failed row)) 6 ++ " | " ++
   ljust (row_status row) 8)%string.

Definition format_results_table
    (results : PyDict.dict Orchestrator.TargetResult)
    (account : option string) : string :=
  let header :=
    match account with
    | Some account =>
        if String.eqb account "" then "HarnessSync Results"
        else ("HarnessSync Results " ++ em_dash ++ " " ++ account)%string
    | None => "HarnessSync Results"
    end in
  let rows := table_rows results in
  let '(total_synced, total_skipped, total_failed) := totals rows in
  PyStr.join PyStr.nl
    ([header;
      repeat_char "="%char 60;
      (ljust "Target" 12 ++ "| " ++ rjust "Synced" 6 ++ " | " ++
       rjust "Skipped" 7 ++ " | " ++ rjust "Failed" 6 ++ " | " ++
       ljust "Status" 8)%string;
      rule] ++
     map format_row rows ++
     [rule;
      (ljust "Total" 12 ++ "| " ++ rjust (PyStr.of_Z total_synced) 6 ++
       " | " ++ rjust (PyStr.of_Z total_skipped) 7 ++ " | " ++
       rjust (PyStr.of_Z total_failed) 6 ++ " |")%string]).

End SyncCommand.

(* ================================================================== *)
(** * Part II: properties *)
(* ================================================================== *)

(** ** Facts about dictionaries *)

Section DictFacts.
Context {V : Type}.
Implicit Types (d : PyDict.dict V) (k : string) (v : V).

Lemma get_set_same d k v : PyDict.get k (PyDict.set k v d) = Some v.
Proof.
  induction d as [|[k' v'] r IH]; simpl.
  - now rewrite String.eqb_refl.
  - destruct (String.eqb k k') eqn:E; simpl; rewrite E; auto.
Qed.

Lemma get_set_other d k k' v :
  k' <> k -> PyDict.get k' (PyDict.set k v d) = PyDict.get k' d.
Proof.
  intros Hne. induction d as [|[k0 v0] r IH]; simpl.
  - apply String.eqb_neq in Hne. now rewrite Hne.
  - destruct (String.eqb k k0) eqn:E; simpl.
    + apply String.eqb_eq in E. subst k0.
      apply String.eqb_neq in Hne. now rewrite Hne.
    + now rewrite IH.
Qed.

Lemma get_set d k k' v :
  PyDict.get k' (PyDict.set k v d) =
  if String.eqb k' k then Some v else PyDict.get k' d.
Proof.
  destruct (String.eqb_spec k' k) as [->|Hne].
  - apply get_set_same.
  - now apply get_set_other.
Qed.

Lemma get_none_iff d k : PyDict.get k d = None <-> ~ In k (PyDict.keys d).
Proof.
  induction d as [|[k' v'] r IH]; simpl.
  - tauto.
  - destruct (String.eqb_spec k k') as [->|Hne].
    + split; [discriminate | intros H; exfalso; apply H; now left].
    + rewrite IH. split.
      * intros H [E|E]; [congruence | tauto].
      * intros H E. apply H. now right.
Qed.

Lemma get_some_in d k v : PyDict.get k d = Some v -> In (k, v) d.
Proof.
  induction d as [|[k' v'] r IH]; simpl; [discriminate|].
  destruct (String.eqb_spec k k') as [->|Hne].
  - intros [= ->]. now left.
  - intros H. right. auto.
Qed.

Lemma in_get_wf d k v : PyDict.wf d -> In (k, v) d -> PyDict.get k d = Some v.
Proof.
  unfold PyDict.wf. induction d as [|[k' v'] r IH]; simpl; [tauto|].
  intros Hnd [E|Hin].
  - inversion E; subst. now rewrite String.eqb_refl.
  - inversion Hnd as [|? ? Hnotin Hnd']; subst.
    destruct (String.eqb_spec k k') as [->|Hne].
    + exfalso. apply Hnotin. change (In (fst (k', v)) (map fst r)).
      now apply in_map.
    + auto.
Qed.

Lemma contains_iff d k : PyDict.contains k d = true <-> In k (PyDict.keys d).
Proof.
  unfold PyDict.contains. destruct (PyDict.get k d) eqn:E.
  - split; [intros _ | reflexivity].
    apply get_some_in in E. change k with (fst (k, v)). now apply in_map.
  - apply get_none_iff in E. split; [discriminate | tauto].
Qed.

Lemma keys_set_in d k v k' :
  In k' (PyDict.keys (PyDict.set k v d)) <-> k' = k \/ In k' (PyDict.keys d).
Proof.
  induction d as [|[k0 v0] r IH]; simpl.
  - intuition.
  - destruct (String.eqb_spec k k0) as [->|Hne]; simpl.
    + intuition.
    + rewrite IH. intuition.
Qed.

Lemma wf_set d k v : PyDict.wf d -> PyDict.wf (PyDict.set k v d).
Proof.
  unfold PyDict.wf. induction d as [|[k0 v0] r IH]; simpl; intros Hnd.
  - constructor; [simpl; tauto | constructor].
  - inversion Hnd as [|? ? Hnotin Hnd']; subst.
    destruct (String.eqb_spec k k0) as [->|Hne]; simpl.
    + now constructor.
    + constructor; [|auto].
      intros Hin. apply (keys_set_in r k v k0) in Hin.
      destruct Hin as [E|Hin]; [congruence | tauto].
Qed.

End DictFacts.

(** ** SyncResult.merge *)

Lemma merge_assoc (a b c : Result.SyncResult) :
  Result.merge (Result.merge a b) c = Result.merge a (Result.merge b c).
Proof.
  unfold Result.merge; simpl.
  now rewrite !Z.add_assoc, !app_assoc.
Qed.

Lemma merge_counters_comm (a b : Result.SyncResult) :
  Result.equiv (Result.merge a b) (Result.merge b a).
Proof.
  unfold Result.equiv, Result.merge; simpl.
  repeat split; try apply Z.add_comm; apply Permutation_app_comm.
Qed.

(** C7 (as stated, refuted): [merge] is not commutative, because the file
    lists are concatenated in argument order. *)
Lemma C7_merge_not_commutative :
  let a := Result.mkSyncResult 1 0 0 0 ["a.md"] [] [] in
  let b := Result.mkSyncResult 1 0 0 0 ["b.md"] [] [] in
  Result.merge a b <> Result.merge b a.
Proof. simpl. unfold Result.merge; simpl. discriminate. Qed.

(** C7 (amended): [merge] sums the four counters field-wise and
    concatenates the three file lists; it is associative, and it is
    commutative on the counters and up to the order of the file lists. *)
Theorem C7_merge_assoc_comm_up_to_order (a b c : Result.SyncResult) :
  Result.merge (Result.merge a b) c = Result.merge a (Result.merge b c) /\
  Result.equiv (Result.merge a b) (Result.merge b a) /\
  Result.synced (Result.merge a b) = (Result.synced a + Result.synced b)%Z /\
  Result.skipped (Result.merge a b) = (Result.skipped a + Result.skipped b)%Z /\
  Result.failed (Result.merge a b) = (Result.failed a + Result.failed b)%Z /\
  Result.adapted (Result.merge a b) = (Result.adapted a + Result.adapted b)%Z /\
  Result.synced_files (Result.merge a b) =
    Result.synced_files a ++ Result.synced_files b /\
  Result.skipped_files (Result.merge a b) =
    Result.skipped_files a ++ Result.skipped_files b /\
  Result.failed_files (Result.merge a b) =
    Result.failed_files a ++ Result.failed_files b.
Proof.
  split; [apply merge_assoc|].
  split; [apply merge_counters_comm|].
  repeat split.
Qed.

(** ** SecretDetector.scan *)

Section ScanFacts.
Import SecretDetector.

Lemma filter_nonempty_existsb {A} (p : A -> bool) (l : list A) :
  match filter p l with [] => false | _ :: _ => true end = existsb p l.
Proof.
  induction l as [|x r IH]; simpl; [reflexivity|].
  destruct (p x); simpl; auto.
Qed.

Lemma scan_loop_flat_map items detections :
  scan_loop items detections = detections ++ flat_map scan_var items.
Proof.
  revert detections.
  induction items as [|[name value] rest IH]; intros detections;
    cbn [scan_loop flat_map].
  - now rewrite app_nil_r.
  - unfold scan_var at 1, flag_condition; cbn [fst snd].
    destruct (has_safe_prefix (PyStr.upper name)); cbn [negb andb app];
      [apply IH|].
    rewrite <- filter_nonempty_existsb. unfold matched_keywords_of.
    destruct (filter (PyStr.contains (PyStr.upper name)) SECRET_KEYWORDS);
      cbn [negb andb app]; [apply IH|].
    destruct (SECRET_VALUE_PATTERN_match value); cbn [negb andb app];
      [|apply IH].
    rewrite IH. now rewrite <- app_assoc.
Qed.

Lemma scan_flat_map env_vars : scan env_vars = flat_map scan_var env_vars.
Proof. unfold scan, PyDict.items. apply scan_loop_flat_map. Qed.

Lemma scan_var_name kv d : In d (scan_var kv) -> d = detection_of (fst kv).
Proof.
  unfold scan_var. destruct (flag_condition _ _); simpl; intuition.
Qed.

Lemma flagged_iff env_vars name :
  flagged env_vars name <->
  exists value, In (name, value) env_vars /\ flag_condition name value = true.
Proof.
  unfold flagged. rewrite scan_flat_map. split.
  - intros (d & Hin & Hname). apply in_flat_map in Hin.
    destruct Hin as ([n v] & Hkv & Hd).
    unfold scan_var in Hd; simpl in Hd.
    destruct (flag_condition n v) eqn:E; simpl in Hd; [|tauto].
    destruct Hd as [<-|[]]. simpl in Hname. subst n. eauto.
  - intros (value & Hin & Hc). exists (detection_of name). split; [|reflexivity].
    apply in_flat_map. exists (name, value). split; [assumption|].
    unfold scan_var; simpl. rewrite Hc. now left.
Qed.

Lemma scan_set_same_class env_vars k v v' :
  PyDict.get k env_vars = Some v ->
  SECRET_VALUE_PATTERN_match v = SECRET_VALUE_PATTERN_match v' ->
  scan (PyDict.set k v' env_vars) = scan env_vars.
Proof.
  rewrite !scan_flat_map.
  induction env_vars as [|[k0 v0] rest IH]; simpl; [discriminate|].
  destruct (String.eqb k k0) eqn:E; simpl.
  - intros [= ->] Hm. f_equal.
    unfold scan_var, flag_condition; simpl. now rewrite Hm.
  - intros Hget Hm. f_equal. auto.
Qed.

End ScanFacts.

(** C8 (as stated, refuted): a lower-case name contains no keyword of the
    set as written, yet it is flagged, because the code tests the
    upper-cased name. *)
Lemma C8_lowercase_name_flagged :
  let env_vars := [("my_api_key", "abcdefghijklmnop")] in
  SecretDetector.flagged env_vars "my_api_key" /\
  SecretDetector.spec_flag_condition "my_api_key" "abcdefghijklmnop" = false.
Proof.
  simpl. split; [|reflexivity].
  exists (SecretDetector.detection_of "my_api_key").
  split; [|reflexivity]. vm_compute. now left.
Qed.

(** C8 (amended): [scan] flags a variable if and only if its upper-cased
    name starts with none of the whitelisted prefixes (TEST_, EXAMPLE_,
    DEMO_, MOCK_, FAKE_, DUMMY_), its upper-cased name contains at least
    one keyword of the fixed set, and its value matches the complexity
    pattern; a name with a whitelisted prefix is never flagged, whatever
    its value. *)
Theorem C8_scan_flags_iff (env_vars : PyDict.dict string) (name : string) :
  (SecretDetector.flagged env_vars name <->
   exists value,
     In (name, value) env_vars /\
     SecretDetector.has_safe_prefix (PyStr.upper name) = false /\
     existsb (PyStr.contains (PyStr.upper name))
       SecretDetector.SECRET_KEYWORDS = true /\
     SecretDetector.SECRET_VALUE_PATTERN_match value = true) /\
  (SecretDetector.has_safe_prefix (PyStr.upper name) = true ->
   ~ SecretDetector.flagged env_vars name).
Proof.
  assert (Hc : forall value,
    SecretDetector.flag_condition name value = true <->
    SecretDetector.has_safe_prefix (PyStr.upper name) = false /\
    existsb (PyStr.contains (PyStr.upper name))
      SecretDetector.SECRET_KEYWORDS = true /\
    SecretDetector.SECRET_VALUE_PATTERN_match value = true).
  { intros value. unfold SecretDetector.flag_condition.
    rewrite !andb_true_iff, negb_true_iff. tauto. }
  split.
  - rewrite flagged_iff. split; intros (value & Hin & H);
      exists value; (split; [assumption|]); now apply Hc.
  - intros Hsafe Hfl. apply flagged_iff in Hfl.
    destruct Hfl as (value & _ & H). apply Hc in H. destruct H as [H _].
    congruence.
Qed.

(** C8, witness of the whitelist clause. *)
Lemma C8_scan_flags_iff_witness :
  ~ SecretDetector.flagged [("TEST_API_KEY", "abcdefghijklmnop")] "TEST_API_KEY".
Proof.
  apply (C8_scan_flags_iff [("TEST_API_KEY", "abcdefghijklmnop")] "TEST_API_KEY").
  reflexivity.
Defined.

(** C9: a detection holds the four fields [var_name], [keywords_matched],
    [confidence] and [reason], all of them computed from the variable's
    name alone; replacing the value of a variable by another value, both
    matching the complexity pattern, leaves the list returned by [scan]
    and the text of [format_warnings] unchanged. *)
Theorem C9_scan_never_carries_value
    (env_vars : PyDict.dict string) (k v v' : string) :
  PyDict.get k env_vars = Some v ->
  SecretDetector.SECRET_VALUE_PATTERN_match v = true ->
  SecretDetector.SECRET_VALUE_PATTERN_match v' = true ->
  SecretDetector.scan (PyDict.set k v' env_vars) = SecretDetector.scan env_vars /\
  SecretDetector.format_warnings (SecretDetector.scan (PyDict.set k v' env_vars)) =
    SecretDetector.format_warnings (SecretDetector.scan env_vars) /\
  (forall d, In d (SecretDetector.scan env_vars) ->
     d = SecretDetector.detection_of (SecretDetector.var_name d) /\
     In (SecretDetector.var_name d) (PyDict.keys env_vars)).
Proof.
  intros Hget Hv Hv'.
  assert (E : SecretDetector.scan (PyDict.set k v' env_vars) =
              SecretDetector.scan env_vars).
  { apply scan_set_same_class with (v := v); congruence. }
  split; [exact E|]. split; [now rewrite E|].
  intros d Hd. rewrite scan_flat_map in Hd. apply in_flat_map in Hd.
  destruct Hd as (kv & Hkv & Hd). apply scan_var_name in Hd. subst d.
  split; [reflexivity|]. simpl. unfold PyDict.keys. now apply in_map.
Qed.

Lemma C9_scan_never_carries_value_witness :
  let env_vars := [("API_KEY", "abcdefghijklmnop"); ("HOME", "/root")] in
  SecretDetector.scan (PyDict.set "API_KEY" "ZYXWVUTSRQPONMLK9876" env_vars) =
  SecretDetector.scan env_vars.
Proof.
  simpl.
  apply (C9_scan_never_carries_value
           [("API_KEY", "abcdefghijklmnop"); ("HOME", "/root")]
           "API_KEY" "abcdefghijklmnop" "ZYXWVUTSRQPONMLK9876");
    reflexivity.
Defined.

(** ** StateManager.record_sync *)

Section RecordSyncFacts.
Import StateManager.
Local Open Scope Z_scope.

Lemma recorded_target_record_sync sm target scope file_hashes sync_methods
    synced skipped failed account :
  exists ts,
    recorded_target
      (record_sync sm target scope file_hashes sync_methods
                   synced skipped failed account) account target = Some ts /\
    ts_status ts = record_sync_status synced skipped failed /\
    ts_file_hashes ts = file_hashes /\
    ts_items_synced ts = synced /\
    ts_items_skipped ts = skipped /\
    ts_items_failed ts = failed.
Proof.
  destruct account as [account|]; unfold record_sync, recorded_target;
    cbn -[record_sync_status PyDict.get PyDict.set].
  - unfold get_account_target_status;
      cbn -[record_sync_status PyDict.get PyDict.set].
    rewrite get_set_same.
    cbn -[record_sync_status PyDict.get PyDict.set].
    rewrite get_set_same. eexists. split; [reflexivity|].
    repeat split.
  - unfold get_target_status;
      cbn -[record_sync_status PyDict.get PyDict.set].
    rewrite get_set_same. eexists. split; [reflexivity|].
    repeat split.
Qed.

Lemma record_sync_status_spec synced skipped failed :
  0 <= synced -> 0 <= skipped -> 0 <= failed ->
  synced + skipped + failed <> 0 ->
  record_sync_status synced skipped failed =
  spec_status synced skipped failed.
Proof.
  intros Hs Hk Hf Ht. unfold record_sync_status, spec_status.
  destruct (Z.eqb_spec (synced + skipped + failed) 0) as [E|_]; [lia|].
  destruct (Z.eqb_spec failed 0) as [E|Hf0]; [reflexivity|].
  destruct (Z.gtb_spec synced 0), (Z.gtb_spec failed 0),
           (Z.eqb_spec synced 0); simpl; try reflexivity; lia.
Qed.

Lemma status_property_spec (r : Result.SyncResult) :
  0 <= Result.synced r -> 0 <= Result.skipped r -> 0 <= Result.failed r ->
  Result.status r =
  spec_status (Result.synced r) (Result.skipped r) (Result.failed r).
Proof.
  intros Hs Hk Hf. unfold Result.status, Result.total, spec_status.
  destruct (Z.eqb_spec (Result.synced r + Result.skipped r + Result.failed r) 0);
    [reflexivity|].
  destruct (Z.eqb_spec (Result.failed r) 0); [reflexivity|].
  destruct (Z.gtb_spec (Result.synced r) 0), (Z.gtb_spec (Result.failed r) 0),
           (Z.eqb_spec (Result.synced r) 0); simpl; try reflexivity; lia.
Qed.

End RecordSyncFacts.

(** C6 (as stated, refuted): with all three counters at zero
    [record_sync] persists [success], where the status function of
    section 3 and [SyncResult.status] give [nothing]. *)
Lemma C6_zero_counters_recorded_as_success :
  let sm := StateManager.mkManager StateManager.fresh_state None 0 in
  let sm' := StateManager.record_sync sm "codex" "all" [] [] 0 0 0 None in
  option_map StateManager.ts_status
    (StateManager.recorded_target sm' None "codex") = Some "success" /\
  StateManager.spec_status 0 0 0 = "nothing" /\
  Result.status Result.default = "nothing".
Proof. repeat split. Qed.

(** C6 (amended): for non-negative counters that are not all zero, the
    status string that [record_sync] persists for the target equals the
    status function of section 3, which is also what [SyncResult.status]
    computes on these counters; for all counters zero [record_sync]
    persists [success]. *)
Theorem C6_record_sync_status
    (sm : StateManager.t) (target scope : string)
    (file_hashes sync_methods : PyDict.dict string)
    (synced skipped failed : Z) (account : option string) :
  (0 <= synced)%Z -> (0 <= skipped)%Z -> (0 <= failed)%Z ->
  exists ts,
    StateManager.recorded_target
      (StateManager.record_sync sm target scope file_hashes sync_methods
         synced skipped failed account) account target = Some ts /\
    ((synced + skipped + failed <> 0)%Z ->
       StateManager.ts_status ts =
         StateManager.spec_status synced skipped failed /\
       forall r, Result.synced r = synced -> Result.skipped r = skipped ->
                 Result.failed r = failed ->
                 StateManager.ts_status ts = Result.status r) /\
    ((synced + skipped + failed = 0)%Z ->
       StateManager.ts_status ts = "success").
Proof.
  intros Hs Hk Hf.
  destruct (recorded_target_record_sync sm target scope file_hashes
              sync_methods synced skipped failed account)
    as (ts & Hts & Hst & _).
  exists ts. split; [exact Hts|]. rewrite Hst. split.
  - intros Ht. split; [now apply record_sync_status_spec|].
    intros r <- <- <-. rewrite status_property_spec by assumption.
    now apply record_sync_status_spec.
  - intros Ht. assert (failed = 0%Z) as -> by lia. reflexivity.
Qed.

Lemma C6_record_sync_status_witness :
  exists ts,
    StateManager.recorded_target
      (StateManager.record_sync
         (StateManager.mkManager StateManager.fresh_state None 0)
         "codex" "all" [("/home/u/.claude/CLAUDE.md", "0123456789abcdef")] []
         3 1 2 (Some "work")) (Some "work") "codex" = Some ts /\
    StateManager.ts_status ts = "partial".
Proof.
  destruct (C6_record_sync_status
              (StateManager.mkManager StateManager.fresh_state None 0)
              "codex" "all" [("/home/u/.claude/CLAUDE.md", "0123456789abcdef")] []
              3 1 2 (Some "work")) as (ts & Hts & Hst & _); try lia.
  exists ts. split; [exact Hts|].
  destruct Hst as [Hst _]; [lia|]. exact Hst.
Defined.

(** ** Lists built by a loop that appends at most one entry per key *)

Section KeyedLoops.
Context {A B C : Type} (key : A -> C) (proj : B -> C) (f : A -> list B).
Hypothesis f_keyed :
  forall a, f a = [] \/ exists b, f a = [b] /\ proj b = key a.

Lemma keyed_in (l : list A) (c : C) :
  In c (map proj (flat_map f l)) -> In c (map key l).
Proof.
  induction l as [|a r IH]; simpl; [tauto|].
  rewrite map_app, in_app_iff. intros [H|H]; [|right; auto].
  destruct (f_keyed a) as [E|(b & E & Hb)]; rewrite E in H; simpl in H.
  - tauto.
  - left. destruct H as [H|[]]. congruence.
Qed.

Lemma keyed_NoDup (l : list A) :
  NoDup (map key l) -> NoDup (map proj (flat_map f l)).
Proof.
  induction l as [|a r IH]; simpl; intros Hnd; [constructor|].
  inversion Hnd as [|? ? Hnotin Hnd']; subst.
  rewrite map_app.
  destruct (f_keyed a) as [E|(b & E & Hb)]; rewrite E; simpl; [auto|].
  constructor; [|auto].
  rewrite Hb. intros Hin. apply Hnotin. now apply keyed_in.
Qed.

End KeyedLoops.

Lemma get_app {V} (k : string) (l1 l2 : PyDict.dict V) :
  PyDict.get k (l1 ++ l2) =
  match PyDict.get k l1 with
  | Some v => Some v
  | None => PyDict.get k l2
  end.
Proof.
  induction l1 as [|[k0 v0] r IH]; simpl; [reflexivity|].
  destruct (String.eqb k k0); auto.
Qed.

Lemma get_fold_set {V} (l d : PyDict.dict V) (k : string) :
  PyDict.wf l ->
  PyDict.get k (fold_left (fun acc kv => PyDict.set (fst kv) (snd kv) acc) l d) =
  match PyDict.get k l with
  | Some v => Some v
  | None => PyDict.get k d
  end.
Proof.
  unfold PyDict.wf. revert d.
  induction l as [|[k0 v0] r IH]; intros d Hnd; simpl; [reflexivity|].
  inversion Hnd as [|? ? Hnotin Hnd']; subst.
  rewrite IH by assumption. rewrite get_set.
  destruct (String.eqb_spec k k0) as [->|Hne]; [|reflexivity].
  apply get_none_iff in Hnotin. now rewrite Hnotin.
Qed.

Lemma wf_fold_set {V} (l d : PyDict.dict V) :
  PyDict.wf d ->
  PyDict.wf (fold_left (fun acc kv => PyDict.set (fst kv) (snd kv) acc) l d).
Proof.
  revert d. induction l as [|[k0 v0] r IH]; intros d Hd; simpl; [assumption|].
  apply IH. now apply wf_set.
Qed.

(** ** StateManager.detect_drift *)

Section DriftFacts.
Import StateManager.

Variables stored_hashes current_hashes : PyDict.dict string.
Hypothesis wf_stored : PyDict.wf stored_hashes.
Hypothesis wf_current : PyDict.wf current_hashes.

Let changed_or_new (kv : string * string) : list string :=
  match PyDict.get (fst kv) stored_hashes with
  | Some stored_hash =>
      if String.eqb stored_hash (snd kv) then [] else [fst kv]
  | None => [fst kv]
  end.

Lemma changed_or_new_keyed (kv : string * string) :
  changed_or_new kv = [] \/
  exists b, changed_or_new kv = [b] /\ (fun p : string => p) b = fst kv.
Proof.
  unfold changed_or_new. destruct (PyDict.get (fst kv) stored_hashes).
  - destruct (String.eqb s (snd kv)); eauto.
  - eauto.
Qed.

Lemma drift_against_NoDup :
  NoDup (drift_against stored_hashes current_hashes).
Proof.
  unfold drift_against. apply NoDup_app.
  - rewrite <- (map_id (flat_map _ _)).
    apply keyed_NoDup with (key := fst); [apply changed_or_new_keyed|].
    exact wf_current.
  - apply NoDup_filter. exact wf_stored.
  - intros p Hin Hrem. apply filter_In in Hrem. destruct Hrem as [_ Hnc].
    rewrite <- (map_id (flat_map _ _)) in Hin.
    apply keyed_in with (key := fst) in Hin; [|apply changed_or_new_keyed].
    apply contains_iff in Hin. unfold PyDict.items in Hin.
    rewrite Hin in Hnc. discriminate.
Qed.

Lemma drift_against_in (p : string) :
  In p (drift_against stored_hashes current_hashes) <->
  (PyDict.get p stored_hashes = None /\
   PyDict.get p current_hashes <> None) \/
  (exists h h', PyDict.get p stored_hashes = Some h /\
                PyDict.get p current_hashes = Some h' /\ h <> h') \/
  (PyDict.get p stored_hashes <> None /\
   PyDict.get p current_hashes = None).
Proof.
  unfold drift_against, PyDict.items. rewrite in_app_iff, filter_In, in_flat_map.
  split.
  - intros [([k h'] & Hin & Hp)|[Hin Hnc]].
    + pose proof (in_get_wf _ _ _ wf_current Hin) as Hget. simpl in Hp.
      destruct (PyDict.get k stored_hashes) as [h|] eqn:Es.
      * destruct (String.eqb_spec h h') as [->|Hne]; simpl in Hp; [tauto|].
        destruct Hp as [<-|[]]. right; left. eauto.
      * destruct Hp as [<-|[]]. left. split; [assumption | congruence].
    + right; right. split.
      * intros Hn. apply get_none_iff in Hn. tauto.
      * unfold PyDict.contains in Hnc.
        destruct (PyDict.get p current_hashes); [discriminate | reflexivity].
  - intros [[Hs Hc]|[(h & h' & Hs & Hc & Hne)|[Hs Hc]]].
    + left. destruct (PyDict.get p current_hashes) as [h'|] eqn:Ec; [|tauto].
      exists (p, h'). split; [now apply get_some_in|].
      simpl. rewrite Hs. now left.
    + left. exists (p, h'). split; [now apply get_some_in|].
      simpl. rewrite Hs. apply String.eqb_neq in Hne. rewrite Hne. now left.
    + right. split.
      * destruct (in_dec string_dec p (PyDict.keys stored_hashes)) as [H|H];
          [assumption|]. apply get_none_iff in H. tauto.
      * unfold PyDict.contains. now rewrite Hc.
Qed.

End DriftFacts.

(** C5: the stored baseline of a target is the record found in the state
    document: under an account, the record of the target in the
    [targets] of that account's entry of [accounts]; without an account,
    the record of the target in the top-level [targets].  When such a
    record is stored, [detect_drift] returns, each once, exactly the
    paths that are added (only in current), changed (in both, with
    different digests) or removed (only in the record's [file_hashes]);
    when no such record is stored (no entry for the account, no
    [targets] in it, or no record of the target) it returns every path
    of the current map. *)
Theorem C5_detect_drift_paths
    (sm : StateManager.t) (target : string)
    (current_hashes : PyDict.dict string) (account : option string) :
  let state := StateManager._state sm in
  let stored (ts : StateManager.TargetState) : Prop :=
    match account with
    | Some name =>
        exists accounts entry targets,
          StateManager.st_accounts state = Some accounts /\
          PyDict.get name accounts = Some entry /\
          StateManager.acc_targets entry = Some targets /\
          PyDict.get target targets = Some ts
    | None =>
        exists targets,
          StateManager.st_targets state = Some targets /\
          PyDict.get target targets = Some ts
    end in
  let drifted := StateManager.detect_drift sm target current_hashes account in
  PyDict.wf current_hashes ->
  (forall ts, stored ts -> PyDict.wf (StateManager.ts_file_hashes ts)) ->
  ((forall ts, ~ stored ts) -> drifted = PyDict.keys current_hashes) /\
  (forall ts, stored ts ->
     let stored_hashes := StateManager.ts_file_hashes ts in
     NoDup drifted /\
     forall path,
       In path drifted <->
       (PyDict.get path stored_hashes = None /\
        PyDict.get path current_hashes <> None) \/
       (exists h h', PyDict.get path stored_hashes = Some h /\
                     PyDict.get path current_hashes = Some h' /\ h <> h') \/
       (PyDict.get path stored_hashes <> None /\
        PyDict.get path current_hashes = None)).
Proof.
  intros state stored drifted Hwc Hws.
  assert (Hb : forall ts,
            StateManager.drift_baseline sm target account = Some ts <->
            stored ts).
  { intros ts. unfold StateManager.drift_baseline, stored, state.
    destruct account as [name|].
    - destruct (StateManager.st_accounts (StateManager._state sm))
        as [accounts|] eqn:Ea; cbn [StateManager.or_empty PyDict.get].
      + destruct (PyDict.get name accounts) as [entry|] eqn:Ee.
        * unfold StateManager.account_falsy.
          destruct (StateManager.acc_targets entry) as [targets|] eqn:Et;
            cbn [StateManager.or_empty PyDict.get].
          -- assert (Hf : (match StateManager.acc_last_sync entry with
                           | Some _ => false
                           | None => false
                           end) = false)
               by now destruct (StateManager.acc_last_sync entry).
             rewrite Hf. split.
             ++ intros H. exists accounts, entry, targets. now rewrite Et.
             ++ intros (a' & e' & t' & Ha' & He' & Ht' & Hg).
                congruence.
          -- split.
             ++ intros H.
                destruct (StateManager.acc_last_sync entry),
                         (StateManager.acc_plugins entry); discriminate.
             ++ intros (a' & e' & t' & Ha' & He' & Ht' & Hg).
                congruence.
        * split; [discriminate|].
          intros (a' & e' & t' & Ha' & He' & Ht' & Hg). congruence.
      + split; [discriminate|].
        intros (a' & e' & t' & Ha' & He' & Ht' & Hg). discriminate.
    - destruct (StateManager.st_targets (StateManager._state sm))
        as [targets|] eqn:Et; cbn [StateManager.or_empty PyDict.get].
      + split.
        * intros H. now exists targets.
        * intros (t' & Ht' & Hg). congruence.
      + split; [discriminate|]. intros (t' & Ht' & Hg). discriminate. }
  unfold drifted, StateManager.detect_drift. split.
  - intros Hno.
    destruct (StateManager.drift_baseline sm target account) as [ts|] eqn:E;
      [|reflexivity].
    exfalso. apply (Hno ts). now apply Hb.
  - intros ts Hts. apply Hb in Hts as E. rewrite E. cbn zeta. split.
    + apply drift_against_NoDup; auto.
    + intros path. apply drift_against_in; auto.
Qed.

(** ** StateManager.detect_plugin_drift *)

Section PluginDriftFacts.
Import StateManager.

Variables stored_plugins current_plugins : PyDict.dict PluginMeta.

Let removed_step (plugin_name : string) : list (string * string) :=
  if PyDict.contains plugin_name current_plugins then []
  else [(plugin_name, "removed")].

Let changed_step (kv : string * PluginMeta) : list (string * string) :=
  match PyDict.get (fst kv) stored_plugins with
  | None => [(fst kv, "added")]
  | Some stored_meta =>
      if negb (String.eqb (pm_version (snd kv)) (pm_version stored_meta))
      then [(fst kv, version_changed stored_meta (snd kv))]
      else if negb (pm_mcp_count (snd kv) =? pm_mcp_count stored_meta)%Z
      then [(fst kv, mcp_count_changed stored_meta (snd kv))]
      else []
  end.

Lemma removed_step_keyed (plugin_name : string) :
  removed_step plugin_name = [] \/
  exists b, removed_step plugin_name = [b] /\ fst b = plugin_name.
Proof.
  unfold removed_step.
  destruct (PyDict.contains plugin_name current_plugins); eauto.
Qed.

Lemma changed_step_keyed (kv : string * PluginMeta) :
  changed_step kv = [] \/
  exists b, changed_step kv = [b] /\ fst b = fst kv.
Proof.
  unfold changed_step. destruct (PyDict.get (fst kv) stored_plugins); eauto.
  destruct (negb _); eauto. destruct (negb _); eauto.
Qed.

Lemma removed_assignments_absent (name : string) :
  In name (PyDict.keys (removed_assignments stored_plugins current_plugins)) ->
  PyDict.contains name current_plugins = false.
Proof.
  unfold PyDict.keys, removed_assignments. intros Hin.
  apply in_map_iff in Hin. destruct Hin as ([k reason] & Hk & Hin).
  simpl in Hk. subst k. apply in_flat_map in Hin.
  destruct Hin as (x & _ & Hx).
  destruct (PyDict.contains x current_plugins) eqn:Ex; simpl in Hx; [tauto|].
  destruct Hx as [[= <- _]|[]]. exact Ex.
Qed.

Lemma get_removed_assignments (name : string) :
  PyDict.get name (removed_assignments stored_plugins current_plugins) =
  match PyDict.get name stored_plugins with
  | Some _ =>
      if PyDict.contains name current_plugins then None else Some "removed"
  | None => None
  end.
Proof.
  destruct (PyDict.contains name current_plugins) eqn:Ec.
  - transitivity (@None string).
    + apply get_none_iff. intros Hin.
      apply removed_assignments_absent in Hin. congruence.
    + now destruct (PyDict.get name stored_plugins).
  - unfold removed_assignments, PyDict.keys.
    induction stored_plugins as [|[k0 m0] r IH]; simpl; [reflexivity|].
    rewrite get_app.
    destruct (String.eqb_spec name k0) as [<-|Hne].
    + rewrite Ec. simpl. now rewrite String.eqb_refl.
    + destruct (PyDict.contains k0 current_plugins); simpl.
      * exact IH.
      * apply String.eqb_neq in Hne. rewrite Hne. exact IH.
Qed.

Lemma get_changed_none (name : string) :
  PyDict.get name current_plugins = None ->
  PyDict.get name (changed_assignments stored_plugins current_plugins) = None.
Proof.
  intros Hn. apply get_none_iff. intros Hin.
  apply (keyed_in fst fst changed_step changed_step_keyed) in Hin.
  apply get_none_iff in Hn. exact (Hn Hin).
Qed.

End PluginDriftFacts.

Lemma changed_assignments_cons
    (stored_plugins r : PyDict.dict StateManager.PluginMeta)
    (kv : string * StateManager.PluginMeta) :
  StateManager.changed_assignments stored_plugins (kv :: r) =
  StateManager.changed_assignments stored_plugins [kv] ++
  StateManager.changed_assignments stored_plugins r.
Proof.
  unfold StateManager.changed_assignments, PyDict.items. simpl.
  now rewrite app_nil_r.
Qed.

Lemma get_changed_single
    (stored_plugins : PyDict.dict StateManager.PluginMeta)
    (k0 name : string) (c0 : StateManager.PluginMeta) :
  PyDict.get name (StateManager.changed_assignments stored_plugins [(k0, c0)]) =
  if String.eqb name k0
  then StateManager.drift_reason (PyDict.get k0 stored_plugins) (Some c0)
  else None.
Proof.
  unfold StateManager.changed_assignments, StateManager.drift_reason,
    PyDict.items. simpl.
  destruct (PyDict.get k0 stored_plugins) as [s|]; simpl.
  - destruct (negb (StateManager.pm_version c0 =?
                    StateManager.pm_version s)%string); simpl.
    + now destruct (String.eqb name k0).
    + destruct (negb (StateManager.pm_mcp_count c0 =?
                      StateManager.pm_mcp_count s)%Z); simpl;
        now destruct (String.eqb name k0).
  - now destruct (String.eqb name k0).
Qed.

Lemma get_changed_assignments
    (stored_plugins current_plugins : PyDict.dict StateManager.PluginMeta)
    (name : string) :
  PyDict.wf current_plugins ->
  PyDict.get name
    (StateManager.changed_assignments stored_plugins current_plugins) =
  match PyDict.get name current_plugins with
  | None => None
  | Some c =>
      StateManager.drift_reason (PyDict.get name stored_plugins) (Some c)
  end.
Proof.
  unfold PyDict.wf.
  induction current_plugins as [|[k0 c0] r IH]; intros Hnd; [reflexivity|].
  inversion Hnd as [|? ? Hnotin Hnd']; subst.
  rewrite changed_assignments_cons, get_app, get_changed_single.
  cbn [PyDict.get].
  destruct (String.eqb_spec name k0) as [->|Hne].
  - apply get_none_iff in Hnotin.
    rewrite (get_changed_none stored_plugins r k0 Hnotin).
    now destruct (StateManager.drift_reason _ _).
  - now apply IH.
Qed.

Lemma drift_assignments_wf
    (stored_plugins current_plugins : PyDict.dict StateManager.PluginMeta) :
  PyDict.wf stored_plugins -> PyDict.wf current_plugins ->
  PyDict.wf (StateManager.drift_assignments stored_plugins current_plugins).
Proof.
  intros Hs Hc. unfold PyDict.wf, PyDict.keys, StateManager.drift_assignments.
  rewrite map_app. apply NoDup_app.
  - unfold StateManager.removed_assignments.
    apply keyed_NoDup with (key := fun p : string => p).
    + apply removed_step_keyed.
    + now rewrite map_id.
  - unfold StateManager.changed_assignments.
    apply keyed_NoDup with (key := fst); [|exact Hc].
    apply changed_step_keyed.
  - intros name Hr Hch.
    apply removed_assignments_absent in Hr.
    apply (keyed_in fst fst _ (changed_step_keyed stored_plugins)) in Hch.
    apply contains_iff in Hch. congruence.
Qed.


(** Dictionaries written out in full hold each key once. *)
Ltac solve_wf :=
  unfold PyDict.wf; simpl;
  repeat (constructor; [simpl; intuition discriminate|]);
  constructor.


Lemma C5_detect_drift_paths_witness :
  let stored :=
    [("/p/CLAUDE.md", "aaaaaaaaaaaaaaaa");
     ("/p/.mcp.json", "bbbbbbbbbbbbbbbb");
     ("/p/old.md", "eeeeeeeeeeeeeeee")] in
  let current :=
    [("/p/CLAUDE.md", "aaaaaaaaaaaaaaaa");
     ("/p/.mcp.json", "cccccccccccccccc");
     ("/p/new.md", "dddddddddddddddd")] in
  let record := StateManager.mkTargetState 0 "success" "all" stored [] 3 0 0 in
  let work :=
    StateManager.mkAccountState (Some 1%nat) (Some [("codex", record)])
                                None in
  let sm :=
    StateManager.mkManager
      (StateManager.mkState 2 (Some 1%nat)
         (Some [("gemini", record)])
         (Some [("work", work)]) None)
      None 2 in
  StateManager.detect_drift sm "codex" current (Some "work") =
    ["/p/.mcp.json"; "/p/new.md"; "/p/old.md"] /\
  In "/p/.mcp.json"
     (StateManager.detect_drift sm "codex" current (Some "work")) /\
  StateManager.detect_drift sm "gemini" current (Some "work") =
    ["/p/CLAUDE.md"; "/p/.mcp.json"; "/p/new.md"] /\
  StateManager.detect_drift sm "codex" current (Some "home") =
    ["/p/CLAUDE.md"; "/p/.mcp.json"; "/p/new.md"] /\
  StateManager.detect_drift sm "codex" current None =
    ["/p/CLAUDE.md"; "/p/.mcp.json"; "/p/new.md"] /\
  ~ In "/p/CLAUDE.md" (StateManager.detect_drift sm "gemini" current None).
Proof.
  intros stored current record work sm. split; [reflexivity|].
  assert (Hc : PyDict.wf current) by solve_wf.
  assert (Hr : PyDict.wf (StateManager.ts_file_hashes record)) by solve_wf.
  split; [|split; [|split; [|split]]].
  - destruct (C5_detect_drift_paths sm "codex" current (Some "work") Hc)
      as [_ H].
    + intros ts (a & e & t & [= <-] & [= <-] & [= <-] & [= <-]). exact Hr.
    + destruct (H record) as [_ Hin].
      * exists [("work", work)], work, [("codex", record)].
        repeat split; reflexivity.
      * apply Hin. right; left.
        exists "bbbbbbbbbbbbbbbb", "cccccccccccccccc".
        repeat split; discriminate.
  - destruct (C5_detect_drift_paths sm "gemini" current (Some "work") Hc)
      as [H _].
    + intros ts (a & e & t & [= <-] & [= <-] & [= <-] & [=]).
    + apply H.
      intros ts (a & e & t & [= <-] & [= <-] & [= <-] & [=]).
  - destruct (C5_detect_drift_paths sm "codex" current (Some "home") Hc)
      as [H _].
    + intros ts (a & e & t & [= <-] & [=] & _).
    + apply H. intros ts (a & e & t & [= <-] & [=] & _).
  - destruct (C5_detect_drift_paths sm "codex" current None Hc) as [H _].
    + intros ts (t & [= <-] & [=]).
    + apply H. intros ts (t & [= <-] & [=]).
  - destruct (C5_detect_drift_paths sm "gemini" current None Hc) as [_ H].
    + intros ts (t & [= <-] & [= <-]). exact Hr.
    + destruct (H record) as [_ Hin].
      * exists [("gemini", record)]. split; reflexivity.
      * intros Hi. apply Hin in Hi.
        destruct Hi as [[Hn _] | [(h & h' & Hs & Hcur & Hd) | [_ Hn]]].
        -- discriminate Hn.
        -- injection Hs as <-. injection Hcur as <-. now apply Hd.
        -- discriminate Hn.
Defined.

(** ** SourceReader.get_mcp_servers_with_scope *)

Section LayerFacts.
Import SourceReader.

Lemma get_fold_set_with {V W} (f : V -> W) (l : PyDict.dict V)
    (d : PyDict.dict W) (k : string) :
  PyDict.wf l ->
  PyDict.get k
    (fold_left (fun acc kv => PyDict.set (fst kv) (f (snd kv)) acc) l d) =
  match PyDict.get k l with
  | Some v => Some (f v)
  | None => PyDict.get k d
  end.
Proof.
  unfold PyDict.wf. revert d.
  induction l as [|[k0 v0] r IH]; intros d Hnd; simpl; [reflexivity|].
  inversion Hnd as [|? ? Hnotin Hnd']; subst.
  rewrite IH by assumption. rewrite get_set.
  destruct (String.eqb_spec k k0) as [->|Hne]; [|reflexivity].
  apply get_none_iff in Hnotin. now rewrite Hnotin.
Qed.

Lemma get_add_file_layer sc layer servers name :
  PyDict.wf layer ->
  PyDict.get name (add_file_layer sc layer servers) =
  match PyDict.get name layer with
  | Some c => Some (file_entry sc c)
  | None => PyDict.get name servers
  end.
Proof. intros Hwf. unfold add_file_layer. now apply get_fold_set_with. Qed.

Lemma get_add_plugin_layer layer servers name :
  PyDict.wf layer ->
  PyDict.get name (add_plugin_layer layer servers) =
  match PyDict.get name servers with
  | Some e => Some e
  | None =>
      match PyDict.get name layer with
      | Some p => Some (plugin_entry p)
      | None => None
      end
  end.
Proof.
  unfold PyDict.wf, add_plugin_layer, PyDict.items. revert servers.
  induction layer as [|[k0 p0] r IH]; intros servers Hnd; simpl.
  - now destruct (PyDict.get name servers).
  - inversion Hnd as [|? ? Hnotin Hnd']; subst.
    rewrite IH by assumption. apply get_none_iff in Hnotin.
    unfold PyDict.contains.
    destruct (String.eqb_spec name k0) as [->|Hne].
    + rewrite Hnotin.
      destruct (PyDict.get k0 servers) as [e|] eqn:E; simpl.
      * now rewrite E.
      * now rewrite get_set_same.
    + destruct (PyDict.get k0 servers) as [e|] eqn:E; simpl;
        [reflexivity|]. now rewrite get_set_other.
Qed.

Lemma get_permutation {V} (d d' : PyDict.dict V) (k : string) :
  PyDict.wf d -> Permutation d d' -> PyDict.get k d = PyDict.get k d'.
Proof.
  intros Hwf Hp.
  assert (Hwf' : PyDict.wf d').
  { unfold PyDict.wf, PyDict.keys in *.
    eapply Permutation_NoDup; [|exact Hwf]. now apply Permutation_map. }
  destruct (PyDict.get k d) as [v|] eqn:E.
  - symmetry. apply in_get_wf; [assumption|].
    eapply Permutation_in; [exact Hp|]. now apply get_some_in.
  - destruct (PyDict.get k d') as [v'|] eqn:E'; [|reflexivity].
    apply get_some_in in E'. apply Permutation_sym in Hp.
    apply (Permutation_in _ Hp) in E'.
    apply in_get_wf in E'; [congruence | assumption].
Qed.

Lemma get_by_precedence (r : t) (name : string) :
  layers_wf r ->
  PyDict.get name (get_mcp_servers_with_scope r) = by_precedence r name.
Proof.
  intros (Hu & Hp & Hj & Hl).
  unfold get_mcp_servers_with_scope, by_precedence, discovered_user,
    discovered_plugin, discovered_project, discovered_local.
  destruct (project_enabled r), (scope_in r ["user"; "all"]);
    cbn [PyDict.get];
    rewrite ?get_add_file_layer, ?get_add_plugin_layer,
            ?get_add_file_layer by assumption;
    cbn [PyDict.get];
    repeat match goal with
           | |- context [match PyDict.get ?k ?d with _ => _ end] =>
               destruct (PyDict.get k d)
           end; reflexivity.
Qed.

End LayerFacts.

(** C2: for layers that are dicts, the entry returned for a name is the
    one of the highest-precedence layer that discovered it, local over
    project over user: it holds that layer's config unchanged and is
    tagged with that layer's scope and the file source.  A plugin entry
    is returned only when no local, project or user file entry has the
    name; it holds the plugin's config without the keys that start with
    an underscore and is tagged with the user scope, the plugin source
    and the plugin's name and version.  A name that a user file lists is
    always answered by a file entry.  The result does not depend on the
    order in which each layer lists its servers. *)
Theorem C2_scope_precedence (r : SourceReader.t) :
  SourceReader.layers_wf r ->
  let servers := SourceReader.get_mcp_servers_with_scope r in
  let from_file sc c :=
    SourceReader.mkScopedEntry c
      (SourceReader.mkMetadata sc SourceReader.file None None) in
  let from_plugin p :=
    SourceReader.mkScopedEntry
      (filter (fun kv => negb (PyStr.startswith (fst kv) "_"))
              (SourceReader.expanded p))
      (SourceReader.mkMetadata SourceReader.user SourceReader.plugin
         (Some (SourceReader._plugin_name p))
         (Some (SourceReader._plugin_version p))) in
  (forall name,
     PyDict.get name servers = SourceReader.by_precedence r name) /\
  (forall name c,
     PyDict.get name (SourceReader.discovered_local r) = Some c ->
     PyDict.get name servers = Some (from_file SourceReader.local c)) /\
  (forall name c,
     PyDict.get name (SourceReader.discovered_local r) = None ->
     PyDict.get name (SourceReader.discovered_project r) = Some c ->
     PyDict.get name servers = Some (from_file SourceReader.project c)) /\
  (forall name c,
     PyDict.get name (SourceReader.discovered_local r) = None ->
     PyDict.get name (SourceReader.discovered_project r) = None ->
     PyDict.get name (SourceReader.discovered_user r) = Some c ->
     PyDict.get name servers = Some (from_file SourceReader.user c)) /\
  (forall name p,
     PyDict.get name (SourceReader.discovered_local r) = None ->
     PyDict.get name (SourceReader.discovered_project r) = None ->
     PyDict.get name (SourceReader.discovered_user r) = None ->
     PyDict.get name (SourceReader.discovered_plugin r) = Some p ->
     PyDict.get name servers = Some (from_plugin p)) /\
  (forall name,
     PyDict.get name (SourceReader.discovered_local r) = None ->
     PyDict.get name (SourceReader.discovered_project r) = None ->
     PyDict.get name (SourceReader.discovered_user r) = None ->
     PyDict.get name (SourceReader.discovered_plugin r) = None ->
     PyDict.get name servers = None) /\
  (forall name c,
     PyDict.get name (SourceReader.discovered_user r) = Some c ->
     exists e,
       PyDict.get name servers = Some e /\
       SourceReader.source (SourceReader.metadata e) = SourceReader.file) /\
  (forall name e,
     PyDict.get name servers = Some e ->
     SourceReader.source (SourceReader.metadata e) = SourceReader.plugin ->
     SourceReader.scope (SourceReader.metadata e) = SourceReader.user /\
     PyDict.get name (SourceReader.discovered_user r) = None /\
     exists p,
       PyDict.get name (SourceReader.discovered_plugin r) = Some p /\
       e = from_plugin p) /\
  (forall r', SourceReader.same_layers r r' ->
     forall name,
       PyDict.get name servers =
       PyDict.get name (SourceReader.get_mcp_servers_with_scope r')).
Proof.
  intros Hwf servers from_file from_plugin.
  assert (Hget : forall name,
            PyDict.get name servers = SourceReader.by_precedence r name).
  { intros name. now apply get_by_precedence. }
  split; [exact Hget|].
  split; [intros name c Hl; rewrite Hget; unfold SourceReader.by_precedence;
          now rewrite Hl|].
  split; [intros name c Hl Hj; rewrite Hget;
          unfold SourceReader.by_precedence; now rewrite Hl, Hj|].
  split; [intros name c Hl Hj Hu; rewrite Hget;
          unfold SourceReader.by_precedence; now rewrite Hl, Hj, Hu|].
  split; [intros name p Hl Hj Hu Hp; rewrite Hget;
          unfold SourceReader.by_precedence; now rewrite Hl, Hj, Hu, Hp|].
  split; [intros name Hl Hj Hu Hp; rewrite Hget;
          unfold SourceReader.by_precedence; now rewrite Hl, Hj, Hu, Hp|].
  split; [|split].
  - intros name c Hu. rewrite Hget. unfold SourceReader.by_precedence.
    rewrite Hu.
    destruct (PyDict.get name (SourceReader.discovered_local r));
      [eexists; split; reflexivity|].
    destruct (PyDict.get name (SourceReader.discovered_project r));
      eexists; split; reflexivity.
  - intros name e Hs Hsrc.
    rewrite Hget in Hs. unfold SourceReader.by_precedence in Hs.
    destruct (PyDict.get name (SourceReader.discovered_local r));
      [injection Hs as <-; discriminate|].
    destruct (PyDict.get name (SourceReader.discovered_project r));
      [injection Hs as <-; discriminate|].
    destruct (PyDict.get name (SourceReader.discovered_user r));
      [injection Hs as <-; discriminate|].
    destruct (PyDict.get name (SourceReader.discovered_plugin r)) as [p|];
      [|discriminate].
    injection Hs as <-.
    split; [reflexivity|]. split; [reflexivity|].
    exists p. split; reflexivity.
  - intros r' (Hsc & Hpd & Pu & Pp & Pj & Pl) name.
    destruct Hwf as (Hu & Hp & Hj & Hl).
    assert (Hwf' : SourceReader.layers_wf r').
    { unfold SourceReader.layers_wf, PyDict.wf, PyDict.keys in *.
      repeat split;
        (eapply Permutation_NoDup; [apply Permutation_map; eassumption|]);
        assumption. }
    rewrite Hget, (get_by_precedence r' name Hwf').
    unfold SourceReader.by_precedence, SourceReader.discovered_user,
      SourceReader.discovered_plugin, SourceReader.discovered_project,
      SourceReader.discovered_local, SourceReader.project_enabled,
      SourceReader.scope_in.
    rewrite <- Hsc, <- Hpd.
    repeat match goal with
           | |- context [if ?b then _ else _] => destruct b
           end;
      rewrite <- ?(get_permutation _ _ name Hu Pu),
              <- ?(get_permutation _ _ name Hp Pp),
              <- ?(get_permutation _ _ name Hj Pj),
              <- ?(get_permutation _ _ name Hl Pl);
      reflexivity.
Qed.

Lemma C2_scope_precedence_witness :
  let cfg := fun cmd : string => [("command", SourceReader.PStr cmd)] in
  let from_file sc c :=
    SourceReader.mkScopedEntry c
      (SourceReader.mkMetadata sc SourceReader.file None None) in
  let lint :=
    SourceReader.mkPluginServer
      (("_source", SourceReader.PStr "plugin") :: cfg "plugin-lint")
      "linter" "0.9.1" in
  let r :=
    SourceReader.mkReader "all" (Some "/work/app")
      [("db", cfg "user-db"); ("search", cfg "user-search")]
      [("search",
        SourceReader.mkPluginServer
          (("_source", SourceReader.PStr "plugin") :: cfg "plugin-search")
          "finder" "1.2.0");
       ("lint", lint)]
      [("db", cfg "project-db"); ("api", cfg "project-api")]
      [("api", cfg "local-api")] in
  SourceReader.get_mcp_servers_with_scope r =
  [("db", from_file SourceReader.project (cfg "project-db"));
   ("search", from_file SourceReader.user (cfg "user-search"));
   ("lint",
    SourceReader.mkScopedEntry (cfg "plugin-lint")
      (SourceReader.mkMetadata SourceReader.user SourceReader.plugin
         (Some "linter") (Some "0.9.1")));
   ("api", from_file SourceReader.local (cfg "local-api"))] /\
  PyDict.get "api" (SourceReader.get_mcp_servers_with_scope r) =
    Some (SourceReader.mkScopedEntry [("command", SourceReader.PStr "local-api")]
            (SourceReader.mkMetadata SourceReader.local SourceReader.file
               None None)) /\
  PyDict.get "lint" (SourceReader.get_mcp_servers_with_scope r) =
    Some (SourceReader.mkScopedEntry
            [("command", SourceReader.PStr "plugin-lint")]
            (SourceReader.mkMetadata SourceReader.user SourceReader.plugin
               (Some "linter") (Some "0.9.1"))).
Proof.
  intros cfg from_file lint r. split; [reflexivity|].
  assert (Hwf : SourceReader.layers_wf r)
    by (repeat split; solve_wf).
  destruct (C2_scope_precedence r Hwf) as (_ & Hl & _ & _ & Hp & _).
  split.
  - apply (Hl "api" (cfg "local-api")). reflexivity.
  - apply (Hp "lint" lint); reflexivity.
Defined.

(** ** AdapterBase.sync_all *)

Section SyncAllFacts.
Import Exc Adapter.
Context {W : Type}.

Lemma guarded_run (category : string) (c : Call)
    (op : W -> Outcome Result.SyncResult * W) (run : Run W) :
  guarded W category (call W c op) run =
  (Returned tt,
   mkRun (PyDict.set category (entry_of category (fst (op (world run))))
                     (results run))
         (calls run ++ [c])
         (snd (op (world run)))).
Proof.
  unfold guarded, try_except, bind, call, store, modify.
  destruct (op (world run)) as [[r|msg] w']; reflexivity.
Qed.

Lemma guarded_mcp_run (a : AdapterImpl W) (source_data : SourceData)
    (run : Run W) :
  guarded W "mcp"
    (if negb (PyDict.is_empty (mcp_scoped source_data))
     then sync_mcp_scoped W a (mcp_scoped source_data)
     else call W CallSyncMcp (sync_mcp a (mcp source_data))) run =
  (Returned tt,
   mkRun (PyDict.set "mcp"
            (entry_of "mcp" (fst (mcp_operation a source_data (world run))))
            (results run))
         (calls run ++ mcp_calls a source_data (world run))
         (snd (mcp_operation a source_data (world run)))).
Proof.
  unfold mcp_operation, mcp_calls, mcp_step.
  destruct (negb (PyDict.is_empty (mcp_scoped source_data))).
  - unfold guarded, try_except, bind, sync_mcp_scoped, store, modify.
    cbn [world results calls].
    destruct (perform a
                (resolve_sync_mcp_scoped a (mcp_scoped source_data))
                (world run)) as [[[r|msg] made] w']; reflexivity.
  - unfold guarded, try_except, bind, call, store, modify.
    cbn [world results calls].
    destruct (sync_mcp a (mcp source_data) (world run)) as [[r|msg] w'];
      reflexivity.
Qed.

(** The calls a body makes are calls of [sync_mcp]. *)
Lemma perform_calls (a : AdapterImpl W) (m : Method W) (w : W) :
  exists n, snd (fst (perform a m w)) = repeat CallSyncMcp n.
Proof.
  revert w. induction m as [o|op k IH|servers k IH]; intros w;
    cbn [perform].
  - now exists 0%nat.
  - destruct (op w) as [o w']. apply IH.
  - destruct (sync_mcp a servers w) as [o w'].
    destruct (IH o w') as [n Hn].
    destruct (perform a (k o) w') as [[o' made] w''].
    exists (S n). cbn [fst snd] in *. now rewrite Hn.
Qed.

Lemma perform_no_self_call (a : AdapterImpl W) (m : Method W) (w : W) :
  NoSelfCall m -> snd (fst (perform a m w)) = [].
Proof.
  intros H. revert w. induction H as [o|op k _ IH]; intros w;
    cbn [perform]; [reflexivity|].
  destruct (op w) as [o w']. apply IH.
Qed.

Lemma no_self_call_merge_then (result : Result.SyncResult)
    (rest : Result.SyncResult -> Method W) (o : Outcome Result.SyncResult) :
  (forall r, NoSelfCall (rest r)) -> NoSelfCall (merge_then result rest o).
Proof.
  intros H. destruct o as [r|e]; cbn [merge_then]; [apply H|constructor].
Qed.

Lemma no_self_call_writes
    (write : PyDict.dict SourceReader.config -> string ->
             W -> Outcome Result.SyncResult * W)
    (user_path project_path : string) (result : Result.SyncResult)
    (user_servers project_servers : PyDict.dict SourceReader.config) :
  let write_project (result : Result.SyncResult) : Method W :=
    if negb (PyDict.is_empty project_servers)
    then Own (write project_servers project_path)
             (merge_then result return_result)
    else return_result result in
  NoSelfCall
    (if negb (PyDict.is_empty user_servers)
     then Own (write user_servers user_path)
              (merge_then result write_project)
     else write_project result).
Proof.
  intros write_project.
  assert (Hp : forall r, NoSelfCall (write_project r)).
  { intros r. unfold write_project.
    destruct (negb (PyDict.is_empty project_servers)).
    - constructor. intros o. apply no_self_call_merge_then.
      intros r'. constructor.
    - constructor. }
  destruct (negb (PyDict.is_empty user_servers)); [|apply Hp].
  constructor. intros o. now apply no_self_call_merge_then.
Qed.

(** [CodexAdapter.sync_mcp_scoped] and [GeminiAdapter.sync_mcp_scoped]
    write by themselves and never call [self.sync_mcp]. *)
Lemma codex_no_self_call check translate write user_path project_path
    (mcp_servers_scoped : PyDict.dict SourceReader.ScopedEntry) :
  NoSelfCall
    (CodexAdapter.sync_mcp_scoped (W := W) check translate write
       user_path project_path mcp_servers_scoped).
Proof.
  unfold CodexAdapter.sync_mcp_scoped.
  destruct (PyDict.is_empty mcp_servers_scoped); [constructor|].
  destruct (fold_left _ _ _) as [[result user_servers] project_servers].
  apply no_self_call_writes.
Qed.

Lemma gemini_no_self_call check write user_path project_path
    (mcp_servers_scoped : PyDict.dict SourceReader.ScopedEntry) :
  NoSelfCall
    (GeminiAdapter.sync_mcp_scoped (W := W) check write
       user_path project_path mcp_servers_scoped).
Proof.
  unfold GeminiAdapter.sync_mcp_scoped.
  destruct (PyDict.is_empty mcp_servers_scoped); [constructor|].
  destruct (fold_left _ _ _) as [[result user_servers] project_servers].
  apply no_self_call_writes.
Qed.

Lemma is_empty_set {V} (d : PyDict.dict V) (k : string) (v : V) :
  PyDict.is_empty (PyDict.set k v d) = false.
Proof.
  destruct d as [|[k' v'] r]; cbn [PyDict.set]; [reflexivity|].
  destruct (String.eqb k k'); reflexivity.
Qed.

Lemma opencode_valid_servers check
    (l : list (string * SourceReader.ScopedEntry))
    (result : Result.SyncResult)
    (valid_servers : PyDict.dict SourceReader.config) :
  PyDict.is_empty
    (snd (fold_left (OpenCodeAdapter.validate check) l
            (result, valid_servers))) =
  PyDict.is_empty valid_servers &&
  negb (existsb
          (fun kv =>
             fst (check (fst kv) (SourceReader.entry_config (snd kv))
                        "opencode")) l).
Proof.
  revert result valid_servers.
  induction l as [|kv l IH]; intros result valid_servers;
    cbn [fold_left existsb]; [now rewrite andb_true_r|].
  unfold OpenCodeAdapter.validate at 2.
  destruct (check (fst kv) (SourceReader.entry_config (snd kv)) "opencode")
    as [ok msg]; cbn [fst].
  destruct ok; cbn [negb orb].
  - rewrite IH, is_empty_set. now rewrite andb_false_r.
  - apply IH.
Qed.

(** [OpenCodeAdapter.sync_mcp_scoped] calls [self.sync_mcp] once when a
    server passes the transport check, and not at all otherwise. *)
Lemma opencode_calls (a : AdapterImpl W) check
    (mcp_servers_scoped : PyDict.dict SourceReader.ScopedEntry) (w : W) :
  snd (fst (perform a
              (OpenCodeAdapter.sync_mcp_scoped check mcp_servers_scoped) w)) =
  if existsb
       (fun kv =>
          fst (check (fst kv) (SourceReader.entry_config (snd kv))
                     "opencode"))
       (PyDict.items mcp_servers_scoped)
  then [CallSyncMcp]
  else [].
Proof.
  unfold OpenCodeAdapter.sync_mcp_scoped.
  destruct mcp_servers_scoped as [|kv l]; [reflexivity|].
  cbn [PyDict.is_empty].
  pose proof (opencode_valid_servers check (PyDict.items (kv :: l))
                Result.default []) as Hv.
  destruct (fold_left _ _ _) as [result valid_servers].
  cbn [snd PyDict.is_empty andb] in Hv. rewrite Hv, negb_involutive.
  destruct (existsb _ _); [|reflexivity].
  cbn [perform].
  destruct (sync_mcp a valid_servers w) as [[r|e] w']; reflexivity.
Qed.

End SyncAllFacts.



(** ** The secret scan of SyncOrchestrator.sync_all *)

(** C1: when the scan of the MCP environment variables yields at least
    one detection and the override flag is absent, [sync_all] returns the
    blocked result with the reason [secrets_detected] and the formatted
    warnings; the state manager (document in memory and state file) and
    the files are unchanged, and the only event is the log warning: no
    adapter is invoked, no backup is touched, no state is recorded. *)
Theorem C1_secrets_block_sync {W : Type}
    (env : Orchestrator.Env W) (self : Orchestrator.t)
    (w : Orchestrator.World W) :
  let detections :=
    SecretDetector.scan_mcp_env
      (Adapter.mcp (Orchestrator.adapter_data env)) in
  detections <> [] ->
  Orchestrator.allow_secrets self = false ->
  let w' := snd (Orchestrator.sync_all env self w) in
  fst (Orchestrator.sync_all env self w) =
    Exc.Returned
      (Orchestrator.Blocked "secrets_detected"
         (SecretDetector.format_warnings detections)) /\
  Orchestrator.state_manager w' = Orchestrator.state_manager w /\
  Orchestrator.files w' = Orchestrator.files w /\
  Orchestrator.events w' =
    Orchestrator.events w ++
    [Orchestrator.LogWarn
       "Sync blocked: secrets detected in environment variables"] /\
  forallb (fun e => negb (Orchestrator.is_write e))
    [Orchestrator.LogWarn
       "Sync blocked: secrets detected in environment variables"] = true.
Proof.
  intros detections Hdet Hallow. unfold Orchestrator.sync_all.
  fold detections. rewrite Hallow.
  destruct detections as [|d rest]; [congruence|].
  cbn. repeat split.
Qed.

(** ** The plugins section across a run *)

Section PluginsFrame.
Import Exc Orchestrator.
Context {W : Type}.
Variable acct : option string.

Lemma untouched_refl (w : World W) : plugins_untouched acct w w.
Proof.
  split; [reflexivity|]. exists []. split; [now rewrite app_nil_r | tauto].
Qed.

Lemma untouched_trans (w1 w2 w3 : World W) :
  plugins_untouched acct w1 w2 -> plugins_untouched acct w2 w3 ->
  plugins_untouched acct w1 w3.
Proof.
  intros [E1 (n1 & H1 & N1)] [E2 (n2 & H2 & N2)]. split; [congruence|].
  exists (n1 ++ n2). split.
  - now rewrite H2, H1, app_assoc.
  - rewrite in_app_iff. tauto.
Qed.

Lemma keeps_ret {A} (a : A) : keeps_plugins acct (ret (S := World W) a).
Proof. intros w. apply untouched_refl. Qed.

Lemma keeps_raise {A} (msg : string) :
  keeps_plugins acct (fun w : World W => (@Raised A msg, w)).
Proof. intros w. apply untouched_refl. Qed.

Lemma keeps_get : keeps_plugins acct (get (S := World W)).
Proof. intros w. apply untouched_refl. Qed.

Lemma keeps_bind {A B} (m : M (World W) A) (k : A -> M (World W) B) :
  keeps_plugins acct m -> (forall a, keeps_plugins acct (k a)) ->
  keeps_plugins acct (bind m k).
Proof.
  intros Hm Hk w. unfold bind. specialize (Hm w).
  destruct (m w) as [[a|msg] w1]; simpl in *; [|exact Hm].
  eapply untouched_trans; [exact Hm | apply Hk].
Qed.

Lemma keeps_try_except {A} (body : M (World W) A)
    (handler : string -> M (World W) A) :
  keeps_plugins acct body -> (forall e, keeps_plugins acct (handler e)) ->
  keeps_plugins acct (try_except body handler).
Proof.
  intros Hb Hh w. unfold try_except. specialize (Hb w).
  destruct (body w) as [[a|msg] w1]; simpl in *; [exact Hb|].
  eapply untouched_trans; [exact Hb | apply Hh].
Qed.

Lemma keeps_for_each {A} (l : list A) (body : A -> M (World W) unit) :
  (forall x, keeps_plugins acct (body x)) ->
  keeps_plugins acct (for_each l body).
Proof.
  intros Hb. induction l as [|x r IH]; simpl.
  - apply keeps_ret.
  - apply keeps_bind; [apply Hb | intros _; exact IH].
Qed.

Lemma keeps_log (e : Event) :
  e <> StateRecordPluginSync -> keeps_plugins acct (log W e).
Proof.
  intros Hne w. split; [reflexivity|]. exists [e]. split; [reflexivity|].
  simpl. intuition.
Qed.

Lemma keeps_on_files {A} (f : W -> Outcome A * W) :
  keeps_plugins acct (on_files W f).
Proof.
  intros w. unfold on_files. destruct (f (files w)) as [o files'].
  split; [reflexivity|]. exists []. split; [now rewrite app_nil_r | tauto].
Qed.

Lemma keeps_if {A} (b : bool) (m1 m2 : M (World W) A) :
  keeps_plugins acct m1 -> keeps_plugins acct m2 ->
  keeps_plugins acct (if b then m1 else m2).
Proof. now destruct b. Qed.

End PluginsFrame.

Section UpdateStateFacts.
Import Exc Orchestrator.
Context {W : Type}.

Lemma get_plugin_status_record_sync sm target scope file_hashes sync_methods
    synced skipped failed account acct :
  StateManager.get_plugin_status
    (StateManager.record_sync sm target scope file_hashes sync_methods
       synced skipped failed account) acct =
  StateManager.get_plugin_status sm acct.
Proof.
  destruct account as [a|], acct as [b|];
    unfold StateManager.record_sync, StateManager.get_plugin_status;
    cbn -[PyDict.get PyDict.set]; try reflexivity.
  rewrite get_set. destruct (String.eqb_spec b a) as [->|Hne]; [|reflexivity].
  destruct (PyDict.get a
              (StateManager.or_empty
                 (StateManager.st_accounts (StateManager._state sm))))
    as [e|]; cbn; [|reflexivity].
  destruct e as [[ls|] [tg|] [pl|]]; reflexivity.
Qed.

Lemma get_plugin_status_record_plugin_sync sm plugins acct :
  StateManager.get_plugin_status
    (StateManager.record_plugin_sync sm plugins acct) acct = plugins.
Proof.
  destruct acct as [a|];
    unfold StateManager.record_plugin_sync, StateManager.get_plugin_status;
    cbn -[PyDict.get PyDict.set]; [|reflexivity].
  rewrite get_set_same. cbn.
  now destruct (StateManager.acc_last_sync _), (StateManager.acc_targets _).
Qed.

Lemma get_plugin_status_state sm sm' acct :
  StateManager._state sm' = StateManager._state sm ->
  StateManager.get_plugin_status sm' acct =
  StateManager.get_plugin_status sm acct.
Proof. intros E. unfold StateManager.get_plugin_status. now rewrite E. Qed.

Lemma extract_step_state acc kv :
  StateManager._state (snd (extract_step acc kv)) =
  StateManager._state (snd acc).
Proof.
  destruct acc as [plugins sm]. unfold extract_step.
  destruct (SourceReader.source _); [reflexivity|].
  destruct (PyDict.get _ plugins); reflexivity.
Qed.

Lemma extract_fold_state l acc :
  StateManager._state (snd (fold_left extract_step l acc)) =
  StateManager._state (snd acc).
Proof.
  revert acc. induction l as [|kv r IH]; intros acc; simpl; [reflexivity|].
  rewrite IH. apply extract_step_state.
Qed.

Lemma set_not_empty {V} (k : string) (v : V) (d : PyDict.dict V) :
  PyDict.is_empty (PyDict.set k v d) = false.
Proof.
  destruct d as [|[k0 v0] r]; simpl; [reflexivity|].
  now destruct (String.eqb k k0).
Qed.

Lemma extract_fold_empty l acc :
  PyDict.is_empty (fst (fold_left extract_step l acc)) =
  PyDict.is_empty (fst acc) && PyDict.is_empty (plugin_sourced l).
Proof.
  revert acc. induction l as [|kv r IH]; intros [plugins sm]; simpl.
  - now rewrite andb_true_r.
  - rewrite IH. unfold extract_step.
    destruct (SourceReader.source (SourceReader.metadata (snd kv)));
      [reflexivity|].
    destruct (PyDict.get _ plugins); simpl;
      rewrite set_not_empty; simpl; now rewrite andb_false_r.
Qed.

Lemma extract_empty_iff mcp_scoped sm :
  PyDict.is_empty (fst (_extract_plugin_metadata mcp_scoped sm)) =
  PyDict.is_empty (plugin_sourced mcp_scoped).
Proof. unfold _extract_plugin_metadata. now rewrite extract_fold_empty. Qed.

Lemma keeps_record_target acct (self : t) file_hashes kv :
  keeps_plugins acct (record_target W self file_hashes kv).
Proof.
  unfold record_target. destruct (PyStr.startswith (fst kv) "_");
    [apply keeps_ret|].
  destruct (sum_counts (snd kv)) as [[synced skipped] failed].
  apply keeps_bind; [|intros _; apply keeps_log; discriminate].
  intros w. split; [apply get_plugin_status_record_sync|].
  exists []. split; [now rewrite app_nil_r | tauto].
Qed.

(** The loop over the targets never raises. *)
Lemma for_each_record_target_returns (self : t) file_hashes l (w : World W) :
  fst (for_each l (record_target W self file_hashes) w) = Returned tt.
Proof.
  revert w. induction l as [|kv r IH]; intros w; simpl; [reflexivity|].
  unfold bind at 1. unfold record_target at 1.
  destruct (PyStr.startswith (fst kv) "_"); simpl; [apply IH|].
  destruct (sum_counts (snd kv)) as [[synced skipped] failed].
  simpl. apply IH.
Qed.

Lemma extract_fold_keys l acc (n : string) :
  In n (PyDict.keys (fst (fold_left extract_step l acc))) <->
  In n (PyDict.keys (fst acc)) \/
  exists kv, In kv (plugin_sourced l) /\
             get_plugin_name (SourceReader.metadata (snd kv)) = n.
Proof.
  revert acc. induction l as [|kv r IH]; intros [plugins sm].
  - simpl. split; [tauto | intros [H|(kv & [] & _)]; exact H].
  - cbn [fold_left]. rewrite IH. unfold extract_step, plugin_sourced.
    cbn [filter fst snd].
    destruct (SourceReader.source (SourceReader.metadata (snd kv))).
    + reflexivity.
    + assert (Hk : forall meta sm',
        In n (PyDict.keys (fst
          (PyDict.set (get_plugin_name (SourceReader.metadata (snd kv)))
             meta plugins, sm' : StateManager.t))) <->
        n = get_plugin_name (SourceReader.metadata (snd kv)) \/
        In n (PyDict.keys plugins)).
      { intros meta sm'. cbn [fst]. apply keys_set_in. }
      destruct (PyDict.get _ plugins) as [meta|]; cbn [StateManager.now];
        rewrite Hk; cbn [In]; split.
      * intros [[->|H]|(x & Hx & <-)]; eauto.
      * intros [H|(x & [<-|Hx] & <-)]; eauto.
      * intros [[->|H]|(x & Hx & <-)]; eauto.
      * intros [H|(x & [<-|Hx] & <-)]; eauto.
Qed.

Lemma extract_keys mcp_scoped sm (n : string) :
  In n (PyDict.keys (fst (_extract_plugin_metadata mcp_scoped sm))) <->
  exists kv, In kv (plugin_sourced mcp_scoped) /\
             get_plugin_name (SourceReader.metadata (snd kv)) = n.
Proof.
  unfold _extract_plugin_metadata. rewrite extract_fold_keys. simpl.
  tauto.
Qed.

Lemma update_state_run (env : Env W) (self : t) results (w : World W) :
  let w1 :=
    snd (for_each (PyDict.items results)
           (record_target W self (hash_sources W env w)) w) in
  let pm :=
    _extract_plugin_metadata (Adapter.mcp_scoped (adapter_data env))
      (state_manager w1) in
  _update_state env self results w =
  if negb (PyDict.is_empty (fst pm))
  then (Returned tt,
        mkWorld
          (StateManager.record_plugin_sync (snd pm) (fst pm) (account self))
          (files w1) (events w1 ++ [StateRecordPluginSync]))
  else (Returned tt, mkWorld (snd pm) (files w1) (events w1)).
Proof.
  intros w1 pm. unfold _update_state.
  unfold bind at 1. unfold get at 1. unfold bind at 1.
  pose proof (for_each_record_target_returns self (hash_sources W env w)
                (PyDict.items results) w) as Hret.
  fold w1.
  destruct (for_each (PyDict.items results)
              (record_target W self (hash_sources W env w)) w)
    as [o w1'] eqn:E.
  simpl in Hret. subst o. subst w1. cbn [snd] in *.
  unfold bind at 1. unfold get at 1. fold pm.
  destruct pm as [plugins_metadata sm]. cbn [fst snd].
  destruct (PyDict.is_empty plugins_metadata); reflexivity.
Qed.

Lemma update_state_no_plugin (env : Env W) (self : t) results :
  plugin_sourced (Adapter.mcp_scoped (adapter_data env)) = [] ->
  keeps_plugins (account self) (_update_state env self results).
Proof.
  intros Hnone w. rewrite update_state_run.
  rewrite extract_empty_iff, Hnone. cbn [PyDict.is_empty negb snd].
  set (w1 := snd (for_each _ _ w)).
  assert (H1 : plugins_untouched (account self) w w1).
  { apply (keeps_for_each (account self)). intros x.
    apply keeps_record_target. }
  eapply untouched_trans; [exact H1|].
  split.
  - cbn [state_manager]. apply get_plugin_status_state.
    unfold _extract_plugin_metadata. apply extract_fold_state.
  - exists []. cbn [events]. split; [now rewrite app_nil_r | tauto].
Qed.

Lemma update_state_with_plugin (env : Env W) (self : t) results
    (w : World W) :
  plugin_sourced (Adapter.mcp_scoped (adapter_data env)) <> [] ->
  exists sm,
    let plugins_metadata :=
      fst (_extract_plugin_metadata
             (Adapter.mcp_scoped (adapter_data env)) sm) in
    let w' := snd (_update_state env self results w) in
    PyDict.is_empty plugins_metadata = false /\
    StateManager.get_plugin_status (state_manager w') (account self) =
      plugins_metadata /\
    In StateRecordPluginSync (events w').
Proof.
  intros Hsome.
  exists (state_manager
            (snd (for_each (PyDict.items results)
                    (record_target W self (hash_sources W env w)) w))).
  cbn zeta. rewrite update_state_run.
  assert (He : PyDict.is_empty
            (fst (_extract_plugin_metadata
                    (Adapter.mcp_scoped (adapter_data env))
                    (state_manager
                       (snd (for_each (PyDict.items results)
                               (record_target W self (hash_sources W env w))
                               w))))) = false).
  { rewrite extract_empty_iff.
    destruct (plugin_sourced _); [congruence | reflexivity]. }
  rewrite He. cbn [negb snd state_manager events].
  split; [reflexivity|]. split.
  - apply get_plugin_status_record_plugin_sync.
  - apply in_or_app. right. now left.
Qed.

End UpdateStateFacts.

Section PipelineFacts.
Import Exc Orchestrator.
Context {W : Type}.
Variable acct : option string.

Lemma keeps_sync_target (env : Env W) (self : t) target results :
  keeps_plugins acct (sync_target env self target results).
Proof.
  unfold sync_target. apply keeps_bind.
  - unfold get_adapter.
    destruct (PyDict.get target (_adapters W env)) as [adapter|];
      [apply keeps_ret | apply keeps_raise].
  - intros a. destruct (dry_run self).
    + apply keeps_bind; [apply keeps_log; discriminate|].
      intros _. apply keeps_ret.
    + apply keeps_try_except.
      * intros w.
        destruct (Adapter.sync_all a (adapter_data env) (files w))
          as [o run] eqn:E.
        assert (H : plugins_untouched acct w
                  (mkWorld (state_manager w) (Adapter.world run)
                     (events w ++
                      [AdapterSyncAll target (Adapter.calls run)]))).
        { split; [reflexivity|]. eexists. split; [reflexivity|].
          simpl. intuition discriminate. }
        destruct o; exact H.
      * intros e. apply keeps_bind; [apply keeps_log; discriminate|].
        intros _. apply keeps_ret.
Qed.

Lemma keeps_sync_targets (env : Env W) (self : t) targets results :
  keeps_plugins acct (sync_targets env self targets results).
Proof.
  revert results. induction targets as [|target rest IH]; intros results;
    simpl.
  - apply keeps_ret.
  - apply keeps_bind; [apply keeps_sync_target | intros r; apply IH].
Qed.

Lemma keeps_symlink_cleanup (env : Env W) :
  keeps_plugins acct (symlink_cleanup W env).
Proof.
  unfold symlink_cleanup. apply keeps_bind; [apply keeps_on_files|].
  intros n. apply keeps_bind; [apply keeps_log; discriminate|].
  intros _. apply keeps_if; [apply keeps_log; discriminate | apply keeps_ret].
Qed.

Lemma keeps_backup_retention (env : Env W) targets :
  keeps_plugins acct (backup_retention W env targets).
Proof.
  unfold backup_retention. apply keeps_try_except.
  - apply keeps_for_each. intros target.
    apply keeps_bind; [apply keeps_on_files|].
    intros _. apply keeps_log. discriminate.
  - intros e. apply keeps_log. discriminate.
Qed.

End PipelineFacts.

Lemma sync_all_no_plugin {W : Type}
    (env : Orchestrator.Env W) (self : Orchestrator.t) :
  Orchestrator.plugin_sourced
    (Adapter.mcp_scoped (Orchestrator.adapter_data env)) = [] ->
  Orchestrator.keeps_plugins (Orchestrator.account self)
    (Orchestrator.sync_all env self).
Proof.
  intros Hnone. unfold Orchestrator.sync_all.
  destruct (SecretDetector.should_block _ _).
  - apply keeps_bind; [apply keeps_log; discriminate|].
    intros _. apply keeps_ret.
  - unfold Orchestrator.run_pipeline.
    apply keeps_bind; [apply keeps_get|]. intros w0.
    apply keeps_bind;
      [apply keeps_if; [apply keeps_log; discriminate | apply keeps_ret]|].
    intros _. apply keeps_bind; [apply keeps_sync_targets|]. intros results.
    apply keeps_bind;
      [apply keeps_if; [apply keeps_symlink_cleanup | apply keeps_ret]|].
    intros _. apply keeps_bind;
      [apply keeps_if; [now apply update_state_no_plugin | apply keeps_ret]|].
    intros _. apply keeps_bind;
      [apply keeps_if; [apply keeps_backup_retention | apply keeps_ret]|].
    intros _. apply keeps_ret.
Qed.

(** C10: when discovery yields no plugin-sourced MCP server, a run leaves
    the stored plugins section of its account as it was and never calls
    [record_plugin_sync], in [_update_state] and so in the whole of
    [sync_all], so entries of plugins that are gone survive; when
    discovery yields at least one plugin-sourced server, [_update_state]
    replaces the section by the metadata extracted in this run, whose
    names are exactly the plugin names just discovered. *)
Theorem C10_plugins_section_kept_without_plugin_servers {W : Type}
    (env : Orchestrator.Env W) (self : Orchestrator.t) :
  let mcp_scoped := Adapter.mcp_scoped (Orchestrator.adapter_data env) in
  (Orchestrator.plugin_sourced mcp_scoped = [] ->
   (forall results w,
      Orchestrator.plugins_untouched (Orchestrator.account self) w
        (snd (Orchestrator._update_state env self results w))) /\
   (forall w,
      Orchestrator.plugins_untouched (Orchestrator.account self) w
        (snd (Orchestrator.sync_all env self w)))) /\
  (Orchestrator.plugin_sourced mcp_scoped <> [] ->
   forall results w,
   exists sm,
     let plugins_metadata :=
       fst (Orchestrator._extract_plugin_metadata mcp_scoped sm) in
     let w' := snd (Orchestrator._update_state env self results w) in
     PyDict.is_empty plugins_metadata = false /\
     StateManager.get_plugin_status (Orchestrator.state_manager w')
       (Orchestrator.account self) = plugins_metadata /\
     (forall name,
        In name (PyDict.keys plugins_metadata) <->
        exists kv,
          In kv (Orchestrator.plugin_sourced mcp_scoped) /\
          Orchestrator.get_plugin_name (SourceReader.metadata (snd kv)) =
            name) /\
     In Orchestrator.StateRecordPluginSync (Orchestrator.events w')).
Proof.
  intros mcp_scoped. split.
  - intros Hnone. split.
    + intros results w. now apply update_state_no_plugin.
    + intros w. now apply sync_all_no_plugin.
  - intros Hsome results w.
    destruct (update_state_with_plugin env self results w Hsome)
      as (sm & He & Hst & Hev).
    exists sm. cbn zeta. repeat split; try assumption.
    + intros H. now apply extract_keys in H.
    + intros H. now apply extract_keys.
Qed.

Lemma C10_plugins_section_kept_without_plugin_servers_witness :
  let env := Scenario.env_of Scenario.reader_without_plugins in
  let w' := snd (Orchestrator.sync_all env Scenario.orchestrator
                   Scenario.world0) in
  StateManager.get_plugin_status (Orchestrator.state_manager w') None =
    Scenario.stale_plugins /\
  StateManager.get_plugin_status
    (Orchestrator.state_manager
       (snd (Orchestrator.sync_all
               (Scenario.env_of Scenario.reader_with_plugin)
               Scenario.orchestrator Scenario.world0))) None =
    [("finder", StateManager.mkPluginMeta "1.2.0" 1 ["search"] 6)].
Proof.
  intros env w'. split; [|reflexivity].
  destruct (C10_plugins_section_kept_without_plugin_servers
              env Scenario.orchestrator) as [H _].
  destruct (H eq_refl) as [_ Hrun].
  destruct (Hrun Scenario.world0) as [Hsame _].
  exact Hsame.
Defined.

Lemma C1_secrets_block_sync_witness :
  let env := Scenario.env_of Scenario.reader_with_secret in
  fst (Orchestrator.sync_all env Scenario.orchestrator Scenario.world0) =
    Exc.Returned
      (Orchestrator.Blocked "secrets_detected"
         (SecretDetector.format_warnings
            (SecretDetector.scan_mcp_env
               (Adapter.mcp (Orchestrator.adapter_data env))))) /\
  Orchestrator.state_manager
    (snd (Orchestrator.sync_all env Scenario.orchestrator Scenario.world0)) =
    Orchestrator.state_manager Scenario.world0.
Proof.
  intros env.
  assert (Hdet : SecretDetector.scan_mcp_env
                   (Adapter.mcp (Orchestrator.adapter_data env)) <> [])
    by (vm_compute; discriminate).
  destruct (C1_secrets_block_sync env Scenario.orchestrator Scenario.world0
              Hdet eq_refl) as (Hres & Hsm & _).
  split; [exact Hres | exact Hsm].
Defined.


(* ================================================================== *)
(** * Part III: further properties of the code *)
(* ================================================================== *)

(** ** State manager: recording and reading back *)

Lemma flat_map_all_nil {A B} (f : A -> list B) (l : list A) :
  (forall x, In x l -> f x = []) -> flat_map f l = [].
Proof.
  induction l as [|x r IH]; simpl; intros H; [reflexivity|].
  rewrite (H x) by now left. apply IH. intros y Hy. apply H. now right.
Qed.

Lemma filter_all_false {A} (f : A -> bool) (l : list A) :
  (forall x, In x l -> f x = false) -> filter f l = [].
Proof.
  induction l as [|x r IH]; simpl; intros H; [reflexivity|].
  rewrite (H x) by now left. apply IH. intros y Hy. apply H. now right.
Qed.

Lemma drift_against_same (hashes : PyDict.dict string) :
  PyDict.wf hashes -> StateManager.drift_against hashes hashes = [].
Proof.
  intros Hwf. unfold StateManager.drift_against, PyDict.items.
  rewrite flat_map_all_nil, filter_all_false; [reflexivity| |].
  - intros k Hk. apply contains_iff in Hk. now rewrite Hk.
  - intros [p h] Hin. simpl. rewrite (in_get_wf _ _ _ Hwf Hin).
    now rewrite String.eqb_refl.
Qed.

Lemma drift_baseline_recorded sm target account :
  StateManager.drift_baseline sm target account =
  StateManager.recorded_target sm account target.
Proof. destruct account; reflexivity. Qed.

(** X1: a sync that has just been recorded shows no drift: for the
    hashes handed to [record_sync], [detect_drift] of the same target and
    account against the same hashes returns the empty list. *)
Theorem X1_record_sync_then_no_drift
    (sm : StateManager.t) (target scope : string)
    (file_hashes sync_methods : PyDict.dict string)
    (synced skipped failed : Z) (account : option string) :
  PyDict.wf file_hashes ->
  StateManager.detect_drift
    (StateManager.record_sync sm target scope file_hashes sync_methods
       synced skipped failed account)
    target file_hashes account = [].
Proof.
  intros Hwf. unfold StateManager.detect_drift.
  rewrite drift_baseline_recorded.
  destruct (recorded_target_record_sync sm target scope file_hashes
              sync_methods synced skipped failed account)
    as (ts & Hts & _ & Hfh & _).
  rewrite Hts, Hfh. now apply drift_against_same.
Qed.

Lemma X1_record_sync_then_no_drift_witness :
  StateManager.detect_drift
    (StateManager.record_sync
       (StateManager.mkManager StateManager.fresh_state None 0)
       "codex" "all"
       [("/p/CLAUDE.md", "aaaaaaaaaaaaaaaa"); ("/p/.mcp.json", "bbbbbbbbbbbbbbbb")]
       [] 2 0 0 (Some "work"))
    "codex"
    [("/p/CLAUDE.md", "aaaaaaaaaaaaaaaa"); ("/p/.mcp.json", "bbbbbbbbbbbbbbbb")]
    (Some "work") = [].
Proof.
  apply X1_record_sync_then_no_drift. solve_wf.
Defined.

(** X2: [record_sync] writes one record and leaves every other one
    alone: the record of any other target, and of the same target under
    any other account (or under the flat section when an account is
    given, and conversely), reads back as before. *)
Theorem X2_record_sync_frame
    (sm : StateManager.t) (target scope : string)
    (file_hashes sync_methods : PyDict.dict string)
    (synced skipped failed : Z) (account account' : option string)
    (target' : string) :
  account' <> account \/ target' <> target ->
  StateManager.recorded_target
    (StateManager.record_sync sm target scope file_hashes sync_methods
       synced skipped failed account) account' target' =
  StateManager.recorded_target sm account' target'.
Proof.
  intros Hne.
  destruct account as [a|], account' as [b|];
    unfold StateManager.record_sync, StateManager.recorded_target,
      StateManager.get_account_target_status, StateManager.get_target_status;
    cbn -[PyDict.get PyDict.set]; try reflexivity.
  - rewrite get_set. destruct (String.eqb_spec b a) as [->|Hba];
      [|reflexivity].
    assert (Ht : target' <> target) by (destruct Hne; congruence).
    destruct (PyDict.get a
                (StateManager.or_empty
                   (StateManager.st_accounts (StateManager._state sm))))
      as [e|]; cbn -[PyDict.get PyDict.set].
    + rewrite get_set_other by assumption.
      destruct e as [[ls|] [tg|] [pl|]]; reflexivity.
    + now rewrite get_set_other by assumption.
  - assert (Ht : target' <> target) by (destruct Hne; congruence).
    now rewrite get_set_other by assumption.
Qed.

Lemma X2_record_sync_frame_witness :
  let sm :=
    StateManager.record_sync
      (StateManager.mkManager StateManager.fresh_state None 0)
      "codex" "all" [] [] 1 0 0 None in
  StateManager.recorded_target
    (StateManager.record_sync sm "codex" "user" [] [] 0 0 4 (Some "work"))
    None "codex" =
  StateManager.recorded_target sm None "codex".
Proof.
  intros sm. apply X2_record_sync_frame. left. discriminate.
Defined.

Lemma drift_assignments_same
    (plugins : PyDict.dict StateManager.PluginMeta) :
  PyDict.wf plugins -> StateManager.drift_assignments plugins plugins = [].
Proof.
  intros Hwf.
  unfold StateManager.drift_assignments, StateManager.removed_assignments,
    StateManager.changed_assignments, PyDict.items.
  rewrite !flat_map_all_nil; [reflexivity| |].
  - intros [name meta] Hin. simpl. rewrite (in_get_wf _ _ _ Hwf Hin).
    now rewrite String.eqb_refl, Z.eqb_refl.
  - intros name Hin. apply contains_iff in Hin. now rewrite Hin.
Qed.

(** X3: plugin metadata that has just been recorded shows no plugin
    drift: after [record_plugin_sync], [detect_plugin_drift] of the same
    metadata under the same account returns the empty dict. *)
Theorem X3_record_plugin_sync_then_no_drift
    (sm : StateManager.t)
    (plugins_metadata : PyDict.dict StateManager.PluginMeta)
    (account : option string) :
  PyDict.wf plugins_metadata ->
  StateManager.detect_plugin_drift
    (StateManager.record_plugin_sync sm plugins_metadata account)
    plugins_metadata account = [].
Proof.
  intros Hwf. unfold StateManager.detect_plugin_drift.
  rewrite get_plugin_status_record_plugin_sync.
  now rewrite drift_assignments_same.
Qed.

Lemma X3_record_plugin_sync_then_no_drift_witness :
  StateManager.detect_plugin_drift
    (StateManager.record_plugin_sync
       (StateManager.mkManager StateManager.fresh_state None 0)
       [("finder", StateManager.mkPluginMeta "1.2.0" 2 ["search"; "index"] 0)]
       (Some "work"))
    [("finder", StateManager.mkPluginMeta "1.2.0" 2 ["search"; "index"] 0)]
    (Some "work") = [].
Proof.
  apply X3_record_plugin_sync_then_no_drift. solve_wf.
Defined.

(** X4: [record_plugin_sync] touches the plugins section of its own
    account only: every target record, hence every answer of
    [detect_drift], and the plugins section of every other account (and
    of the flat section when an account is given, and conversely) stay
    as they were. *)
Theorem X4_record_plugin_sync_frame
    (sm : StateManager.t)
    (plugins_metadata : PyDict.dict StateManager.PluginMeta)
    (account : option string) :
  let sm' := StateManager.record_plugin_sync sm plugins_metadata account in
  (forall account' target,
     StateManager.recorded_target sm' account' target =
     StateManager.recorded_target sm account' target) /\
  (forall account' target current_hashes,
     StateManager.detect_drift sm' target current_hashes account' =
     StateManager.detect_drift sm target current_hashes account') /\
  (forall account',
     account' <> account ->
     StateManager.get_plugin_status sm' account' =
     StateManager.get_plugin_status sm account').
Proof.
  intros sm'.
  assert (Hrec : forall account' target,
     StateManager.recorded_target sm' account' target =
     StateManager.recorded_target sm account' target).
  { intros account' target. unfold sm'.
    destruct account as [a|], account' as [b|];
      unfold StateManager.record_plugin_sync, StateManager.recorded_target,
        StateManager.get_account_target_status,
        StateManager.get_target_status;
      cbn -[PyDict.get PyDict.set]; try reflexivity.
    rewrite get_set. destruct (String.eqb_spec b a) as [->|Hba];
      [|reflexivity].
    destruct (PyDict.get a
                (StateManager.or_empty
                   (StateManager.st_accounts (StateManager._state sm))))
      as [e|]; cbn -[PyDict.get PyDict.set]; [|reflexivity].
    destruct e as [[ls|] [tg|] [pl|]]; reflexivity. }
  split; [exact Hrec|]. split.
  - intros account' target current_hashes. unfold StateManager.detect_drift.
    now rewrite !drift_baseline_recorded, Hrec.
  - intros account' Hne. unfold sm'.
    destruct account as [a|], account' as [b|];
      unfold StateManager.record_plugin_sync, StateManager.get_plugin_status;
      cbn -[PyDict.get PyDict.set]; try reflexivity; [|congruence].
    rewrite get_set_other; [reflexivity | congruence].
Qed.

(** ** State manager: removing a target *)

Lemma get_remove {V} (d : PyDict.dict V) (k k' : string) :
  PyDict.wf d ->
  PyDict.get k' (PyDict.remove k d) =
  if String.eqb k' k then None else PyDict.get k' d.
Proof.
  unfold PyDict.wf. induction d as [|[k0 v0] r IH]; simpl; intros Hnd.
  - now destruct (String.eqb k' k).
  - inversion Hnd as [|? ? Hnotin Hnd']; subst.
    destruct (String.eqb k k0) eqn:E1.
    + apply String.eqb_eq in E1. subst k0.
      destruct (String.eqb k' k) eqn:E2; [|reflexivity].
      apply String.eqb_eq in E2. subst k'. now apply get_none_iff.
    + simpl. rewrite IH by assumption.
      destruct (String.eqb k' k0) eqn:E2, (String.eqb k' k) eqn:E3;
        try reflexivity.
      apply String.eqb_eq in E2, E3. subst.
      rewrite String.eqb_refl in E1. discriminate.
Qed.

(** X5: [clear_target] forgets exactly one flat target: afterwards that
    target has no status and [detect_drift] reports every current path
    for it, every other flat target and every account record read back
    as before, and when the target was not tracked nothing changes and
    nothing is written. *)
Theorem X5_clear_target
    (sm : StateManager.t) (target : string) :
  PyDict.wf (StateManager.or_empty
               (StateManager.st_targets (StateManager._state sm))) ->
  let sm' := StateStore.clear_target sm target in
  StateManager.get_target_status sm' target = None /\
  (forall current_hashes,
     StateManager.detect_drift sm' target current_hashes None =
     PyDict.keys current_hashes) /\
  (forall target',
     target' <> target ->
     StateManager.get_target_status sm' target' =
     StateManager.get_target_status sm target') /\
  (forall account target',
     StateManager.get_account_target_status sm' account target' =
     StateManager.get_account_target_status sm account target') /\
  (StateManager.get_target_status sm target = None -> sm' = sm).
Proof.
  intros Hwf sm'.
  assert (Hget : forall target',
    StateManager.get_target_status sm' target' =
    if String.eqb target' target then None
    else StateManager.get_target_status sm target').
  { intros target'. unfold sm', StateStore.clear_target,
      StateManager.get_target_status in *.
    destruct (StateManager.st_targets (StateManager._state sm))
      as [targets|] eqn:Et; cbn [StateManager.or_empty] in *.
    - unfold PyDict.contains.
      destruct (PyDict.get target targets) as [ts|] eqn:Eg.
      + cbn -[PyDict.get PyDict.remove]. now apply get_remove.
      + rewrite Et. cbn [StateManager.or_empty].
        destruct (String.eqb_spec target' target) as [->|]; auto.
    - rewrite Et. cbn. now destruct (String.eqb target' target). }
  split; [rewrite Hget; now rewrite String.eqb_refl|].
  split.
  - intros current_hashes. unfold StateManager.detect_drift.
    rewrite drift_baseline_recorded. cbn [StateManager.recorded_target].
    rewrite Hget. now rewrite String.eqb_refl.
  - split.
    + intros target' Hne. rewrite Hget. apply String.eqb_neq in Hne.
      now rewrite Hne.
    + split.
      * intros account target'. unfold sm', StateStore.clear_target.
        destruct (StateManager.st_targets (StateManager._state sm));
          [|reflexivity].
        now destruct (PyDict.contains target _).
      * intros Hnone. unfold sm', StateStore.clear_target.
        unfold StateManager.get_target_status in Hnone.
        destruct (StateManager.st_targets (StateManager._state sm));
          [|reflexivity].
        cbn [StateManager.or_empty] in Hnone. unfold PyDict.contains.
        now rewrite Hnone.
Qed.

Lemma X5_clear_target_witness :
  let sm :=
    StateManager.record_sync
      (StateManager.record_sync
         (StateManager.mkManager StateManager.fresh_state None 0)
         "codex" "all" [] [] 1 0 0 None)
      "gemini" "all" [] [] 2 0 0 None in
  StateManager.get_target_status (StateStore.clear_target sm "codex") "codex" =
    None /\
  StateManager.get_target_status (StateStore.clear_target sm "codex") "gemini" =
    StateManager.get_target_status sm "gemini".
Proof.
  intros sm.
  assert (Hwf : PyDict.wf (StateManager.or_empty
            (StateManager.st_targets (StateManager._state sm)))) by solve_wf.
  destruct (X5_clear_target sm "codex" Hwf) as (H1 & _ & H3 & _).
  split; [exact H1 | apply H3; discriminate].
Defined.

Lemma X4_record_plugin_sync_frame_witness :
  let sm :=
    StateManager.record_plugin_sync
      (StateManager.mkManager StateManager.fresh_state None 0)
      [("finder", StateManager.mkPluginMeta "1.2.0" 1 ["search"] 0)] None in
  StateManager.get_plugin_status
    (StateManager.record_plugin_sync sm [] (Some "work")) None =
  StateManager.get_plugin_status sm None.
Proof.
  intros sm.
  destruct (X4_record_plugin_sync_frame sm [] (Some "work")) as (_ & _ & H).
  apply H. discriminate.
Defined.

(** ** State manager: loading and migration *)

(** X6: loading is idempotent: whatever the state file holds and whether
    or not the rename of a corrupted file succeeds, loading again what
    the first load left on disk gives the same document and the same
    preserved legacy data; and for a file that held a non-empty document
    the second load leaves the file as the first one left it. *)
Theorem X6_load_idempotent
    (rename_ok rename_ok' : bool) (file : StateStore.StateFile) :
  let first := StateStore._load rename_ok file in
  let second := StateStore._load rename_ok' (StateStore.file_after first) in
  StateStore.loaded_state second = StateStore.loaded_state first /\
  StateStore.migrated_from second = StateStore.migrated_from first /\
  (forall d, file = StateStore.Stored d -> StateStore.doc_falsy d = false ->
             StateStore.file_after second = StateStore.file_after first).
Proof.
  destruct file as [| |d]; cbn zeta.
  - repeat split; try (intros d [=]).
  - destruct rename_ok; repeat split; try (intros d [=]).
  - destruct d as [[v|] [ls|] [tg|] [ac|] [pl|] [|]];
      unfold StateStore._load;
      cbn [StateStore.doc_falsy StateStore.doc_version
           StateStore.doc_last_sync StateStore.doc_targets
           StateStore.doc_accounts StateStore.doc_plugins
           StateStore.doc_other_keys];
      try (destruct (Z.eqb_spec v 1) as [->|Hne]);
      try destruct rename_ok;
      cbn [StateStore.file_after StateStore.loaded_state
           StateStore.migrated_from StateStore.document_of
           StateStore.doc_falsy StateStore.doc_version
           StateStore.doc_last_sync StateStore.doc_targets
           StateStore.doc_accounts StateStore.doc_plugins
           StateStore.doc_other_keys StateManager.st_version
           StateManager.st_last_sync StateManager.st_targets
           StateManager.st_accounts StateManager.st_plugins];
      try (destruct (Z.eqb_spec v 1) as [->|Hne']; [congruence|]);
      repeat split;
      try (intros d' Hd' Hf'; inversion Hd'; subst d'; cbn in Hf';
           congruence).
Qed.

Lemma X6_load_idempotent_witness :
  let v1 :=
    StateStore.Stored
      (StateStore.mkDocument (Some 1%Z) (Some 7%nat)
         (Some [("codex",
                 StateManager.mkTargetState 7 "success" "all" [] [] 3 0 0)])
         None None false) in
  StateStore.file_after
    (StateStore._load true
       (StateStore.file_after (StateStore._load true v1))) =
  StateStore.file_after (StateStore._load true v1).
Proof.
  intros v1.
  destruct (X6_load_idempotent true true v1) as (_ & _ & H).
  apply (H _ eq_refl). reflexivity.
Defined.

(** X7: a version 1 document without an accounts section is migrated on
    load: the loaded document has version 2, keeps the flat targets, holds
    every one of them under the [default] account as well, and the
    migrated document is what the state file holds afterwards. *)
Theorem X7_load_migrates_v1
    (rename_ok : bool) (d : StateStore.Document) (clock : nat) :
  StateStore.doc_version d = Some 1%Z ->
  StateStore.doc_accounts d = None ->
  let loaded := StateStore._load rename_ok (StateStore.Stored d) in
  let sm := StateManager.mkManager (StateStore.loaded_state loaded) None clock in
  StateManager.st_version (StateStore.loaded_state loaded) = 2%Z /\
  StateManager.st_targets (StateStore.loaded_state loaded) =
    StateStore.doc_targets d /\
  StateManager.st_plugins (StateStore.loaded_state loaded) =
    StateStore.doc_plugins d /\
  StateStore.file_after loaded =
    StateStore.Stored
      (StateStore.document_of (StateStore.loaded_state loaded)
         (StateStore.doc_other_keys d)) /\
  (forall target,
     StateManager.get_account_target_status sm "default" target =
     StateManager.get_target_status sm target).
Proof.
  intros Hv Ha loaded sm. unfold sm, loaded, StateStore._load.
  assert (Hf : StateStore.doc_falsy d = false)
    by (unfold StateStore.doc_falsy; now rewrite Hv).
  rewrite Hf, Hv, Ha. cbn [Z.eqb Pos.eqb StateStore.loaded_state
    StateStore.file_after StateManager.st_version StateManager.st_targets
    StateManager.st_plugins].
  repeat split.
  intros target.
  unfold StateManager.get_account_target_status,
    StateManager.get_target_status.
  cbn [StateManager._state StateManager.st_accounts StateManager.st_targets
       StateManager.or_empty].
  destruct (StateStore.doc_targets d) as [[|kv r]|],
    (StateStore.doc_last_sync d); reflexivity.
Qed.

Lemma X7_load_migrates_v1_witness :
  let d :=
    StateStore.mkDocument (Some 1%Z) (Some 7%nat)
      (Some [("codex",
              StateManager.mkTargetState 7 "success" "all" [] [] 3 0 0)])
      None None false in
  StateManager.get_account_target_status
    (StateManager.mkManager
       (StateStore.loaded_state (StateStore._load true (StateStore.Stored d)))
       None 0)
    "default" "codex" =
  Some (StateManager.mkTargetState 7 "success" "all" [] [] 3 0 0).
Proof.
  intros d.
  destruct (X7_load_migrates_v1 true d 0 eq_refl eq_refl)
    as (_ & _ & _ & _ & H).
  rewrite H. reflexivity.
Defined.



(** ** SyncResult: merging and status *)

(** X9: the empty result [SyncResult()] is a neutral element of [merge]
    on both sides, and [total] is additive under [merge]. *)
Theorem X9_merge_neutral_and_total (a b : Result.SyncResult) :
  Result.merge Result.default a = a /\
  Result.merge a Result.default = a /\
  Result.total (Result.merge a b) = (Result.total a + Result.total b)%Z.
Proof.
  destruct a as [s k f d sf kf ff], b as [s' k' f' d' sf' kf' ff'].
  unfold Result.merge, Result.total, Result.default; simpl.
  rewrite !Z.add_0_r, !app_nil_r. repeat split. lia.
Qed.

Lemma status_cases (r : Result.SyncResult) :
  Counters.nonneg r ->
  (Result.status r = "nothing" /\ Result.total r = 0%Z) \/
  (Result.status r = "success" /\ Result.total r <> 0%Z /\
   Result.failed r = 0%Z) \/
  (Result.status r = "partial" /\ (0 < Result.synced r)%Z /\
   (0 < Result.failed r)%Z) \/
  (Result.status r = "failed" /\ Result.synced r = 0%Z /\
   (0 < Result.failed r)%Z).
Proof.
  intros (Hs & Hk & Hf). unfold Result.status.
  destruct (Z.eqb_spec (Result.total r) 0); [now left|]. right.
  destruct (Z.eqb_spec (Result.failed r) 0); [now left|]. right.
  destruct (Z.gtb_spec (Result.synced r) 0),
           (Z.gtb_spec (Result.failed r) 0); simpl;
    first [ left; repeat split; lia | right; repeat split; lia ].
Qed.

(** X10: merging never hides a failure. For results with non-negative
    counters, the merge is [nothing] exactly when both are, it is
    [success] only if neither has a failed item, and if either has a
    failed item the merge is [partial] or [failed]. *)
Theorem X10_merge_status (a b : Result.SyncResult) :
  Counters.nonneg a -> Counters.nonneg b ->
  (Result.status (Result.merge a b) = "nothing" <->
   Result.status a = "nothing" /\ Result.status b = "nothing") /\
  (Result.status (Result.merge a b) = "success" ->
   Result.failed a = 0%Z /\ Result.failed b = 0%Z) /\
  ((0 < Result.failed a)%Z \/ (0 < Result.failed b)%Z ->
   Result.status (Result.merge a b) = "partial" \/
   Result.status (Result.merge a b) = "failed").
Proof.
  intros Ha Hb.
  assert (Hm : Counters.nonneg (Result.merge a b)).
  { destruct Ha as (? & ? & ?), Hb as (? & ? & ?).
    unfold Counters.nonneg, Result.merge; simpl. lia. }
  pose proof (status_cases a Ha) as Ca.
  pose proof (status_cases b Hb) as Cb.
  pose proof (status_cases _ Hm) as Cm.
  assert (Ef : Result.failed (Result.merge a b) =
               (Result.failed a + Result.failed b)%Z) by reflexivity.
  assert (Es : Result.synced (Result.merge a b) =
               (Result.synced a + Result.synced b)%Z) by reflexivity.
  assert (Et : Result.total (Result.merge a b) =
               (Result.total a + Result.total b)%Z)
    by (unfold Result.total, Result.merge; simpl; lia).
  assert (Hta : (0 <= Result.total a)%Z)
    by (destruct Ha as (? & ? & ?); unfold Result.total; lia).
  assert (Htb : (0 <= Result.total b)%Z)
    by (destruct Hb as (? & ? & ?); unfold Result.total; lia).
  destruct Ha as (? & ? & ?), Hb as (? & ? & ?).
  rewrite Ef, Es, Et in Cm.
  split; [|split].
  - split.
    + intros E. rewrite E in Cm.
      destruct Cm as [[_ Hz]|[[C _]|[[C _]|[C _]]]]; try discriminate.
      destruct Ca as [[Sa Ta]|[[Sa (Ta & _)]|[[Sa (Ta & _)]|[Sa (_ & Ta)]]]],
               Cb as [[Sb Tb]|[[Sb (Tb & _)]|[[Sb (Tb & _)]|[Sb (_ & Tb)]]]];
        unfold Result.total in *; try (split; assumption); lia.
    + intros [Sa Sb]. rewrite Sa in Ca. rewrite Sb in Cb.
      destruct Ca as [[_ Ta]|[[C _]|[[C _]|[C _]]]]; try discriminate.
      destruct Cb as [[_ Tb]|[[C _]|[[C _]|[C _]]]]; try discriminate.
      destruct Cm as [[Sm _]|[[_ (Tm & _)]|[[_ (Tm & _)]|[_ (_ & Tm)]]]];
        [assumption | lia | unfold Result.total in *; lia
        | unfold Result.total in *; lia].
  - intros E. rewrite E in Cm.
    destruct Cm as [[C _]|[[_ (_ & Hz)]|[[C _]|[C _]]]]; try discriminate.
    lia.
  - intros Hpos.
    destruct Cm as [[_ Tm]|[[_ (_ & Tm)]|[[Sm _]|[Sm _]]]];
      [unfold Result.total in *; lia | lia | now left | now right].
Qed.

Lemma X10_merge_status_witness :
  let a := Result.mkSyncResult 3 1 0 0 ["a.md"] [] [] in
  let b := Result.failure "mcp: disk full" in
  Result.status (Result.merge a b) = "partial" \/
  Result.status (Result.merge a b) = "failed".
Proof.
  intros a b.
  assert (Ha : Counters.nonneg a) by (unfold Counters.nonneg; simpl; lia).
  assert (Hb : Counters.nonneg b) by (unfold Counters.nonneg; simpl; lia).
  destruct (X10_merge_status a b Ha Hb) as (_ & _ & H).
  apply H. right. simpl. lia.
Defined.

(** ** Secret detector: order, provenance and the override *)

(** X11: [scan] reports the flagged variables in the order of the
    environment map, one detection per flagged variable: the names of
    the detections are the names of the entries that meet the flag
    condition, in order; in particular an empty map gives no detection
    and scanning is compositional over concatenation. *)
Theorem X11_scan_order (env_vars more : PyDict.dict string) :
  map SecretDetector.var_name (SecretDetector.scan env_vars) =
    map fst
      (filter (fun kv => SecretDetector.flag_condition (fst kv) (snd kv))
              env_vars) /\
  SecretDetector.scan [] = [] /\
  SecretDetector.scan (env_vars ++ more) =
    SecretDetector.scan env_vars ++ SecretDetector.scan more /\
  (List.length (SecretDetector.scan env_vars) <= List.length env_vars)%nat.
Proof.
  rewrite !scan_flat_map. split; [|split; [reflexivity|split]].
  - induction env_vars as [|[n v] r IH]; simpl; [reflexivity|].
    unfold SecretDetector.scan_var at 1; simpl.
    destruct (SecretDetector.flag_condition n v); simpl; now rewrite IH.
  - apply flat_map_app.
  - induction env_vars as [|[n v] r IH]; simpl; [lia|].
    rewrite length_app. unfold SecretDetector.scan_var at 1; simpl.
    destruct (SecretDetector.flag_condition n v); simpl; lia.
Qed.

Lemma in_set_inv {V} (d : PyDict.dict V) (k k' : string) (v v' : V) :
  In (k', v') (PyDict.set k v d) -> (k', v') = (k, v) \/ In (k', v') d.
Proof.
  induction d as [|[k0 v0] r IH]; simpl.
  - intros [E|[]]. left. congruence.
  - destruct (String.eqb_spec k k0) as [->|Hne]; simpl.
    + intros [E|H]; [left; congruence | right; now right].
    + intros [E|H]; [right; now left|].
      destruct (IH H) as [E|Hin]; [now left | right; now right].
Qed.

Lemma in_update_inv {V} (d other : PyDict.dict V) (k : string) (v : V) :
  In (k, v) (PyDict.update d other) -> In (k, v) other \/ In (k, v) d.
Proof.
  unfold PyDict.update. revert d.
  induction other as [|[k0 v0] r IH]; intros d; simpl; [now right|].
  intros H. destruct (IH _ H) as [Hin|Hin]; [left; now right|].
  apply in_set_inv in Hin. destruct Hin as [E|Hin];
    [left; left; congruence | now right].
Qed.

Lemma in_collect_env (mcp_servers : PyDict.dict SourceReader.config)
    (name value : string) :
  In (name, value) (SecretDetector.collect_env mcp_servers) ->
  exists server config env,
    In (server, config) mcp_servers /\
    PyDict.get "env" config = Some (SourceReader.PDict env) /\
    In (name, value) env.
Proof.
  unfold SecretDetector.collect_env, PyDict.items.
  assert (G : forall acc,
    In (name, value)
       (fold_left
          (fun all_env_vars kv =>
             match PyDict.get "env" (snd kv) with
             | Some (SourceReader.PDict env) => PyDict.update all_env_vars env
             | Some _ => all_env_vars
             | None => all_env_vars
             end) mcp_servers acc) ->
    In (name, value) acc \/
    exists server config env,
      In (server, config) mcp_servers /\
      PyDict.get "env" config = Some (SourceReader.PDict env) /\
      In (name, value) env).
  { induction mcp_servers as [|[server config] r IH]; intros acc; simpl;
      [now left|].
    intros H. destruct (IH _ H) as [Hacc|(s & c & e & Hin & Hg & He)].
    - destruct (PyDict.get "env" config) as [[x|x|env]|] eqn:Eg;
        try (now left).
      apply in_update_inv in Hacc. destruct Hacc as [Hin|Hin]; [|now left].
      right. exists server, config, env. repeat split; auto.
    - right. exists s, c, e. repeat split; auto. }
  intros H. destruct (G [] H) as [[]|Hex]. exact Hex.
Qed.

(** X12: every detection of [scan_mcp_env] comes from a server: its
    variable is set, with a value that matches the complexity pattern, in
    the [env] object of some server of the map, and its name meets the
    keyword and prefix tests. A server map without any [env] object
    gives no detection. *)
Theorem X12_scan_mcp_env_sound
    (mcp_servers : PyDict.dict SourceReader.config) :
  (forall d,
     In d (SecretDetector.scan_mcp_env mcp_servers) ->
     exists server config env value,
       In (server, config) mcp_servers /\
       PyDict.get "env" config = Some (SourceReader.PDict env) /\
       In (SecretDetector.var_name d, value) env /\
       SecretDetector.flag_condition (SecretDetector.var_name d) value = true) /\
  ((forall server config, In (server, config) mcp_servers ->
      PyDict.get "env" config = None) ->
   SecretDetector.scan_mcp_env mcp_servers = []).
Proof.
  split.
  - intros d Hd. unfold SecretDetector.scan_mcp_env in Hd.
    assert (Hfl : SecretDetector.flagged
              (SecretDetector.collect_env mcp_servers)
              (SecretDetector.var_name d)) by (exists d; auto).
    apply flagged_iff in Hfl. destruct Hfl as (value & Hin & Hc).
    apply in_collect_env in Hin.
    destruct Hin as (server & config & env & H1 & H2 & H3).
    exists server, config, env, value. repeat split; auto.
  - intros Hnone.
    destruct (SecretDetector.scan_mcp_env mcp_servers) as [|d r] eqn:E;
      [reflexivity|].
    assert (Hd : In d (SecretDetector.scan_mcp_env mcp_servers))
      by (rewrite E; now left).
    unfold SecretDetector.scan_mcp_env in Hd.
    assert (Hfl : SecretDetector.flagged
              (SecretDetector.collect_env mcp_servers)
              (SecretDetector.var_name d)) by (exists d; auto).
    apply flagged_iff in Hfl. destruct Hfl as (value & Hin & _).
    apply in_collect_env in Hin.
    destruct Hin as (server & config & env & H1 & H2 & _).
    rewrite (Hnone _ _ H1) in H2. discriminate.
Qed.

Lemma X12_scan_mcp_env_sound_witness :
  SecretDetector.scan_mcp_env [("docs", Scenario.plain_server)] = [].
Proof.
  apply (X12_scan_mcp_env_sound [("docs", Scenario.plain_server)]).
  intros server config [[= <- <-]|[]]. reflexivity.
Defined.

(** X13: the warning text is empty exactly when there is nothing to
    warn about: [format_warnings] returns the empty string if and only
    if the list of detections is empty. *)
Theorem X13_format_warnings_empty_iff
    (detections : list SecretDetector.Detection) :
  SecretDetector.format_warnings detections = "" <-> detections = [].
Proof.
  split; [|intros ->; reflexivity].
  destruct detections as [|d r]; [reflexivity|]. intros H. exfalso.
  unfold SecretDetector.format_warnings, PyStr.join in H.
  cbn [app] in H.
  set (header := (PyStr.nl ++ _)%string) in H.
  assert (Hh : exists s, header = String (ascii_of_nat 10) s)
    by (eexists; reflexivity).
  destruct Hh as (s & Hs). rewrite Hs in H. clear Hs header.
  cbn [String.concat] in H.
  destruct (map _ (d :: r) ++ _) as [|x xs]; simpl in H; discriminate.
Qed.

Section PipelineResult.
Import Exc Orchestrator.
Context {W : Type}.

Lemma bind_returned {A B : Type} (m : M (World W) A)
    (k : A -> M (World W) B) (w w' : World W) (b : B) :
  bind m k w = (Returned b, w') ->
  exists a w1, m w = (Returned a, w1) /\ k a w1 = (Returned b, w').
Proof.
  unfold bind. destruct (m w) as [[a|msg] w1]; [eauto | discriminate].
Qed.

Lemma run_pipeline_completed (env : Env W) (self : t)
    (w w' : World W) (r : SyncAllResult) :
  run_pipeline env self w = (Returned r, w') ->
  exists targets report conflicts, r = Completed targets report conflicts.
Proof.
  unfold run_pipeline. intros H.
  apply bind_returned in H. destruct H as (w0 & w1 & _ & H).
  apply bind_returned in H. destruct H as (u1 & w2 & _ & H).
  apply bind_returned in H. destruct H as (results & w3 & _ & H).
  apply bind_returned in H. destruct H as (u2 & w4 & _ & H).
  apply bind_returned in H. destruct H as (u3 & w5 & _ & H).
  apply bind_returned in H. destruct H as (u4 & w6 & _ & H).
  unfold ret in H. inversion H. eauto.
Qed.

End PipelineResult.

(** X14: the override works, and a clean scan never blocks: when
    [allow_secrets] is set or the scan of the MCP environment variables
    is empty, a call of [sync_all] that returns does not return the
    blocked result but the per-target results. *)
Theorem X14_override_never_blocks {W : Type}
    (env : Orchestrator.Env W) (self : Orchestrator.t)
    (w : Orchestrator.World W) (r : Orchestrator.SyncAllResult) :
  Orchestrator.allow_secrets self = true \/
  SecretDetector.scan_mcp_env
    (Adapter.mcp (Orchestrator.adapter_data env)) = [] ->
  fst (Orchestrator.sync_all env self w) = Exc.Returned r ->
  exists targets report conflicts,
    r = Orchestrator.Completed targets report conflicts.
Proof.
  intros Hor Hr. unfold Orchestrator.sync_all in Hr.
  assert (Hb : SecretDetector.should_block
            (SecretDetector.scan_mcp_env
               (Adapter.mcp (Orchestrator.adapter_data env)))
            (Orchestrator.allow_secrets self) = false).
  { destruct Hor as [->| ->]; [|reflexivity].
    now destruct (SecretDetector.scan_mcp_env _). }
  rewrite Hb in Hr.
  destruct (Orchestrator.run_pipeline env self w) as [o w'] eqn:E.
  simpl in Hr. subst o. eapply run_pipeline_completed. exact E.
Qed.

Lemma X14_override_never_blocks_witness :
  let self := Orchestrator.mkOrchestrator "all" false true None in
  let env := Scenario.env_of Scenario.reader_with_secret in
  exists targets report conflicts,
    fst (Orchestrator.sync_all env self Scenario.world0) =
    Exc.Returned (Orchestrator.Completed targets report conflicts).
Proof.
  intros self env.
  assert (Hr : exists r,
            fst (Orchestrator.sync_all env self Scenario.world0) =
            Exc.Returned r)
    by (vm_compute; eauto).
  destruct Hr as (r & Hr).
  destruct (X14_override_never_blocks env self Scenario.world0 r
              (or_introl eq_refl) Hr) as (targets & report & conflicts & ->).
  exists targets, report, conflicts. exact Hr.
Defined.

(** ** Source reader: the shape of the discovered map *)

Section ReaderShape.
Import SourceReader.

Lemma wf_add_file_layer sc layer servers :
  PyDict.wf servers -> PyDict.wf (add_file_layer sc layer servers).
Proof.
  unfold add_file_layer, PyDict.items. revert servers.
  induction layer as [|[k c] r IH]; intros servers Hwf; simpl;
    [assumption|].
  apply IH. now apply wf_set.
Qed.

Lemma wf_add_plugin_layer layer servers :
  PyDict.wf servers -> PyDict.wf (add_plugin_layer layer servers).
Proof.
  unfold add_plugin_layer, PyDict.items. revert servers.
  induction layer as [|[k c] r IH]; intros servers Hwf; simpl;
    [assumption|].
  apply IH. destruct (negb _); [now apply wf_set | assumption].
Qed.

Lemma wf_get_mcp_servers_with_scope (r : t) :
  PyDict.wf (get_mcp_servers_with_scope r).
Proof.
  unfold get_mcp_servers_with_scope.
  assert (H0 : PyDict.wf (@nil (string * ScopedEntry))) by constructor.
  destruct (scope_in r ["user"; "all"]), (project_enabled r);
    repeat first [ apply wf_add_file_layer | apply wf_add_plugin_layer ];
    exact H0.
Qed.

Lemma get_map_values {V U} (f : V -> U) (d : PyDict.dict V) (k : string) :
  PyDict.get k (map (fun kv => (fst kv, f (snd kv))) d) =
  option_map f (PyDict.get k d).
Proof.
  induction d as [|[k0 v0] r IH]; simpl; [reflexivity|].
  now destruct (String.eqb k k0).
Qed.

Lemma in_keys_get {V} (d : PyDict.dict V) (k : string) :
  In k (PyDict.keys d) <-> PyDict.get k d <> None.
Proof.
  rewrite <- contains_iff. unfold PyDict.contains.
  destruct (PyDict.get k d); split; congruence.
Qed.

End ReaderShape.

(** X15: the scoped map is a dict and holds exactly the discovered
    names: no server name occurs twice, and (the layers being dicts) a
    name is in the map if and only if the user, plugin, project or local
    layer read under the scope filter has it. *)
Theorem X15_discovered_names (r : SourceReader.t) :
  PyDict.wf (SourceReader.get_mcp_servers_with_scope r) /\
  (SourceReader.layers_wf r ->
   forall name,
     In name (PyDict.keys (SourceReader.get_mcp_servers_with_scope r)) <->
     In name (PyDict.keys (SourceReader.discovered_user r)) \/
     In name (PyDict.keys (SourceReader.discovered_plugin r)) \/
     In name (PyDict.keys (SourceReader.discovered_project r)) \/
     In name (PyDict.keys (SourceReader.discovered_local r))).
Proof.
  split; [apply wf_get_mcp_servers_with_scope|].
  intros Hwf name. rewrite !in_keys_get.
  rewrite (get_by_precedence r name Hwf). unfold SourceReader.by_precedence.
  destruct (PyDict.get name (SourceReader.discovered_local r)),
           (PyDict.get name (SourceReader.discovered_project r)),
           (PyDict.get name (SourceReader.discovered_user r)),
           (PyDict.get name (SourceReader.discovered_plugin r));
    split; intros H; try congruence;
    try (right; right; right; congruence);
    try (right; right; left; congruence);
    try (left; congruence);
    try (right; left; congruence);
    try (destruct H as [H|[H|[H|H]]]; congruence).
Qed.

Lemma X15_discovered_names_witness :
  let r := Scenario.reader_with_plugin in
  In "search" (PyDict.keys (SourceReader.get_mcp_servers_with_scope r)).
Proof.
  intros r.
  assert (Hwf : SourceReader.layers_wf r) by (repeat split; solve_wf).
  destruct (X15_discovered_names r) as [_ H].
  apply (H Hwf). right. left. simpl. now left.
Defined.

(** X16: the scope filter is honoured by the result: with the scope
    [user], or without a project directory, every returned entry has the
    user scope; with the scope [project] every returned entry is a file
    entry of the project or local scope. *)
Theorem X16_scope_filter (r : SourceReader.t) (name : string)
    (e : SourceReader.ScopedEntry) :
  SourceReader.layers_wf r ->
  PyDict.get name (SourceReader.get_mcp_servers_with_scope r) = Some e ->
  (SourceReader.reader_scope r = "user" \/ SourceReader.project_dir r = None ->
   SourceReader.scope (SourceReader.metadata e) = SourceReader.user) /\
  (SourceReader.reader_scope r = "project" ->
   SourceReader.source (SourceReader.metadata e) = SourceReader.file /\
   SourceReader.scope (SourceReader.metadata e) <> SourceReader.user).
Proof.
  intros Hwf Hget. rewrite (get_by_precedence r name Hwf) in Hget.
  unfold SourceReader.by_precedence, SourceReader.discovered_local,
    SourceReader.discovered_project, SourceReader.discovered_user,
    SourceReader.discovered_plugin, SourceReader.project_enabled,
    SourceReader.scope_in in Hget.
  split.
  - intros Hu.
    assert (Hp : (existsb (String.eqb (SourceReader.reader_scope r))
                    ["project"; "all"] &&
                  match SourceReader.project_dir r with
                  | Some _ => true
                  | None => false
                  end) = false).
    { destruct Hu as [-> | ->]; [reflexivity | apply andb_false_r]. }
    rewrite Hp in Hget. cbn [PyDict.get] in Hget.
    destruct (existsb _ _); cbn [PyDict.get] in Hget; [|discriminate].
    destruct (PyDict.get name (SourceReader._get_user_scope_mcps r)).
    + inversion Hget. reflexivity.
    + destruct (PyDict.get name (SourceReader._get_plugin_mcp_servers r));
        inversion Hget. reflexivity.
  - intros Hp. rewrite Hp in Hget.
    cbn [existsb String.eqb Ascii.eqb Bool.eqb orb andb] in Hget.
    destruct (match SourceReader.project_dir r with
              | Some _ => true
              | None => false
              end); cbn [PyDict.get] in Hget; [|discriminate].
    destruct (PyDict.get name (SourceReader._get_local_scope_mcps r)).
    + inversion Hget. split; [reflexivity | discriminate].
    + destruct (PyDict.get name (SourceReader._get_project_scope_mcps r));
        inversion Hget. split; [reflexivity | discriminate].
Qed.

Lemma X16_scope_filter_witness :
  let r :=
    SourceReader.mkReader "user" (Some "/work/app")
      [("db", Scenario.plain_server)] []
      [("db", Scenario.api_server)] [("db", Scenario.api_server)] in
  SourceReader.scope
    (SourceReader.metadata
       (SourceReader.file_entry SourceReader.user Scenario.plain_server)) =
  SourceReader.user.
Proof.
  intros r.
  assert (Hwf : SourceReader.layers_wf r) by (repeat split; solve_wf).
  destruct (X16_scope_filter r "db"
              (SourceReader.file_entry SourceReader.user Scenario.plain_server)
              Hwf eq_refl) as [H _].
  apply H. left. reflexivity.
Defined.

(** X17: a plugin-sourced entry carries the identity of its plugin in
    the metadata and nothing of it in the config: it is the entry of a
    server of the plugin layer, with that server's plugin name and
    version, and no key of its config starts with an underscore. *)
Theorem X17_plugin_entry_clean (r : SourceReader.t) (name : string)
    (e : SourceReader.ScopedEntry) :
  SourceReader.layers_wf r ->
  PyDict.get name (SourceReader.get_mcp_servers_with_scope r) = Some e ->
  SourceReader.source (SourceReader.metadata e) = SourceReader.plugin ->
  (exists p,
     PyDict.get name (SourceReader.discovered_plugin r) = Some p /\
     SourceReader.plugin_name (SourceReader.metadata e) =
       Some (SourceReader._plugin_name p) /\
     SourceReader.plugin_version (SourceReader.metadata e) =
       Some (SourceReader._plugin_version p) /\
     SourceReader.scope (SourceReader.metadata e) = SourceReader.user) /\
  (forall key,
     In key (PyDict.keys (SourceReader.entry_config e)) ->
     PyStr.startswith key "_" = false).
Proof.
  intros Hwf Hget Hsrc. rewrite (get_by_precedence r name Hwf) in Hget.
  unfold SourceReader.by_precedence in Hget.
  destruct (PyDict.get name (SourceReader.discovered_local r));
    [inversion Hget; subst e; discriminate|].
  destruct (PyDict.get name (SourceReader.discovered_project r));
    [inversion Hget; subst e; discriminate|].
  destruct (PyDict.get name (SourceReader.discovered_user r));
    [inversion Hget; subst e; discriminate|].
  destruct (PyDict.get name (SourceReader.discovered_plugin r)) as [p|];
    [|discriminate].
  inversion Hget; subst e. split.
  - exists p. repeat split.
  - intros key Hin. unfold SourceReader.plugin_entry in Hin.
    cbn [SourceReader.entry_config] in Hin.
    unfold PyDict.keys, SourceReader.clean_config in Hin.
    apply in_map_iff in Hin. destruct Hin as ([k v] & Hk & Hin).
    apply filter_In in Hin. destruct Hin as [_ Hf]. simpl in Hk, Hf.
    subst k. now apply negb_true_iff in Hf.
Qed.

Lemma X17_plugin_entry_clean_witness :
  let p :=
    SourceReader.mkPluginServer
      (("_source", SourceReader.PStr "plugin") :: Scenario.plain_server)
      "finder" "1.2.0" in
  let r := SourceReader.mkReader "all" None [] [("search", p)] [] [] in
  PyDict.keys (SourceReader.entry_config (SourceReader.plugin_entry p)) =
    ["command"; "args"] /\
  PyStr.startswith "command" "_" = false.
Proof.
  intros p r. split; [reflexivity|].
  assert (Hwf : SourceReader.layers_wf r) by (repeat split; solve_wf).
  destruct (X17_plugin_entry_clean r "search" (SourceReader.plugin_entry p)
              Hwf eq_refl eq_refl) as [_ H].
  apply H. simpl. now left.
Defined.

(** X18: the flat view follows the same precedence as the scoped view:
    for layers that are dicts, the config [get_mcp_servers] gives for a
    name is the config of the local layer if it lists the name, else the
    one of the project layer, else the one of the user file layer, each
    unchanged, else the config of the plugin server of that name without
    the keys that start with an underscore; a name no layer lists is
    absent. *)
Theorem X18_flat_view_precedence (r : SourceReader.t) (name : string) :
  SourceReader.layers_wf r ->
  PyDict.get name (SourceReader.get_mcp_servers r) =
  match PyDict.get name (SourceReader.discovered_local r) with
  | Some c => Some c
  | None =>
      match PyDict.get name (SourceReader.discovered_project r) with
      | Some c => Some c
      | None =>
          match PyDict.get name (SourceReader.discovered_user r) with
          | Some c => Some c
          | None =>
              match PyDict.get name (SourceReader.discovered_plugin r) with
              | Some p =>
                  Some (filter
                          (fun kv => negb (PyStr.startswith (fst kv) "_"))
                          (SourceReader.expanded p))
              | None => None
              end
          end
      end
  end.
Proof.
  intros Hwf. unfold SourceReader.get_mcp_servers.
  rewrite get_map_values, (get_by_precedence r name Hwf).
  unfold SourceReader.by_precedence.
  destruct (PyDict.get name (SourceReader.discovered_local r));
    [reflexivity|].
  destruct (PyDict.get name (SourceReader.discovered_project r));
    [reflexivity|].
  destruct (PyDict.get name (SourceReader.discovered_user r));
    [reflexivity|].
  destruct (PyDict.get name (SourceReader.discovered_plugin r));
    reflexivity.
Qed.

Lemma X18_flat_view_precedence_witness :
  let cfg := fun cmd : string => [("command", SourceReader.PStr cmd)] in
  let r :=
    SourceReader.mkReader "all" (Some "/work/app")
      [("db", cfg "user-db")]
      [("db",
        SourceReader.mkPluginServer
          (("_source", SourceReader.PStr "plugin") :: cfg "plugin-db")
          "finder" "1.2.0");
       ("lint",
        SourceReader.mkPluginServer
          (("_plugin_name", SourceReader.PStr "linter") :: cfg "plugin-lint")
          "linter" "0.9.1")]
      [("db", cfg "project-db")]
      [] in
  PyDict.get "db" (SourceReader.get_mcp_servers r) =
    Some [("command", SourceReader.PStr "project-db")] /\
  PyDict.get "lint" (SourceReader.get_mcp_servers r) =
    Some [("command", SourceReader.PStr "plugin-lint")].
Proof.
  intros cfg r.
  assert (Hwf : SourceReader.layers_wf r) by (repeat split; solve_wf).
  split.
  - rewrite (X18_flat_view_precedence r "db" Hwf). reflexivity.
  - rewrite (X18_flat_view_precedence r "lint" Hwf). reflexivity.
Defined.

(** ** Source reader: settings *)

(** X19: settings are merged key by key with the later file winning:
    for settings files that are dicts, the value of a key is the one of
    the local settings file if it has the key, else the one of the
    project settings file, else the one of the user settings file, each
    file counting only when the scope filter (and, for the two project
    files, the project directory) lets it be read. *)
Theorem X19_settings_precedence {V : Type}
    (scope : string) (project_dir : option string)
    (user_settings project_settings local_settings
       : option (PyDict.dict V)) (key : string) :
  PyDict.wf (StateManager.or_empty user_settings) ->
  PyDict.wf (StateManager.or_empty project_settings) ->
  PyDict.wf (StateManager.or_empty local_settings) ->
  let user_on := existsb (String.eqb scope) ["user"; "all"] in
  let project_on :=
    existsb (String.eqb scope) ["project"; "all"] &&
    match project_dir with Some _ => true | None => false end in
  PyDict.get key
    (Settings.get_settings scope project_dir user_settings project_settings
       local_settings) =
  match PyDict.get key (Settings.read_if project_on local_settings) with
  | Some v => Some v
  | None =>
      match PyDict.get key (Settings.read_if project_on project_settings) with
      | Some v => Some v
      | None => PyDict.get key (Settings.read_if user_on user_settings)
      end
  end.
Proof.
  intros Hu Hp Hl user_on project_on.
  assert (Hm : forall (settings : PyDict.dict V)
                     (file : option (PyDict.dict V)),
    PyDict.wf (StateManager.or_empty file) ->
    PyDict.get key (Settings.merge_file settings file) =
    match PyDict.get key (StateManager.or_empty file) with
    | Some v => Some v
    | None => PyDict.get key settings
    end).
  { intros settings [data|] Hwf; cbn; [|reflexivity].
    unfold PyDict.update. now apply get_fold_set. }
  unfold Settings.get_settings, Settings.read_if.
  fold user_on. fold project_on.
  destruct project_on, user_on; rewrite ?Hm by assumption;
    cbn [PyDict.get];
    repeat match goal with
           | |- context [match PyDict.get ?k ?d with _ => _ end] =>
               destruct (PyDict.get k d)
           end; reflexivity.
Qed.

Lemma X19_settings_precedence_witness :
  PyDict.get "model"
    (Settings.get_settings "all" (Some "/work/app")
       (Some [("model", "opus"); ("theme", "dark")])
       (Some [("model", "sonnet")])
       None) = Some "sonnet".
Proof.
  rewrite (X19_settings_precedence "all" (Some "/work/app")
             (Some [("model", "opus"); ("theme", "dark")])
             (Some [("model", "sonnet")]) None "model");
    [reflexivity | solve_wf | solve_wf | solve_wf].
Defined.

(** ** Orchestrator: preview runs *)

Section GenericFrames.
Import Exc Frames.
Context {S : Type} (R : S -> S -> Prop).
Hypothesis R_refl : forall s, R s s.
Hypothesis R_trans : forall s1 s2 s3, R s1 s2 -> R s2 s3 -> R s1 s3.

Lemma respects_ret {A} (a : A) : respects R (ret (S := S) a).
Proof. intros s. apply R_refl. Qed.

Lemma respects_raise {A} (msg : string) :
  respects R (fun s : S => (@Raised A msg, s)).
Proof. intros s. apply R_refl. Qed.

Lemma respects_get : respects R (get (S := S)).
Proof. intros s. apply R_refl. Qed.

Lemma respects_bind {A B} (m : M S A) (k : A -> M S B) :
  respects R m -> (forall a, respects R (k a)) -> respects R (bind m k).
Proof.
  intros Hm Hk s. unfold bind. specialize (Hm s).
  destruct (m s) as [[a|msg] s1]; simpl in *; [|exact Hm].
  eapply R_trans; [exact Hm | apply Hk].
Qed.

Lemma respects_if {A} (b : bool) (m1 m2 : M S A) :
  respects R m1 -> respects R m2 -> respects R (if b then m1 else m2).
Proof. now destruct b. Qed.

End GenericFrames.

Section ReadOnly.
Import Exc Frames Orchestrator.
Context {W : Type}.

Lemma read_only_refl (w : World W) : read_only w w.
Proof.
  repeat split. exists []. split; [now rewrite app_nil_r | reflexivity].
Qed.

Lemma read_only_trans (w1 w2 w3 : World W) :
  read_only w1 w2 -> read_only w2 w3 -> read_only w1 w3.
Proof.
  intros (S1 & F1 & n1 & E1 & N1) (S2 & F2 & n2 & E2 & N2).
  split; [congruence|]. split; [congruence|].
  exists (n1 ++ n2). split.
  - now rewrite E2, E1, app_assoc.
  - rewrite forallb_app. now rewrite N1, N2.
Qed.

Lemma read_only_log (e : Event) :
  is_write e = false -> respects read_only (log W e).
Proof.
  intros He w. repeat split. exists [e]. split; [reflexivity|].
  simpl. now rewrite He.
Qed.

Lemma read_only_sync_targets (env : Env W) (self : t) targets results :
  dry_run self = true ->
  respects read_only (sync_targets env self targets results).
Proof.
  intros Hdry. revert results.
  induction targets as [|target rest IH]; intros results; simpl.
  - apply respects_ret. apply read_only_refl.
  - apply (respects_bind _ read_only_trans); [|intros r; apply IH].
    unfold sync_target. rewrite Hdry.
    apply (respects_bind _ read_only_trans).
    + unfold get_adapter.
      destruct (PyDict.get target (_adapters W env));
        [apply respects_ret | apply respects_raise]; apply read_only_refl.
    + intros a. apply (respects_bind _ read_only_trans).
      * now apply read_only_log.
      * intros _. apply respects_ret. apply read_only_refl.
Qed.

Lemma read_only_sync_all (env : Env W) (self : t) :
  dry_run self = true -> respects read_only (sync_all env self).
Proof.
  intros Hdry. unfold sync_all.
  destruct (SecretDetector.should_block _ _).
  - apply (respects_bind _ read_only_trans);
      [now apply read_only_log|].
    intros _. apply respects_ret. apply read_only_refl.
  - unfold run_pipeline. rewrite Hdry. cbn [negb].
    apply (respects_bind _ read_only_trans);
      [apply respects_get; apply read_only_refl|].
    intros w0. apply (respects_bind _ read_only_trans).
    { apply respects_if; [now apply read_only_log|].
      apply respects_ret. apply read_only_refl. }
    intros _. apply (respects_bind _ read_only_trans);
      [now apply read_only_sync_targets|].
    intros results.
    repeat (apply (respects_bind _ read_only_trans);
            [apply respects_ret; apply read_only_refl | intros _]).
    apply respects_ret. apply read_only_refl.
Qed.

End ReadOnly.

(** X20: a preview run writes nothing: with [dry_run] set, whatever
    [sync_all] returns or raises, the state manager (document in memory,
    state file and clock) and the files are as before, and no adapter
    sync, symlink cleanup, state record or backup cleanup has taken
    place. *)
Theorem X20_dry_run_writes_nothing {W : Type}
    (env : Orchestrator.Env W) (self : Orchestrator.t)
    (w : Orchestrator.World W) :
  Orchestrator.dry_run self = true ->
  let w' := snd (Orchestrator.sync_all env self w) in
  Orchestrator.state_manager w' = Orchestrator.state_manager w /\
  Orchestrator.files w' = Orchestrator.files w /\
  exists new,
    Orchestrator.events w' = Orchestrator.events w ++ new /\
    forallb (fun e => negb (Orchestrator.is_write e)) new = true.
Proof.
  intros Hdry. exact (read_only_sync_all env self Hdry w).
Qed.

Lemma X20_dry_run_writes_nothing_witness :
  Orchestrator.state_manager
    (snd (Orchestrator.sync_all
            (Scenario.env_of Scenario.reader_with_plugin)
            (Orchestrator.mkOrchestrator "all" true false None)
            Scenario.world0)) =
  Orchestrator.state_manager Scenario.world0.
Proof.
  destruct (X20_dry_run_writes_nothing
              (Scenario.env_of Scenario.reader_with_plugin)
              (Orchestrator.mkOrchestrator "all" true false None)
              Scenario.world0 eq_refl) as [H _].
  exact H.
Defined.

(** ** Orchestrator: the targets of a run *)

Lemma insert_sorted_perm (x : string) (l : list string) :
  Permutation (x :: l) (PyStr.insert_sorted x l).
Proof.
  induction l as [|y r IH]; simpl; [reflexivity|].
  destruct (String.leb x y); [reflexivity|].
  rewrite perm_swap. now apply perm_skip.
Qed.

Lemma sorted_perm (l : list string) : Permutation l (PyStr.sorted l).
Proof.
  unfold PyStr.sorted. induction l as [|x r IH]; simpl; [reflexivity|].
  rewrite <- insert_sorted_perm. now apply perm_skip.
Qed.

Lemma insert_sorted_sorted (x : string) (l : list string) :
  Sorted Order.str_le l -> Sorted Order.str_le (PyStr.insert_sorted x l).
Proof.
  induction l as [|y r IH]; simpl; intros Hs.
  - repeat constructor.
  - destruct (String.leb x y) eqn:E.
    + constructor; [assumption|]. constructor. exact E.
    + inversion Hs as [|? ? Hr Hhd]; subst.
      constructor; [now apply IH|].
      assert (Hyx : Order.str_le y x).
      { destruct (String.leb_total x y) as [H|H]; [congruence | exact H]. }
      destruct r as [|z r']; simpl.
      * constructor. exact Hyx.
      * destruct (String.leb x z); constructor; [exact Hyx|].
        now inversion Hhd.
Qed.

Lemma sorted_sorted (l : list string) : Sorted Order.str_le (PyStr.sorted l).
Proof.
  unfold PyStr.sorted. induction l as [|x r IH]; simpl; [constructor|].
  now apply insert_sorted_sorted.
Qed.

(** X21: [list_targets] gives the registered names in ascending order,
    each registered name once: the list is sorted, it is a permutation of
    the keys of the registry, and it has no duplicates when the registry
    is a dict. *)
Theorem X21_list_targets_sorted {W : Type} (env : Orchestrator.Env W) :
  Sorted Order.str_le (Orchestrator.list_targets W env) /\
  Permutation (PyDict.keys (Orchestrator._adapters W env))
              (Orchestrator.list_targets W env) /\
  (PyDict.wf (Orchestrator._adapters W env) ->
   NoDup (Orchestrator.list_targets W env)) /\
  (forall target,
     In target (Orchestrator.list_targets W env) <->
     PyDict.contains target (Orchestrator._adapters W env) = true).
Proof.
  unfold Orchestrator.list_targets.
  split; [apply sorted_sorted|]. split; [apply sorted_perm|]. split.
  - intros Hwf. eapply Permutation_NoDup; [apply sorted_perm | exact Hwf].
  - intros target. rewrite contains_iff. split; intros H.
    + eapply Permutation_in; [apply Permutation_sym, sorted_perm | exact H].
    + eapply Permutation_in; [apply sorted_perm | exact H].
Qed.

Lemma X21_list_targets_sorted_witness :
  let env := Scenario.env_of Scenario.reader_without_plugins in
  Orchestrator.list_targets unit env = ["codex"; "gemini"] /\
  NoDup (Orchestrator.list_targets unit env).
Proof.
  intros env. split; [reflexivity|].
  destruct (X21_list_targets_sorted env) as (_ & _ & H & _).
  apply H. solve_wf.
Defined.

Section TargetsLoop.
Import Exc Orchestrator.
Context {W : Type}.

Lemma keys_set_new {V} (d : PyDict.dict V) (k : string) (v : V) :
  ~ In k (PyDict.keys d) ->
  PyDict.keys (PyDict.set k v d) = PyDict.keys d ++ [k].
Proof.
  induction d as [|[k0 v0] r IH]; simpl; intros Hn; [reflexivity|].
  destruct (String.eqb_spec k k0) as [->|Hne]; [tauto|].
  simpl. f_equal. apply IH. tauto.
Qed.

Lemma sync_target_returns (env : Env W) (self : t) target adapter results
    (w : World W) :
  PyDict.get target (_adapters W env) = Some adapter ->
  exists entry w',
    sync_target env self target results w =
    (Returned (PyDict.set target entry results), w').
Proof.
  intros Hreg. unfold sync_target, get_adapter. rewrite Hreg.
  unfold bind at 1, ret at 1.
  destruct (dry_run self).
  - eexists _, _. reflexivity.
  - unfold try_except.
    destruct (Adapter.sync_all adapter (adapter_data env) (files w))
      as [[target_results|msg] run].
    + eexists _, _. reflexivity.
    + eexists _, _. reflexivity.
Qed.

Lemma sync_targets_keys (env : Env W) (self : t) targets results
    (w : World W) :
  (forall target, In target targets ->
     PyDict.contains target (_adapters W env) = true) ->
  NoDup (PyDict.keys results ++ targets) ->
  exists results' w',
    sync_targets env self targets results w = (Returned results', w') /\
    PyDict.keys results' = PyDict.keys results ++ targets.
Proof.
  revert results w.
  induction targets as [|target rest IH]; intros results w Hreg Hnd; simpl.
  - eexists _, _. split; [reflexivity | now rewrite app_nil_r].
  - assert (Hc := Hreg target (or_introl eq_refl)).
    unfold PyDict.contains in Hc.
    destruct (PyDict.get target (_adapters W env)) as [adapter|] eqn:Eg;
      [|discriminate].
    destruct (sync_target_returns env self target adapter results w Eg)
      as (entry & w1 & E1).
    unfold bind. rewrite E1.
    assert (Hnew : ~ In target (PyDict.keys results)).
    { intros Hin. apply NoDup_remove_2 in Hnd. apply Hnd.
      apply in_or_app. now left. }
    assert (Hk : PyDict.keys (PyDict.set target entry results) =
                 PyDict.keys results ++ [target])
      by now apply keys_set_new.
    destruct (IH (PyDict.set target entry results) w1) as (r' & w' & E & K).
    + intros t Ht. apply Hreg. now right.
    + rewrite Hk, <- app_assoc. exact Hnd.
    + exists r', w'. split; [exact E|].
      rewrite K, Hk, <- app_assoc. reflexivity.
Qed.

End TargetsLoop.

(** X22: every registered target gets its entry: for a registry that is
    a dict, the loop over [list_targets] never raises and returns a
    results dict whose keys are the registered target names in sorted
    order, in a preview as in a real run and whether or not an adapter's
    sync fails. *)
Theorem X22_every_target_has_entry {W : Type}
    (env : Orchestrator.Env W) (self : Orchestrator.t)
    (w : Orchestrator.World W) :
  PyDict.wf (Orchestrator._adapters W env) ->
  exists results,
    fst (Orchestrator.sync_targets env self
           (Orchestrator.list_targets W env) [] w) = Exc.Returned results /\
    PyDict.keys results = Orchestrator.list_targets W env.
Proof.
  intros Hwf.
  destruct (sync_targets_keys env self (Orchestrator.list_targets W env) [] w)
    as (results & w' & E & K).
  - intros target Ht. unfold Orchestrator.list_targets in Ht.
    apply contains_iff.
    eapply Permutation_in; [apply Permutation_sym, sorted_perm | exact Ht].
  - simpl. unfold Orchestrator.list_targets.
    eapply Permutation_NoDup; [apply sorted_perm | exact Hwf].
  - exists results. rewrite E. split; [reflexivity | exact K].
Qed.

Lemma X22_every_target_has_entry_witness :
  exists results,
    fst (Orchestrator.sync_targets
           (Scenario.env_of Scenario.reader_without_plugins)
           Scenario.orchestrator
           (Orchestrator.list_targets unit
              (Scenario.env_of Scenario.reader_without_plugins))
           [] Scenario.world0) = Exc.Returned results /\
    PyDict.keys results = ["codex"; "gemini"].
Proof.
  destruct (X22_every_target_has_entry
              (Scenario.env_of Scenario.reader_without_plugins)
              Scenario.orchestrator Scenario.world0) as (results & E & K).
  - solve_wf.
  - exists results. split; [exact E | exact K].
Defined.

(** ** Orchestrator: plugin metadata, hashes and conflicts *)

Section ExtractFacts.
Import Orchestrator.

Lemma Forall_set {V} (P : string * V -> Prop) (d : PyDict.dict V)
    (k : string) (v : V) :
  (forall k0 v0, P (k0, v0) -> k0 = k -> P (k0, v)) ->
  P (k, v) -> Forall P d -> Forall P (PyDict.set k v d).
Proof.
  intros Hsame Hnew. induction d as [|[k0 v0] r IH]; simpl; intros Hd.
  - constructor; [exact Hnew | constructor].
  - inversion Hd as [|? ? H0 Hr]; subst.
    destruct (String.eqb_spec k k0) as [->|Hne].
    + constructor; [|assumption]. now apply (Hsame k0 v0).
    + constructor; [assumption | now apply IH].
Qed.

(** A plugin record counts the servers it lists, and lists servers of
    its plugin only. *)
Let consistent (all : PyDict.dict SourceReader.ScopedEntry)
    (kv : string * StateManager.PluginMeta) : Prop :=
  StateManager.pm_mcp_count (snd kv) =
    Z.of_nat (List.length (StateManager.pm_mcp_servers (snd kv))) /\
  forall server,
    In server (StateManager.pm_mcp_servers (snd kv)) ->
    exists entry,
      In (server, entry) (plugin_sourced all) /\
      get_plugin_name (SourceReader.metadata entry) = fst kv.

Lemma extract_step_consistent all acc kv :
  In kv all ->
  Forall (consistent all) (fst acc) ->
  Forall (consistent all) (fst (extract_step acc kv)).
Proof.
  destruct acc as [plugins sm], kv as [server entry]. intros Hin Hacc.
  unfold extract_step. cbn [fst snd].
  destruct (SourceReader.source (SourceReader.metadata entry)) eqn:Es;
    [exact Hacc|].
  assert (Hps : In (server, entry) (plugin_sourced all)).
  { unfold plugin_sourced. apply filter_In. split; [exact Hin|].
    cbn [snd]. now rewrite Es. }
  set (name := get_plugin_name (SourceReader.metadata entry)).
  assert (Hmeta : forall meta,
    consistent all (name, meta) ->
    Forall (consistent all)
      (PyDict.set name
         (StateManager.mkPluginMeta (StateManager.pm_version meta)
            (StateManager.pm_mcp_count meta + 1)
            (StateManager.pm_mcp_servers meta ++ [server])
            (StateManager.pm_last_sync meta)) plugins)).
  { intros meta [Hc Hs]. cbn [fst snd] in Hc, Hs.
    assert (Hnew : consistent all
              (name,
               StateManager.mkPluginMeta (StateManager.pm_version meta)
                 (StateManager.pm_mcp_count meta + 1)
                 (StateManager.pm_mcp_servers meta ++ [server])
                 (StateManager.pm_last_sync meta))).
    { split; cbn [fst snd StateManager.pm_mcp_count
                  StateManager.pm_mcp_servers].
      - rewrite length_app, Hc. simpl. lia.
      - intros s Hs'. apply in_app_iff in Hs'.
        destruct Hs' as [Hs'|[<-|[]]]; [now apply Hs|].
        exists entry. split; [exact Hps | reflexivity]. }
    apply Forall_set; [|exact Hnew | exact Hacc].
    intros k0 v0 _ ->. exact Hnew. }
  destruct (PyDict.get name plugins) as [meta|] eqn:Eg.
  - cbn [fst]. apply Hmeta.
    apply get_some_in in Eg.
    rewrite Forall_forall in Hacc. exact (Hacc _ Eg).
  - cbn [StateManager.now fst]. apply Hmeta.
    split; cbn; [reflexivity | tauto].
Qed.

Lemma extract_fold_consistent all l acc :
  incl l all ->
  Forall (consistent all) (fst acc) ->
  Forall (consistent all) (fst (fold_left extract_step l acc)).
Proof.
  revert acc. induction l as [|kv r IH]; intros acc Hincl Hacc; simpl;
    [exact Hacc|].
  apply IH.
  - intros x Hx. apply Hincl. now right.
  - apply extract_step_consistent; [|exact Hacc]. apply Hincl. now left.
Qed.

Lemma extract_step_wf acc kv :
  PyDict.wf (fst acc) -> PyDict.wf (fst (extract_step acc kv)).
Proof.
  destruct acc as [plugins sm]. unfold extract_step. cbn [fst snd].
  intros Hwf.
  destruct (SourceReader.source _); [exact Hwf|].
  destruct (PyDict.get _ plugins); cbn [StateManager.now fst];
    now apply wf_set.
Qed.

Lemma extract_fold_wf l acc :
  PyDict.wf (fst acc) -> PyDict.wf (fst (fold_left extract_step l acc)).
Proof.
  revert acc. induction l as [|kv r IH]; intros acc Hacc; simpl;
    [exact Hacc|].
  apply IH. now apply extract_step_wf.
Qed.

Lemma extract_consistent mcp_scoped sm :
  Forall (consistent mcp_scoped)
         (fst (_extract_plugin_metadata mcp_scoped sm)).
Proof.
  unfold _extract_plugin_metadata, PyDict.items.
  apply extract_fold_consistent; [apply incl_refl | constructor].
Qed.

End ExtractFacts.

(** X23: the plugin metadata extracted from the scoped map is
    consistent: the result is a dict, the [mcp_count] of every plugin
    equals the number of servers it lists, and every server it lists is
    a plugin-sourced server of the map that carries this plugin's
    name. *)
Theorem X23_extracted_metadata_consistent
    (mcp_scoped : PyDict.dict SourceReader.ScopedEntry)
    (sm : StateManager.t) :
  let plugins := fst (Orchestrator._extract_plugin_metadata mcp_scoped sm) in
  PyDict.wf plugins /\
  forall name meta,
    In (name, meta) plugins ->
    StateManager.pm_mcp_count meta =
      Z.of_nat (List.length (StateManager.pm_mcp_servers meta)) /\
    forall server,
      In server (StateManager.pm_mcp_servers meta) ->
      exists entry,
        In (server, entry) (Orchestrator.plugin_sourced mcp_scoped) /\
        Orchestrator.get_plugin_name (SourceReader.metadata entry) = name.
Proof.
  intros plugins. split.
  - unfold plugins, Orchestrator._extract_plugin_metadata.
    apply extract_fold_wf. constructor.
  - intros name meta Hin.
    pose proof (extract_consistent mcp_scoped sm) as H.
    rewrite Forall_forall in H. exact (H _ Hin).
Qed.

Lemma X23_extracted_metadata_consistent_witness :
  let mcp_scoped :=
    SourceReader.get_mcp_servers_with_scope Scenario.reader_with_plugin in
  StateManager.pm_mcp_count
    (StateManager.mkPluginMeta "1.2.0" 1 ["search"] 0) =
  Z.of_nat (List.length ["search"]).
Proof.
  intros mcp_scoped.
  destruct (X23_extracted_metadata_consistent mcp_scoped
              (StateManager.mkManager StateManager.fresh_state None 0))
    as [_ H].
  destruct (H "finder" (StateManager.mkPluginMeta "1.2.0" 1 ["search"] 0))
    as [Hc _]; [vm_compute; now left|].
  exact Hc.
Defined.

Section HashFacts.
Import Orchestrator.
Context {W : Type}.

Lemma hash_sources_entries (env : Env W) (w : World W) :
  Forall
    (fun kv =>
       is_file W env (files w) (fst kv) = true /\
       snd kv = hash_file_sha256 W env (files w) (fst kv) /\
       snd kv <> "")
    (hash_sources W env w).
Proof.
  unfold hash_sources.
  generalize (concat (PyDict.values (get_source_paths W env))).
  intros paths.
  assert (G : forall acc,
    Forall
      (fun kv =>
         is_file W env (files w) (fst kv) = true /\
         snd kv = hash_file_sha256 W env (files w) (fst kv) /\
         snd kv <> "") acc ->
    Forall
      (fun kv =>
         is_file W env (files w) (fst kv) = true /\
         snd kv = hash_file_sha256 W env (files w) (fst kv) /\
         snd kv <> "")
      (fold_left
         (fun file_hashes p =>
            if is_file W env (files w) p
            then
              let h := hash_file_sha256 W env (files w) p in
              if negb (String.eqb h "") then PyDict.set p h file_hashes
              else file_hashes
            else file_hashes) paths acc)).
  { induction paths as [|p r IH]; intros acc Hacc; simpl; [exact Hacc|].
    apply IH.
    destruct (is_file W env (files w) p) eqn:Ef; [|exact Hacc].
    destruct (String.eqb_spec (hash_file_sha256 W env (files w) p) "")
      as [E|Hne]; simpl; [exact Hacc|].
    apply Forall_set; [| |exact Hacc].
    - intros k0 v0 _ ->. simpl. auto.
    - simpl. auto. }
  apply G. constructor.
Qed.

End HashFacts.

(** X24: what has just been recorded is not a conflict: after
    [record_sync] (without account) of the hashes computed by
    [_update_state] from the source files, and with the files as they
    are, [ConflictDetector.check] reports no conflict for that target;
    and a target that has no flat record has no conflict at all. *)
Theorem X24_no_conflict_after_record {W : Type}
    (env : Orchestrator.Env W) (w : Orchestrator.World W)
    (target scope : string) (sync_methods : PyDict.dict string)
    (synced skipped failed : Z) (events : list Orchestrator.Event) :
  let file_hashes := Orchestrator.hash_sources W env w in
  let sm' :=
    StateManager.record_sync (Orchestrator.state_manager w) target scope
      file_hashes sync_methods synced skipped failed None in
  Orchestrator.check W env
    (Orchestrator.mkWorld sm' (Orchestrator.files w) events) target = [] /\
  (StateManager.get_target_status (Orchestrator.state_manager w) target =
     None ->
   Orchestrator.check W env w target = []).
Proof.
  intros file_hashes sm'. split.
  - unfold Orchestrator.check. cbn [Orchestrator.state_manager
      Orchestrator.files].
    destruct (recorded_target_record_sync (Orchestrator.state_manager w)
                target scope file_hashes sync_methods synced skipped failed
                None) as (ts & Hts & _ & Hfh & _).
    cbn [StateManager.recorded_target] in Hts. fold sm' in Hts.
    rewrite Hts, Hfh. unfold PyDict.items.
    apply flat_map_all_nil. intros [p h] Hin.
    pose proof (hash_sources_entries env w) as Hall.
    rewrite Forall_forall in Hall.
    destruct (Hall _ Hin) as (_ & Hh & Hne). cbn [fst snd] in *.
    rewrite <- Hh.
    apply String.eqb_neq in Hne. rewrite Hne.
    now rewrite String.eqb_refl.
  - intros Hnone. unfold Orchestrator.check. now rewrite Hnone.
Qed.

Lemma X24_no_conflict_after_record_witness :
  Orchestrator.check unit
    (Scenario.env_of Scenario.reader_without_plugins)
    Scenario.world0 "codex" = [].
Proof.
  apply (X24_no_conflict_after_record
           (Scenario.env_of Scenario.reader_without_plugins)
           Scenario.world0 "codex" "all" [] 0 0 0 []).
  reflexivity.
Defined.

(** ** Orchestrator: the compatibility report and the state update *)

Lemma positive_sum_exists {A} (f : A -> Z) (l : list A) (acc : Z) :
  (0 <= acc)%Z ->
  (0 <? fold_left (fun acc r => if (0 <? f r)%Z then (acc + f r)%Z else acc)
          l acc)%Z =
  (0 <? acc)%Z || existsb (fun r => (0 <? f r)%Z) l.
Proof.
  revert acc. induction l as [|r rest IH]; intros acc Hacc; simpl.
  - now rewrite orb_false_r.
  - destruct (Z.ltb_spec 0 (f r)) as [Hpos|Hneg]; simpl.
    + rewrite IH by lia. rewrite orb_true_r.
      destruct (Z.ltb_spec 0 (acc + f r)); [reflexivity | lia].
    + now apply IH.
Qed.

(** X25: the compatibility report is attached exactly when something was
    adapted or failed: [has_issues] holds if and only if some target
    whose name does not start with an underscore has, in some category,
    a result with a positive [adapted] or a positive [failed] counter; a
    preview never has issues. *)
Theorem X25_has_issues_iff
    (results : PyDict.dict Orchestrator.TargetResult) :
  Orchestrator.has_issues results = true <->
  exists target by_category category r,
    In (target, Orchestrator.Synced by_category) results /\
    PyStr.startswith target "_" = false /\
    In (category, r) by_category /\
    ((0 < Result.adapted r)%Z \/ (0 < Result.failed r)%Z).
Proof.
  unfold Orchestrator.has_issues. rewrite existsb_exists. split.
  - intros ([target tr] & Hin & Hc). cbn [fst snd] in Hc.
    apply andb_true_iff in Hc. destruct Hc as [Hu Hc].
    apply negb_true_iff in Hu.
    destruct tr as [by_category|text]; [|discriminate].
    rewrite !positive_sum_exists in Hc by lia. cbn [Z.ltb Z.compare orb] in Hc.
    apply orb_true_iff in Hc.
    destruct Hc as [Hc|Hc]; apply existsb_exists in Hc;
      destruct Hc as (r & Hr & Hpos); apply Z.ltb_lt in Hpos;
      unfold PyDict.values in Hr; apply in_map_iff in Hr;
      destruct Hr as ([category r'] & Hsnd & Hr); cbn [snd] in Hsnd;
      subst r'; exists target, by_category, category, r; auto.
  - intros (target & by_category & category & r & Hin & Hu & Hr & Hpos).
    exists (target, Orchestrator.Synced by_category). split; [exact Hin|].
    cbn [fst snd]. rewrite Hu. cbn [negb andb].
    rewrite !positive_sum_exists by lia. cbn [Z.ltb Z.compare orb].
    apply orb_true_iff.
    assert (Hv : In r (PyDict.values by_category)).
    { unfold PyDict.values. change r with (snd (category, r)).
      now apply in_map. }
    destruct Hpos as [Hpos|Hpos]; [left|right]; apply existsb_exists;
      exists r; (split; [exact Hv | now apply Z.ltb_lt]).
Qed.

Lemma X25_has_issues_iff_witness :
  Orchestrator.has_issues
    [("gemini",
      Orchestrator.Synced
        [("rules", Result.mkSyncResult 1 0 0 0 [] [] []);
         ("mcp", Result.failure "mcp: disk full")])] = true.
Proof.
  apply (X25_has_issues_iff
           [("gemini",
             Orchestrator.Synced
               [("rules", Result.mkSyncResult 1 0 0 0 [] [] []);
                ("mcp", Result.failure "mcp: disk full")])]).
  exists "gemini",
    [("rules", Result.mkSyncResult 1 0 0 0 [] [] []);
     ("mcp", Result.failure "mcp: disk full")],
    "mcp", (Result.failure "mcp: disk full").
  repeat split; simpl; auto. right. lia.
Defined.

Lemma recorded_target_record_sync_value
    (sm : StateManager.t) (target scope : string)
    (file_hashes sync_methods : PyDict.dict string)
    (synced skipped failed : Z) (account : option string) :
  exists t0,
    StateManager.recorded_target
      (StateManager.record_sync sm target scope file_hashes sync_methods
         synced skipped failed account) account target =
    Some (StateManager.mkTargetState t0
            (StateManager.record_sync_status synced skipped failed)
            scope file_hashes sync_methods synced skipped failed).
Proof.
  destruct account as [a|];
    unfold StateManager.record_sync, StateManager.recorded_target,
      StateManager.get_account_target_status, StateManager.get_target_status;
    cbn -[StateManager.record_sync_status PyDict.get PyDict.set].
  - rewrite get_set_same.
    cbn -[StateManager.record_sync_status PyDict.get PyDict.set].
    rewrite get_set_same. eexists. reflexivity.
  - rewrite get_set_same. eexists. reflexivity.
Qed.

Lemma record_sync_other
    (sm : StateManager.t) (target scope : string)
    (file_hashes sync_methods : PyDict.dict string)
    (synced skipped failed : Z) (account : option string)
    (target' : string) :
  target' <> target ->
  StateManager.recorded_target
    (StateManager.record_sync sm target scope file_hashes sync_methods
       synced skipped failed account) account target' =
  StateManager.recorded_target sm account target'.
Proof.
  intros Hne.
  destruct account as [a|];
    unfold StateManager.record_sync, StateManager.recorded_target,
      StateManager.get_account_target_status, StateManager.get_target_status;
    cbn -[PyDict.get PyDict.set].
  - rewrite get_set_same.
    destruct (PyDict.get a
                (StateManager.or_empty
                   (StateManager.st_accounts (StateManager._state sm))))
      as [e|]; cbn -[PyDict.get PyDict.set].
    + rewrite get_set_other by assumption.
      destruct e as [[ls|] [tg|] [pl|]]; reflexivity.
    + now rewrite get_set_other by assumption.
  - now rewrite get_set_other by assumption.
Qed.

Lemma recorded_target_plugin_sync sm plugins account target :
  StateManager.recorded_target
    (StateManager.record_plugin_sync sm plugins account) account target =
  StateManager.recorded_target sm account target.
Proof.
  destruct account as [a|];
    unfold StateManager.record_plugin_sync, StateManager.recorded_target,
      StateManager.get_account_target_status, StateManager.get_target_status;
    cbn -[PyDict.get PyDict.set]; [|reflexivity].
  rewrite get_set_same.
  destruct (PyDict.get a
              (StateManager.or_empty
                 (StateManager.st_accounts (StateManager._state sm))))
    as [e|]; cbn -[PyDict.get PyDict.set]; [|reflexivity].
  destruct e as [[ls|] [tg|] [pl|]]; reflexivity.
Qed.

Lemma recorded_target_state sm sm' account target :
  StateManager._state sm' = StateManager._state sm ->
  StateManager.recorded_target sm' account target =
  StateManager.recorded_target sm account target.
Proof.
  intros E. destruct account;
    unfold StateManager.recorded_target,
      StateManager.get_account_target_status, StateManager.get_target_status;
    now rewrite E.
Qed.

Section RecordLoop.
Import Exc Orchestrator.
Context {W : Type}.

(** What the state update stores for a target. *)
Let stored_as (self : t) (file_hashes : PyDict.dict string)
    (tr : TargetResult) (ts : StateManager.TargetState) : Prop :=
  StateManager.ts_file_hashes ts = file_hashes /\
  StateManager.ts_scope ts = scope self /\
  (StateManager.ts_items_synced ts, StateManager.ts_items_skipped ts,
   StateManager.ts_items_failed ts) = sum_counts tr /\
  StateManager.ts_status ts =
    StateManager.record_sync_status
      (StateManager.ts_items_synced ts) (StateManager.ts_items_skipped ts)
      (StateManager.ts_items_failed ts).

Lemma record_target_run (self : t) file_hashes target tr (w : World W) :
  PyStr.startswith target "_" = false ->
  exists ts,
    StateManager.recorded_target
      (state_manager (snd (record_target W self file_hashes (target, tr) w)))
      (account self) target = Some ts /\
    stored_as self file_hashes tr ts.
Proof.
  intros Hu. unfold record_target. cbn [fst snd]. rewrite Hu.
  destruct (sum_counts tr) as [[synced skipped] failed] eqn:Es.
  unfold bind, on_state, modify, log. cbn [snd state_manager].
  destruct (recorded_target_record_sync_value (state_manager w) target
              (scope self) file_hashes [] synced skipped failed
              (account self)) as (t0 & Hts).
  eexists. split; [exact Hts|].
  unfold stored_as. cbn -[StateManager.record_sync_status sum_counts].
  repeat split. now rewrite Es.
Qed.

Lemma record_target_other (self : t) file_hashes kv target (w : World W) :
  fst kv <> target ->
  StateManager.recorded_target
    (state_manager (snd (record_target W self file_hashes kv w)))
    (account self) target =
  StateManager.recorded_target (state_manager w) (account self) target.
Proof.
  intros Hne. unfold record_target.
  destruct (PyStr.startswith (fst kv) "_"); [reflexivity|].
  destruct (sum_counts (snd kv)) as [[synced skipped] failed].
  unfold bind, on_state, modify, log. cbn [snd state_manager].
  apply record_sync_other. congruence.
Qed.

Lemma for_each_record_target (self : t) file_hashes l target tr
    (w : World W) :
  NoDup (map fst l) -> In (target, tr) l ->
  PyStr.startswith target "_" = false ->
  exists ts,
    StateManager.recorded_target
      (state_manager (snd (for_each l (record_target W self file_hashes) w)))
      (account self) target = Some ts /\
    stored_as self file_hashes tr ts.
Proof.
  revert w. induction l as [|kv r IH]; intros w Hnd Hin Hu; [destruct Hin|].
  inversion Hnd as [|? ? Hnotin Hnd']; subst.
  cbn [for_each]. unfold bind at 1.
  pose proof (for_each_record_target_returns self file_hashes [kv] w) as Hret.
  cbn [for_each] in Hret. unfold bind at 1 in Hret.
  destruct (record_target W self file_hashes kv w) as [o w1] eqn:E1.
  destruct o as [[]|msg]; [|discriminate].
  destruct Hin as [->|Hin].
  - destruct (record_target_run self file_hashes target tr w Hu)
      as (ts & Hts & Hs).
    rewrite E1 in Hts. cbn [snd] in Hts.
    exists ts. split; [|exact Hs]. rewrite <- Hts.
    clear - Hnotin. cbn [fst] in Hnotin.
    revert w1. induction r as [|kv' r' IHr]; intros w1; [reflexivity|].
    cbn [for_each]. unfold bind at 1.
    pose proof (for_each_record_target_returns self file_hashes [kv'] w1)
      as Hret.
    cbn [for_each] in Hret. unfold bind at 1 in Hret.
    destruct (record_target W self file_hashes kv' w1) as [o w2] eqn:E2.
    destruct o as [[]|msg]; [|discriminate].
    rewrite IHr by (simpl in Hnotin; tauto).
    pose proof (record_target_other self file_hashes kv' target w1) as Ho.
    rewrite E2 in Ho. cbn [snd] in Ho. apply Ho.
    simpl in Hnotin. tauto.
  - now apply IH.
Qed.

End RecordLoop.

(** X26: the state update records every target of the run: for results
    that form a dict, each target whose name does not start with an
    underscore has, after [_update_state], a record under the run's
    account that holds the hashes of the source files taken at the start
    of the update, the run's scope, the counters summed over the
    target's categories, and the status computed from them. *)
Theorem X26_update_state_records_targets {W : Type}
    (env : Orchestrator.Env W) (self : Orchestrator.t)
    (results : PyDict.dict Orchestrator.TargetResult)
    (w : Orchestrator.World W) (target : string)
    (tr : Orchestrator.TargetResult) :
  PyDict.wf results ->
  In (target, tr) results ->
  PyStr.startswith target "_" = false ->
  exists ts,
    StateManager.recorded_target
      (Orchestrator.state_manager
         (snd (Orchestrator._update_state env self results w)))
      (Orchestrator.account self) target = Some ts /\
    StateManager.ts_file_hashes ts = Orchestrator.hash_sources W env w /\
    StateManager.ts_scope ts = Orchestrator.scope self /\
    (StateManager.ts_items_synced ts, StateManager.ts_items_skipped ts,
     StateManager.ts_items_failed ts) = Orchestrator.sum_counts tr /\
    StateManager.ts_status ts =
      StateManager.record_sync_status
        (StateManager.ts_items_synced ts) (StateManager.ts_items_skipped ts)
        (StateManager.ts_items_failed ts).
Proof.
  intros Hwf Hin Hu.
  destruct (for_each_record_target self (Orchestrator.hash_sources W env w)
              (PyDict.items results) target tr w Hwf Hin Hu)
    as (ts & Hts & Hs).
  exists ts. split; [|exact Hs].
  rewrite update_state_run. rewrite <- Hts.
  set (w1 := snd (Exc.for_each _ _ w)).
  set (pm := Orchestrator._extract_plugin_metadata _ _).
  assert (Hst : StateManager._state (snd pm) =
                StateManager._state (Orchestrator.state_manager w1)).
  { unfold pm, Orchestrator._extract_plugin_metadata.
    apply extract_fold_state. }
  destruct (negb (PyDict.is_empty (fst pm)));
    cbn [snd Orchestrator.state_manager].
  - rewrite recorded_target_plugin_sync. now apply recorded_target_state.
  - now apply recorded_target_state.
Qed.

Lemma X26_update_state_records_targets_witness :
  exists ts,
    StateManager.recorded_target
      (Orchestrator.state_manager
         (snd (Orchestrator._update_state
                 (Scenario.env_of Scenario.reader_with_plugin)
                 Scenario.orchestrator
                 [("gemini",
                   Orchestrator.Synced
                     [("rules", Result.mkSyncResult 2 1 0 0 [] [] []);
                      ("mcp", Result.failure "mcp: disk full")])]
                 Scenario.world0)))
      None "gemini" = Some ts /\
    StateManager.ts_status ts = "partial".
Proof.
  destruct (X26_update_state_records_targets
              (Scenario.env_of Scenario.reader_with_plugin)
              Scenario.orchestrator
              [("gemini",
                Orchestrator.Synced
                  [("rules", Result.mkSyncResult 2 1 0 0 [] [] []);
                   ("mcp", Result.failure "mcp: disk full")])]
              Scenario.world0 "gemini"
              (Orchestrator.Synced
                 [("rules", Result.mkSyncResult 2 1 0 0 [] [] []);
                  ("mcp", Result.failure "mcp: disk full")]))
    as (ts & Hts & _ & _ & Hc & Hst).
  - solve_wf.
  - simpl. now left.
  - reflexivity.
  - exists ts. split; [exact Hts|].
    change (Orchestrator.sum_counts _) with (2, 1, 1)%Z in Hc.
    injection Hc as H1 H2 H3.
    rewrite Hst, H1, H2, H3. reflexivity.
Defined.

(** ** The status view after a sync *)

Section StatusAfterSync.
Import Orchestrator.

(** Two plugin records that differ in their timestamp at most. *)
Let same_plugin (a b : string * StateManager.PluginMeta) : Prop :=
  fst a = fst b /\
  StateManager.pm_version (snd a) = StateManager.pm_version (snd b) /\
  StateManager.pm_mcp_count (snd a) = StateManager.pm_mcp_count (snd b) /\
  StateManager.pm_mcp_servers (snd a) = StateManager.pm_mcp_servers (snd b).

Lemma same_plugin_get p q (k : string) :
  Forall2 same_plugin p q ->
  match PyDict.get k p, PyDict.get k q with
  | Some m, Some m' => same_plugin (k, m) (k, m')
  | None, None => True
  | _, _ => False
  end.
Proof.
  induction 1 as [|[k1 m1] [k2 m2] p q Hx _ IH]; simpl; [exact I|].
  destruct Hx as (Hk & Hrest). cbn [fst snd] in Hk, Hrest. subst k2.
  destruct (String.eqb k k1); [|exact IH].
  split; [reflexivity | exact Hrest].
Qed.

Lemma same_plugin_set p q (k : string) m m' :
  Forall2 same_plugin p q -> same_plugin (k, m) (k, m') ->
  Forall2 same_plugin (PyDict.set k m p) (PyDict.set k m' q).
Proof.
  intros H Hnew.
  induction H as [|[k1 m1] [k2 m2] p q Hx Hr IH]; simpl.
  - constructor; [exact Hnew | constructor].
  - pose proof Hx as (Hk & _). cbn [fst] in Hk. subst k2.
    destruct (String.eqb_spec k k1) as [->|Hne];
      constructor; assumption.
Qed.

Lemma same_plugin_step acc acc' kv :
  Forall2 same_plugin (fst acc) (fst acc') ->
  Forall2 same_plugin (fst (extract_step acc kv))
                      (fst (SyncStatus.current_step acc' kv)).
Proof.
  destruct acc as [p sm], acc' as [q clock]. cbn [fst]. intros H.
  unfold extract_step, SyncStatus.current_step.
  destruct (SourceReader.source (SourceReader.metadata (snd kv)));
    [exact H|].
  pose proof (same_plugin_get p q
                (get_plugin_name (SourceReader.metadata (snd kv))) H) as Hg.
  destruct (PyDict.get _ p) as [m|], (PyDict.get _ q) as [m'|];
    try contradiction; cbn [StateManager.now fst snd];
    apply same_plugin_set; try exact H.
  - destruct Hg as (_ & Hv & Hc & Hs). cbn [fst snd] in *.
    repeat split; cbn [fst snd StateManager.pm_version
      StateManager.pm_mcp_count StateManager.pm_mcp_servers]; congruence.
  - repeat split.
Qed.

Lemma same_plugin_fold l acc acc' :
  Forall2 same_plugin (fst acc) (fst acc') ->
  Forall2 same_plugin (fst (fold_left extract_step l acc))
                      (fst (fold_left SyncStatus.current_step l acc')).
Proof.
  revert acc acc'. induction l as [|kv r IH]; intros acc acc' H; simpl;
    [exact H|].
  apply IH. now apply same_plugin_step.
Qed.

Lemma same_plugin_no_drift p q :
  PyDict.wf p -> Forall2 same_plugin p q ->
  StateManager.drift_assignments p q = [].
Proof.
  intros Hwf H.
  unfold StateManager.drift_assignments, StateManager.removed_assignments,
    StateManager.changed_assignments, PyDict.items.
  rewrite !flat_map_all_nil; [reflexivity| |].
  - intros [k m'] Hin. cbn [fst snd].
    pose proof (same_plugin_get p q k H) as Hg.
    assert (Hq : PyDict.get k q <> None).
    { apply in_keys_get. change k with (fst (k, m')). now apply in_map. }
    destruct (PyDict.get k p) as [m|] eqn:Ep;
      [|destruct (PyDict.get k q); [contradiction | congruence]].
    assert (Hm : exists m0, In (k, m0) p /\ same_plugin (k, m0) (k, m')).
    { clear - H Hin. induction H as [|[k1 m1] [k2 m2] p q Hx _ IH];
        [destruct Hin|].
      destruct Hin as [E|Hin].
      - inversion E; subst. pose proof Hx as (Hk & _). cbn [fst] in Hk.
        subst k1. exists m1. split; [now left | exact Hx].
      - destruct (IH Hin) as (m0 & Hin0 & Hs). exists m0.
        split; [now right | exact Hs]. }
    destruct Hm as (m0 & Hin0 & _ & Hv & Hc & _).
    rewrite (in_get_wf _ _ _ Hwf Hin0) in Ep. inversion Ep; subst m0.
    cbn [fst snd] in Hv, Hc.
    rewrite Hv, Hc, String.eqb_refl, Z.eqb_refl. reflexivity.
  - intros k Hin.
    pose proof (same_plugin_get p q k H) as Hg.
    apply in_keys_get in Hin. unfold PyDict.contains.
    destruct (PyDict.get k p); [|congruence].
    destruct (PyDict.get k q); [reflexivity | contradiction].
Qed.

Lemma current_plugins_no_drift mcp_scoped sm clock :
  StateManager.drift_assignments
    (fst (_extract_plugin_metadata mcp_scoped sm))
    (fst (SyncStatus._extract_current_plugins mcp_scoped clock)) = [].
Proof.
  apply same_plugin_no_drift.
  - unfold _extract_plugin_metadata. apply extract_fold_wf. constructor.
  - unfold _extract_plugin_metadata, SyncStatus._extract_current_plugins.
    apply same_plugin_fold. constructor.
Qed.

Context {W : Type}.

Lemma for_each_record_target_files (self : t) file_hashes l (w : World W) :
  files (snd (Exc.for_each l (record_target W self file_hashes) w)) =
  files w.
Proof.
  revert w. induction l as [|kv r IH]; intros w; [reflexivity|].
  cbn [Exc.for_each]. unfold Exc.bind at 1.
  pose proof (for_each_record_target_returns self file_hashes [kv] w) as Hret.
  cbn [Exc.for_each] in Hret. unfold Exc.bind at 1 in Hret.
  assert (Hf : files (snd (record_target W self file_hashes kv w)) =
               files w).
  { unfold record_target. destruct (PyStr.startswith (fst kv) "_");
      [reflexivity|].
    destruct (sum_counts (snd kv)) as [[synced skipped] failed].
    reflexivity. }
  destruct (record_target W self file_hashes kv w) as [o w1].
  destruct o as [[]|msg]; [|discriminate].
  rewrite IH. exact Hf.
Qed.

Lemma update_state_files (env : Env W) (self : t) results (w : World W) :
  files (snd (_update_state env self results w)) = files w.
Proof.
  rewrite update_state_run.
  destruct (negb (PyDict.is_empty _)); cbn [snd files];
    apply for_each_record_target_files.
Qed.

Lemma hash_sources_wf (env : Env W) (w : World W) :
  PyDict.wf (hash_sources W env w).
Proof.
  unfold hash_sources.
  generalize (concat (PyDict.values (get_source_paths W env))).
  intros paths.
  assert (G : forall acc, PyDict.wf acc ->
    PyDict.wf
      (fold_left
         (fun file_hashes p =>
            if is_file W env (files w) p
            then
              let h := hash_file_sha256 W env (files w) p in
              if negb (String.eqb h "") then PyDict.set p h file_hashes
              else file_hashes
            else file_hashes) paths acc)).
  { induction paths as [|p r IH]; intros acc Hacc; simpl; [exact Hacc|].
    apply IH. destruct (is_file W env (files w) p); [|exact Hacc].
    destruct (negb _); [now apply wf_set | exact Hacc]. }
  apply G. constructor.
Qed.

Lemma update_state_recorded_hashes (env : Env W) (self : t) results
    (w : World W) target tr :
  PyDict.wf results -> In (target, tr) results ->
  PyStr.startswith target "_" = false ->
  exists ts,
    StateManager.recorded_target
      (state_manager (snd (_update_state env self results w)))
      (account self) target = Some ts /\
    StateManager.ts_file_hashes ts = hash_sources W env w.
Proof.
  intros Hwf Hin Hu.
  destruct (for_each_record_target self (hash_sources W env w)
              (PyDict.items results) target tr w Hwf Hin Hu)
    as (ts & Hts & Hfh & _).
  exists ts. split; [|exact Hfh].
  rewrite update_state_run. rewrite <- Hts.
  set (w1 := snd (Exc.for_each _ _ w)).
  set (pm := _extract_plugin_metadata _ _).
  assert (Hst : StateManager._state (snd pm) =
                StateManager._state (state_manager w1)).
  { unfold pm, _extract_plugin_metadata. apply extract_fold_state. }
  destruct (negb (PyDict.is_empty (fst pm))); cbn [snd state_manager].
  - rewrite recorded_target_plugin_sync. now apply recorded_target_state.
  - now apply recorded_target_state.
Qed.

End StatusAfterSync.

Section HashFold.
Variables (exists_at : string -> bool) (hash_of : string -> string).

Let hash_step (hashes : PyDict.dict string) (p : string)
    : PyDict.dict string :=
  if exists_at p
  then
    let h := hash_of p in
    if negb (String.eqb h "") then PyDict.set p h hashes else hashes
  else hashes.

Lemma hash_fold_wf (paths : list string) (acc : PyDict.dict string) :
  PyDict.wf acc -> PyDict.wf (fold_left hash_step paths acc).
Proof.
  revert acc. induction paths as [|p paths IH]; intros acc Hacc;
    cbn [fold_left]; [exact Hacc|].
  apply IH. unfold hash_step. destruct (exists_at p); [|exact Hacc].
  cbn zeta. destruct (negb _); [now apply wf_set | exact Hacc].
Qed.

Lemma hash_fold_get (paths : list string) (acc : PyDict.dict string)
    (p : string) :
  PyDict.get p (fold_left hash_step paths acc) =
  if existsb (String.eqb p) paths && exists_at p &&
     negb (String.eqb (hash_of p) "")
  then Some (hash_of p)
  else PyDict.get p acc.
Proof.
  revert acc. induction paths as [|q paths IH]; intros acc;
    cbn [fold_left existsb]; [reflexivity|].
  rewrite IH. unfold hash_step.
  destruct (String.eqb_spec p q) as [<-|Hne]; cbn [orb].
  - destruct (exists_at p); cbn [andb].
    + cbn zeta. destruct (negb (String.eqb (hash_of p) "")) eqn:Eh.
      * rewrite andb_true_r, get_set_same.
        now destruct (existsb (String.eqb p) paths).
      * now rewrite andb_false_r.
    + now rewrite andb_false_r.
  - destruct (existsb (String.eqb p) paths && exists_at p &&
              negb (String.eqb (hash_of p) "")); [reflexivity|].
    destruct (exists_at q); [|reflexivity].
    cbn zeta. destruct (negb (String.eqb (hash_of q) "")); [|reflexivity].
    apply get_set_other. congruence.
Qed.

End HashFold.



(** ** The status view: grouping the servers *)

Section Grouping.
Import SyncStatus.

(** The servers of a kind, as the groups list them. *)
Let listed (keep : SourceReader.Metadata -> bool)
    (l : list (string * SourceReader.ScopedEntry))
    : list (string * SourceReader.Scope) :=
  map (fun kv => (fst kv, SourceReader.scope (SourceReader.metadata (snd kv))))
      (filter (fun kv => keep (SourceReader.metadata (snd kv))) l).

Let file_in (s : SourceReader.Scope) (md : SourceReader.Metadata) : bool :=
  match SourceReader.source md, SourceReader.scope md, s with
  | SourceReader.file, SourceReader.user, SourceReader.user => true
  | SourceReader.file, SourceReader.project, SourceReader.project => true
  | SourceReader.file, SourceReader.local, SourceReader.local => true
  | _, _, _ => false
  end.

Let plugin_under (key : string) (md : SourceReader.Metadata) : bool :=
  match SourceReader.source md with
  | SourceReader.plugin => String.eqb (plugin_key md) key
  | SourceReader.file => false
  end.

Let servers_of (key : string)
    (d : PyDict.dict (list (string * SourceReader.Scope)))
    : list (string * SourceReader.Scope) :=
  match PyDict.get key d with
  | Some servers => servers
  | None => []
  end.

Lemma list_sum_set (d : PyDict.dict (list (string * SourceReader.Scope)))
    (key : string) (x : string * SourceReader.Scope) :
  list_sum
    (map (fun kv => List.length (snd kv))
         (PyDict.set key (servers_of key d ++ [x]) d)) =
  S (list_sum (map (fun kv => List.length (snd kv)) d)).
Proof.
  unfold servers_of. induction d as [|[k0 l0] r IH]; simpl; [reflexivity|].
  destruct (String.eqb_spec key k0) as [->|Hne]; simpl.
  - rewrite length_app. simpl. lia.
  - rewrite IH. lia.
Qed.

Lemma group_step_spec (g : Groups) kv :
  let g' := group_step g kv in
  g_user g' = g_user g ++ listed (file_in SourceReader.user) [kv] /\
  g_project g' = g_project g ++ listed (file_in SourceReader.project) [kv] /\
  g_local g' = g_local g ++ listed (file_in SourceReader.local) [kv] /\
  (PyDict.wf (g_plugins g) -> PyDict.wf (g_plugins g')) /\
  (forall key,
     servers_of key (g_plugins g') =
     servers_of key (g_plugins g) ++ listed (plugin_under key) [kv]) /\
  group_count g' = S (group_count g).
Proof.
  unfold group_step, listed, file_in, plugin_under, group_count.
  destruct (SourceReader.source (SourceReader.metadata (snd kv))) eqn:Es;
    [destruct (SourceReader.scope (SourceReader.metadata (snd kv))) eqn:Ec|];
    cbn [g_user g_project g_local g_plugins filter map];
    rewrite ?Es, ?Ec; cbn [filter map];
    rewrite ?app_nil_r, ?length_app; cbn [List.length];
    repeat split; try tauto; try lia; try (now rewrite Ec);
    try (intros key; now rewrite app_nil_r).
  - apply wf_set.
  - intros key. unfold servers_of. rewrite get_set.
    rewrite (String.eqb_sym key).
    destruct (String.eqb_spec
                (plugin_key (SourceReader.metadata (snd kv))) key)
      as [<-|Hne]; cbn [filter map]; [reflexivity|].
    now rewrite app_nil_r.
  - fold (servers_of (plugin_key (SourceReader.metadata (snd kv)))
            (g_plugins g)).
    rewrite list_sum_set. lia.
Qed.

Lemma group_fold_spec l (g : Groups) :
  let g' := fold_left group_step l g in
  g_user g' = g_user g ++ listed (file_in SourceReader.user) l /\
  g_project g' = g_project g ++ listed (file_in SourceReader.project) l /\
  g_local g' = g_local g ++ listed (file_in SourceReader.local) l /\
  (PyDict.wf (g_plugins g) -> PyDict.wf (g_plugins g')) /\
  (forall key,
     servers_of key (g_plugins g') =
     servers_of key (g_plugins g) ++ listed (plugin_under key) l) /\
  group_count g' = group_count g + List.length l.
Proof.
  revert g. induction l as [|kv r IH]; intros g; cbn [fold_left].
  - unfold listed. cbn [filter map List.length]. rewrite !app_nil_r.
    repeat split; try tauto; try lia. intros key. now rewrite app_nil_r.
  - destruct (IH (group_step g kv)) as (Hu & Hp & Hl & Hwf & Hk & Hc).
    destruct (group_step_spec g kv) as (Hu1 & Hp1 & Hl1 & Hwf1 & Hk1 & Hc1).
    assert (Hcons : forall keep,
      listed keep (kv :: r) = listed keep [kv] ++ listed keep r).
    { intros keep. unfold listed. cbn [filter].
      destruct (keep (SourceReader.metadata (snd kv))); reflexivity. }
    rewrite Hu, Hp, Hl, Hu1, Hp1, Hl1, Hc, Hc1, !Hcons, <- !app_assoc.
    repeat split; try tauto; cbn [List.length]; try lia.
    intros key. now rewrite Hk, Hk1, Hcons, <- app_assoc.
Qed.

End Grouping.

(** X28: [_group_mcps_by_source] sorts every server into exactly one
    group.  The user, project and local groups list, in the order of the
    map, the file-sourced servers of that scope; the plugin groups form a
    dict, and the list under a key holds, in the order of the map, the
    plugin-sourced servers whose [name@version] is the key, each with its
    scope; together the groups list as many servers as the map has. *)
Theorem X28_groups_partition_servers
    (mcp_servers_scoped : PyDict.dict SourceReader.ScopedEntry) :
  let groups := SyncStatus._group_mcps_by_source mcp_servers_scoped in
  let listed keep :=
    map (fun kv : string * SourceReader.ScopedEntry =>
           (fst kv, SourceReader.scope (SourceReader.metadata (snd kv))))
        (filter (fun kv => keep (SourceReader.metadata (snd kv)))
                mcp_servers_scoped) in
  let file_in s md :=
    match SourceReader.source md, SourceReader.scope md, s with
    | SourceReader.file, SourceReader.user, SourceReader.user => true
    | SourceReader.file, SourceReader.project, SourceReader.project => true
    | SourceReader.file, SourceReader.local, SourceReader.local => true
    | _, _, _ => false
    end in
  SyncStatus.g_user groups = listed (file_in SourceReader.user) /\
  SyncStatus.g_project groups = listed (file_in SourceReader.project) /\
  SyncStatus.g_local groups = listed (file_in SourceReader.local) /\
  PyDict.wf (SyncStatus.g_plugins groups) /\
  (forall key,
     match PyDict.get key (SyncStatus.g_plugins groups) with
     | Some servers => servers
     | None => []
     end =
     listed (fun md =>
               match SourceReader.source md with
               | SourceReader.plugin =>
                   String.eqb (SyncStatus.plugin_key md) key
               | SourceReader.file => false
               end)) /\
  SyncStatus.group_count groups = List.length mcp_servers_scoped.
Proof.
  intros groups listed file_in.
  destruct (group_fold_spec mcp_servers_scoped
              (SyncStatus.mkGroups [] [] [] []))
    as (Hu & Hp & Hl & Hwf & Hk & Hc).
  repeat split.
  - exact Hu.
  - exact Hp.
  - exact Hl.
  - apply Hwf. constructor.
  - intros key. exact (Hk key).
  - exact Hc.
Qed.

(** ** Structural diffs *)

Section StructuralDiff.
Import DiffFormatter.
Context {V : Type} (ne : V -> V -> bool).
Hypothesis ne_spec : forall a b, ne a b = false <-> a = b.

Lemma mem_iff (k : string) (s : list string) : mem k s = true <-> In k s.
Proof.
  unfold mem. rewrite existsb_exists. split.
  - intros (x & Hx & E). apply String.eqb_eq in E. now subst.
  - intros H. exists k. split; [exact H | apply String.eqb_refl].
Qed.

Lemma in_sorted (k : string) (l : list string) :
  In k (PyStr.sorted l) <-> In k l.
Proof.
  split; apply Permutation_in;
    [apply Permutation_sym|]; apply sorted_perm.
Qed.

Lemma in_set_of_keys (d : PyDict.dict V) (k : string) :
  In k (set_of (PyDict.keys d)) <-> PyDict.get k d <> None.
Proof. unfold set_of. rewrite nodup_In. apply in_keys_get. Qed.

Lemma in_added_keys (old_items new_items : PyDict.dict V)
    (k : string) :
  In k (added_keys old_items new_items) <->
  PyDict.get k old_items = None /\ PyDict.get k new_items <> None.
Proof.
  unfold added_keys. rewrite in_sorted, filter_In, in_set_of_keys.
  rewrite negb_true_iff, <- not_true_iff_false, mem_iff, in_set_of_keys.
  destruct (PyDict.get k old_items); intuition congruence.
Qed.

Lemma in_removed_keys (old_items new_items : PyDict.dict V)
    (k : string) :
  In k (removed_keys old_items new_items) <->
  PyDict.get k old_items <> None /\ PyDict.get k new_items = None.
Proof.
  unfold removed_keys. rewrite in_sorted, filter_In, in_set_of_keys.
  rewrite negb_true_iff, <- not_true_iff_false, mem_iff, in_set_of_keys.
  destruct (PyDict.get k new_items); intuition congruence.
Qed.

Lemma in_changed_keys (old_items new_items : PyDict.dict V)
    (k : string) :
  In k (changed_keys ne old_items new_items) <->
  exists a b,
    PyDict.get k old_items = Some a /\ PyDict.get k new_items = Some b /\
    a <> b.
Proof.
  unfold changed_keys. rewrite filter_In, in_sorted, filter_In.
  rewrite in_set_of_keys, mem_iff, in_set_of_keys.
  destruct (PyDict.get k old_items) as [a|], (PyDict.get k new_items) as [b|];
    split; try (intros [[? ?] ?]; congruence);
    try (intros (a0 & b0 & ? & ? & ?); congruence).
  - intros [_ Hne]. exists a, b. repeat split.
    intros E. apply ne_spec in E. congruence.
  - intros (a0 & b0 & [= <-] & [= <-] & Hab).
    repeat split; try congruence.
    destruct (ne a b) eqn:E; [reflexivity|].
    apply ne_spec in E. contradiction.
Qed.

Lemma no_changes_lines (label : string)
    (old_items new_items : PyDict.dict V) :
  structural_lines ne label old_items new_items =
    [("--- " ++ label ++ " ---")%string; "[no changes]"] <->
  added_keys old_items new_items = [] /\
  removed_keys old_items new_items = [] /\
  changed_keys ne old_items new_items = [].
Proof.
  unfold structural_lines. split.
  - intros H.
    assert (Hin : added_keys old_items new_items = [] /\
                  removed_keys old_items new_items = [] /\
                  changed_keys ne old_items new_items = [] \/
                  In "[no changes]"
                    (map (fun k => ("  + added: " ++ k)%string)
                         (added_keys old_items new_items) ++
                     map (fun k => ("  - removed: " ++ k)%string)
                         (removed_keys old_items new_items) ++
                     map (fun k => ("  ~ changed: " ++ k)%string)
                         (changed_keys ne old_items new_items))).
    { destruct (added_keys old_items new_items) as [|a ra],
        (removed_keys old_items new_items) as [|r rr],
        (changed_keys ne old_items new_items) as [|c rc];
        try (left; repeat split; reflexivity);
        right; cbn [app] in H; injection H as H; rewrite H; now left. }
    destruct Hin as [Hall|Hin]; [exact Hall|]. exfalso.
    apply in_app_or in Hin. destruct Hin as [Hin|Hin];
      [|apply in_app_or in Hin; destruct Hin as [Hin|Hin]];
      apply in_map_iff in Hin; destruct Hin as (k & E & _);
      simpl in E; discriminate.
  - intros (-> & -> & ->). reflexivity.
Qed.

End StructuralDiff.

(** X29: [add_structural_diff] reports what differs between the two
    dicts, and [[no changes]] exactly when nothing does.  For values
    whose [!=] decides equality: a key is listed as added if and only if
    the new dict has it and the old one has not, as removed if and only
    if the old dict has it and the new one has not, as changed if and
    only if both have it with different values; and the lines are the
    label line followed by [[no changes]] if and only if the two dicts
    give every key the same value. *)
Theorem X29_structural_diff_no_changes_iff {V : Type}
    (ne : V -> V -> bool) (label : string)
    (old_items new_items : PyDict.dict V) :
  (forall a b, ne a b = false <-> a = b) ->
  (forall k,
     (In k (DiffFormatter.added_keys old_items new_items) <->
      PyDict.get k old_items = None /\ PyDict.get k new_items <> None) /\
     (In k (DiffFormatter.removed_keys old_items new_items) <->
      PyDict.get k old_items <> None /\ PyDict.get k new_items = None) /\
     (In k (DiffFormatter.changed_keys ne old_items new_items) <->
      exists a b,
        PyDict.get k old_items = Some a /\
        PyDict.get k new_items = Some b /\ a <> b)) /\
  (DiffFormatter.structural_lines ne label old_items new_items =
     [("--- " ++ label ++ " ---")%string; "[no changes]"] <->
   forall k, PyDict.get k old_items = PyDict.get k new_items).
Proof.
  intros ne_spec. split.
  - intros k. split; [apply in_added_keys|].
    split; [apply in_removed_keys | now apply in_changed_keys].
  - rewrite no_changes_lines. split.
    + intros (Ha & Hr & Hc) k.
      pose proof (in_added_keys old_items new_items k) as Ia.
      pose proof (in_removed_keys old_items new_items k) as Ir.
      pose proof (in_changed_keys ne ne_spec old_items new_items k) as Ic.
      rewrite Ha in Ia. rewrite Hr in Ir. rewrite Hc in Ic.
      destruct (PyDict.get k old_items) as [a|],
        (PyDict.get k new_items) as [b|]; try reflexivity.
      * destruct (ne a b) eqn:E.
        -- exfalso. apply Ic. exists a, b. repeat split.
           intros Eab. apply ne_spec in Eab. congruence.
        -- apply ne_spec in E. now subst.
      * exfalso. apply Ir. split; congruence.
      * exfalso. apply Ia. split; congruence.
    + intros Heq.
      assert (Hnil : forall l : list string,
                (forall k, ~ In k l) -> l = []).
      { intros [|x r] H; [reflexivity|]. exfalso. apply (H x). now left. }
      repeat split; apply Hnil; intros k Hin.
      * apply in_added_keys in Hin. rewrite Heq in Hin. tauto.
      * apply in_removed_keys in Hin. rewrite Heq in Hin. tauto.
      * apply (in_changed_keys ne ne_spec) in Hin.
        destruct Hin as (a & b & Ho & Hn & Hab). rewrite Heq in Ho.
        congruence.
Qed.

Lemma X29_structural_diff_no_changes_iff_witness :
  DiffFormatter.structural_lines (fun a b => negb (String.eqb a b))
    "gemini/mcp"
    [("search", "npx search"); ("index", "npx index")]
    [("index", "npx index"); ("search", "npx search")] =
  ["--- gemini/mcp ---"; "[no changes]"].
Proof.
  apply (X29_structural_diff_no_changes_iff
           (fun a b => negb (String.eqb a b)) "gemini/mcp"
           [("search", "npx search"); ("index", "npx index")]
           [("index", "npx index"); ("search", "npx search")]).
  - intros a b. rewrite negb_false_iff. apply String.eqb_eq.
  - intros k. simpl.
    destruct (String.eqb k "search") eqn:E1, (String.eqb k "index") eqn:E2;
      try reflexivity.
    apply String.eqb_eq in E1, E2. congruence.
Defined.

(** ** The results table *)

Section TableRows.
Import SyncCommand.

Lemma ascii_compare_trans_lt (a b c : ascii) :
  Ascii.compare a b = Lt -> Ascii.compare b c = Lt -> Ascii.compare a c = Lt.
Proof. unfold Ascii.compare. rewrite !N.compare_lt_iff. lia. Qed.

Lemma str_le_trans (s1 s2 s3 : string) :
  Order.str_le s1 s2 -> Order.str_le s2 s3 -> Order.str_le s1 s3.
Proof.
  unfold Order.str_le, String.leb. revert s2 s3.
  induction s1 as [|a s1 IH]; intros [|b s2] [|c s3]; simpl;
    try reflexivity; try discriminate.
  destruct (Ascii.compare a b) eqn:Eab; try discriminate;
    destruct (Ascii.compare b c) eqn:Ebc; try discriminate; intros H1 H2.
  - apply Ascii.compare_eq_iff in Eab, Ebc. subst.
    assert (E : Ascii.compare c c = Eq)
      by (unfold Ascii.compare; apply N.compare_refl).
    rewrite E. now apply (IH s2).
  - apply Ascii.compare_eq_iff in Eab. subst. now rewrite Ebc.
  - apply Ascii.compare_eq_iff in Ebc. subst. now rewrite Eab.
  - now rewrite (ascii_compare_trans_lt a b c).
Qed.

Lemma sorted_filter (f : string -> bool) (l : list string) :
  Sorted Order.str_le l -> Sorted Order.str_le (filter f l).
Proof.
  intros Hs. apply StronglySorted_Sorted.
  apply Sorted_StronglySorted in Hs;
    [|intros x y z; apply str_le_trans].
  induction Hs as [|x r Hr IH Hall]; simpl; [constructor|].
  destruct (f x); [|exact IH].
  constructor; [exact IH|].
  rewrite Forall_forall in *. intros y Hy. apply Hall.
  apply filter_In in Hy. tauto.
Qed.

Lemma keys_insert_item {V : Type} (x : string * V) (l : list (string * V)) :
  map fst (insert_item x l) = PyStr.insert_sorted (fst x) (map fst l).
Proof.
  induction l as [|y r IH]; simpl; [reflexivity|].
  destruct (String.leb (fst x) (fst y)); simpl; [reflexivity|].
  now rewrite IH.
Qed.

Lemma keys_sorted_items {V : Type} (d : PyDict.dict V) :
  map fst (sorted_items d) = PyStr.sorted (PyDict.keys d).
Proof.
  unfold sorted_items, PyStr.sorted, PyDict.keys, PyDict.items.
  induction d as [|x r IH]; simpl; [reflexivity|].
  now rewrite keys_insert_item, IH.
Qed.

Lemma insert_item_perm {V : Type} (x : string * V) (l : list (string * V)) :
  Permutation (x :: l) (insert_item x l).
Proof.
  induction l as [|y r IH]; simpl; [reflexivity|].
  destruct (String.leb (fst x) (fst y)); [reflexivity|].
  rewrite perm_swap. now apply perm_skip.
Qed.

Lemma sorted_items_perm {V : Type} (d : PyDict.dict V) :
  Permutation d (sorted_items d).
Proof.
  unfold sorted_items, PyDict.items.
  induction d as [|x r IH]; simpl; [reflexivity|].
  rewrite <- insert_item_perm. now apply perm_skip.
Qed.

Lemma status_of_recorded (synced skipped failed : Z) :
  status_of synced failed =
  StateManager.record_sync_status synced skipped failed.
Proof.
  unfold status_of, StateManager.record_sync_status.
  destruct (failed =? 0)%Z eqn:E; [reflexivity|].
  destruct ((synced >? 0)%Z && (failed >? 0)%Z); [reflexivity|].
  now rewrite andb_false_r.
Qed.

Lemma status_of_not_nothing (synced failed : Z) :
  status_of synced failed <> "nothing".
Proof.
  unfold status_of.
  destruct (failed =? 0)%Z eqn:E; [discriminate|].
  destruct ((synced >? 0)%Z && (failed >? 0)%Z); [discriminate|].
  rewrite andb_false_r. discriminate.
Qed.

Lemma rows_of_items (l : list (string * Orchestrator.TargetResult)) :
  let rows :=
    flat_map
      (fun kv =>
         if PyStr.startswith (fst kv) "_" then []
         else
           let '(synced, skipped, failed) := counts (snd kv) in
           [mkRow (fst kv) synced skipped failed (status_of synced failed)])
      l in
  map row_target rows =
    filter (fun t => negb (PyStr.startswith t "_")) (map fst l) /\
  forall row,
    In row rows ->
    exists tr,
      In (row_target row, tr) l /\
      PyStr.startswith (row_target row) "_" = false /\
      (row_synced row, row_skipped row, row_failed row) = counts tr /\
      row_status row = status_of (row_synced row) (row_failed row).
Proof.
  induction l as [|[target tr] r [IHt IHr]]; cbn zeta.
  - split; [reflexivity | intros row []].
  - cbn [flat_map map filter fst snd].
    destruct (PyStr.startswith target "_") eqn:Eu; cbn [negb app].
    + split; [exact IHt|]. intros row Hin.
      destruct (IHr row Hin) as (tr' & H1 & H2). exists tr'.
      split; [now right | exact H2].
    + destruct (counts tr) as [[synced skipped] failed] eqn:Ec.
      cbn [app map row_target]. split; [now rewrite IHt|].
      intros row [<-|Hin].
      * exists tr. cbn [row_target row_synced row_skipped row_failed
                        row_status].
        repeat split; [now left | exact Eu | now rewrite Ec].
      * destruct (IHr row Hin) as (tr' & H1 & H2). exists tr'.
        split; [now right | exact H2].
Qed.

Context {W : Type}.

Lemma update_state_recorded_counts (env : Orchestrator.Env W)
    (self : Orchestrator.t) results (w : Orchestrator.World W) target tr :
  PyDict.wf results -> In (target, tr) results ->
  PyStr.startswith target "_" = false ->
  exists ts,
    StateManager.recorded_target
      (Orchestrator.state_manager
         (snd (Orchestrator._update_state env self results w)))
      (Orchestrator.account self) target = Some ts /\
    (StateManager.ts_items_synced ts, StateManager.ts_items_skipped ts,
     StateManager.ts_items_failed ts) = Orchestrator.sum_counts tr /\
    StateManager.ts_status ts =
      StateManager.record_sync_status
        (StateManager.ts_items_synced ts) (StateManager.ts_items_skipped ts)
        (StateManager.ts_items_failed ts).
Proof.
  intros Hwf Hin Hu.
  destruct (for_each_record_target self (Orchestrator.hash_sources W env w)
              (PyDict.items results) target tr w Hwf Hin Hu)
    as (ts & Hts & _ & _ & Hc & Hs).
  exists ts. split; [|split; assumption].
  rewrite update_state_run. rewrite <- Hts.
  set (w1 := snd (Exc.for_each _ _ w)).
  set (pm := Orchestrator._extract_plugin_metadata _ _).
  assert (Hst : StateManager._state (snd pm) =
                StateManager._state (Orchestrator.state_manager w1)).
  { unfold pm, Orchestrator._extract_plugin_metadata.
    apply extract_fold_state. }
  destruct (negb (PyDict.is_empty (fst pm)));
    cbn [snd Orchestrator.state_manager].
  - rewrite recorded_target_plugin_sync. now apply recorded_target_state.
  - now apply recorded_target_state.
Qed.

End TableRows.

(** X30: the results table shows what the state records.  The rows of
    [format_results_table] are, in ascending order and each once, the
    target names of the results that do not start with an underscore;
    and for results that form a dict, the counters and the status of
    every row are those of the record that [_update_state] writes for
    the row's target under the run's account.  The status of a row is
    never [nothing]. *)
Theorem X30_table_rows_agree_with_state {W : Type}
    (env : Orchestrator.Env W) (self : Orchestrator.t)
    (results : PyDict.dict Orchestrator.TargetResult)
    (w : Orchestrator.World W) :
  PyDict.wf results ->
  let rows := SyncCommand.table_rows results in
  let w' := snd (Orchestrator._update_state env self results w) in
  map SyncCommand.row_target rows =
    filter (fun t => negb (PyStr.startswith t "_"))
           (PyStr.sorted (PyDict.keys results)) /\
  Sorted Order.str_le (map SyncCommand.row_target rows) /\
  NoDup (map SyncCommand.row_target rows) /\
  (forall row,
     In row rows ->
     SyncCommand.row_status row <> "nothing" /\
     exists ts,
       StateManager.recorded_target (Orchestrator.state_manager w')
         (Orchestrator.account self) (SyncCommand.row_target row) =
         Some ts /\
       StateManager.ts_items_synced ts = SyncCommand.row_synced row /\
       StateManager.ts_items_skipped ts = SyncCommand.row_skipped row /\
       StateManager.ts_items_failed ts = SyncCommand.row_failed row /\
       StateManager.ts_status ts = SyncCommand.row_status row).
Proof.
  intros Hwf rows w'.
  destruct (rows_of_items (SyncCommand.sorted_items results))
    as [Ht Hrows].
  fold (SyncCommand.table_rows results) in Ht, Hrows. fold rows in Ht, Hrows.
  rewrite keys_sorted_items in Ht.
  split; [exact Ht|]. rewrite Ht. split; [|split].
  - apply sorted_filter, sorted_sorted.
  - apply NoDup_filter.
    apply (Permutation_NoDup (sorted_perm (PyDict.keys results))).
    exact Hwf.
  - intros row Hin.
    destruct (Hrows row Hin) as (tr & Hitem & Hu & Hc & Hs).
    split; [rewrite Hs; apply status_of_not_nothing|].
    apply (Permutation_in _ (Permutation_sym (sorted_items_perm results)))
      in Hitem.
    destruct (update_state_recorded_counts env self results w
                (SyncCommand.row_target row) tr Hwf Hitem Hu)
      as (ts & Hts & Hsum & Hst).
    exists ts. split; [exact Hts|].
    change (Orchestrator.sum_counts tr) with (SyncCommand.counts tr) in Hsum.
    rewrite <- Hc in Hsum. injection Hsum as H1 H2 H3.
    rewrite Hst, H1, H2, H3, Hs.
    repeat split. symmetry. apply status_of_recorded.
Qed.

Lemma X30_table_rows_agree_with_state_witness :
  map SyncCommand.row_target
    (SyncCommand.table_rows
       [("gemini",
         Orchestrator.Synced
           [("rules", Result.mkSyncResult 2 1 0 0 [] [] []);
            ("mcp", Result.failure "mcp: disk full")]);
        ("_note", Orchestrator.Preview "text");
        ("codex",
         Orchestrator.Synced
           [("rules", Result.mkSyncResult 3 0 0 0 [] [] [])])]) =
  ["codex"; "gemini"].
Proof.
  destruct (X30_table_rows_agree_with_state
              (Scenario.env_of Scenario.reader_with_plugin)
              Scenario.orchestrator
              [("gemini",
                Orchestrator.Synced
                  [("rules", Result.mkSyncResult 2 1 0 0 [] [] []);
                   ("mcp", Result.failure "mcp: disk full")]);
               ("_note", Orchestrator.Preview "text");
               ("codex",
                Orchestrator.Synced
                  [("rules", Result.mkSyncResult 3 0 0 0 [] [] [])])]
              Scenario.world0) as [H _].
  - solve_wf.
  - rewrite H. reflexivity.
Defined.
